(** * melonDS DS: screen compositor, OpenGL context lifecycle, libretro entry points

    A shallow embedding of [src/libretro/opengl.cpp] and
    [src/libretro/libretro.cpp].

    - The C++ [float] computations are written once, over an interface
      [FloatOps], and run at two instances: IEEE binary32 with
      round-to-nearest-even (what the compiled code computes, assuming no
      excess precision), and exact rationals (the real-number reading of
      the same expressions).
    - The file-level statics of [melonds::opengl] become the record
      [Globals]; the OpenGL driver is a small object store [GlState]; every
      call the code issues is appended to a trace of [Event]s.
    - What the driver and the emulation engine answer (generated names,
      whether a buffer mapping succeeds, whether the engine call throws) is
      an explicit argument of the operation that asks.
    - Of [opengl.cpp], [Initialize] and [deinitialize] are left out; of
      [libretro.cpp], [retro_init], [retro_deinit], [retro_get_system_info]
      and [retro_api_version] are. *)

From Stdlib Require Import ZArith QArith Qcanon String List Lia Bool.
From Stdlib Require Import Floats.SpecFloat.
From Stdlib Require Import Lqa.
From stdpp Require Import base gmap list.

Open Scope Z_scope.

(** ** Arithmetic of the C++ [float] expressions *)

Class FloatOps (F : Type) := {
  of_int : Z -> F;          (* (float) n, and integer literals used as floats *)
  fadd : F -> F -> F;
  fsub : F -> F -> F;
  fmul : F -> F -> F;
  fdiv : F -> F -> F;
  fleb : F -> F -> bool;    (* a <= b *)
  feqb : F -> F -> bool     (* a == b *)
}.

Declare Scope float_scope.
Delimit Scope float_scope with flt.
Infix "+" := fadd : float_scope.
Infix "-" := fsub : float_scope.
Infix "*" := fmul : float_scope.
Infix "/" := fdiv : float_scope.

(** A decimal literal [num/den] with both parts exactly representable:
    [0.5f] is [flit 1 2], [1.35f] is [flit 135 100]. A correctly rounded
    division gives the float nearest to the decimal, which is what the
    compiler stores for the literal. *)
Definition flit {F} `{FloatOps F} (num den : Z) : F := fdiv (of_int num) (of_int den).

Module Binary32.
(** IEEE 754 binary32: 24 bits of precision, exponents below 128. *)
Definition prec : Z := 24.
Definition emax : Z := 128.
Definition t : Type := spec_float.

Definition of_Z (n : Z) : t := binary_normalize prec emax n 0 false.

#[global] Instance ops : FloatOps t := {|
  of_int := of_Z;
  fadd := SFadd prec emax;
  fsub := SFsub prec emax;
  fmul := SFmul prec emax;
  fdiv := SFdiv prec emax;
  fleb := SFleb;
  feqb := SFeqb
|}.

(** The number a float denotes: [m * 2^e] with its sign; an infinity or a
    NaN denotes none. *)
Definition to_Q (x : t) : option Q :=
  match x with
  | S754_zero _ => Some 0%Q
  | S754_finite s m e =>
      Some (inject_Z (if s then Z.neg m else Z.pos m) *
            (if (e <? 0)%Z then 1 # Pos.pow 2 (Z.to_pos (- e)) else inject_Z (2 ^ e)))%Q
  | _ => None
  end.
End Binary32.

Module Exact.
(** Exact rationals in canonical form, so that equal numbers are equal
    terms. *)
Definition t : Type := Qc.

Definition of_Z (n : Z) : t := Q2Qc (inject_Z n).

Definition leb (a b : t) : bool := Qle_bool a b.

Definition eqb (a b : t) : bool := Qeq_bool a b.

#[global] Instance ops : FloatOps t := {|
  of_int := of_Z;
  fadd := Qcplus;
  fsub := Qcminus;
  fmul := Qcmult;
  fdiv := Qcdiv;
  fleb := leb;
  feqb := eqb
|}.
End Exact.

(** ** Layout data (the types of [screenlayout.hpp] and [config.hpp]) *)

(** Modelled from the spec: the two enums are declared in [config.hpp],
    which is not among the sources; the variants are those the spec
    lists, which are the cases of the [switch] and the values the code
    compares against. *)
Inductive ScreenLayout :=
| TopBottom | BottomTop | LeftRight | RightLeft
| TopOnly | BottomOnly | HybridTop | HybridBottom.

Inductive SmallScreenLayout :=
| SmallScreenTop | SmallScreenBottom | SmallScreenDuplicate.

#[global] Instance ScreenLayout_eq_dec : EqDecision ScreenLayout.
Proof. solve_decision. Defined.

#[global] Instance SmallScreenLayout_eq_dec : EqDecision SmallScreenLayout.
Proof. solve_decision. Defined.

(** Modelled from the spec: [ScreenLayoutData] is declared in
    [screenlayout.hpp], which is not among the sources. These are the
    accessors [opengl.cpp] calls, each read as a stored field; the sizes
    are integers (they are cast to [float], to [GLsizei] or to [unsigned]
    at the call site), and the small-screen option is stored whatever the
    layout, as the code reads it before it tests [IsHybridLayout]. *)
Record ScreenLayoutData := {
  Layout : ScreenLayout;
  HybridSmallScreenLayout : SmallScreenLayout;
  ScreenWidth : Z;
  ScreenHeight : Z;
  ScaledScreenGap : Z;
  HybridRatio : Z;
  BufferWidth : Z;
  BufferHeight : Z
}.

(** Modelled from the spec: [ScreenLayoutData::IsHybridLayout] is not among
    the sources; a layout is hybrid when it is one of the two Hybrid
    variants. *)
Definition IsHybridLayout (d : ScreenLayoutData) : bool :=
  match Layout d with
  | HybridTop | HybridBottom => true
  | _ => false
  end.

(** ** The geometry part of [InitializeFrameState] *)

Section Compositor.
Context {F : Type} `{FloatOps F}.
Local Open Scope float_scope.

(** One [SETVERTEX] argument list: position and texture coordinate. *)
Record Vertex := mkVertex { pos_x : F; pos_y : F; tex_u : F; tex_v : F }.

(** [const float pixel_pad = 1.0f / (192 * 2 + 2);] *)
Definition pixel_pad : F := of_int 1 / of_int (192 * 2 + 2).

Definition f0 : F := of_int 0.
Definition f1 : F := of_int 1.
Definition half : F := flit 1 2.

(** The locals assigned by the [switch] over the layout. *)
Record Placement := {
    top_screen_x : F; top_screen_y : F; top_screen_scale : F;
    bottom_screen_x : F; bottom_screen_y : F; bottom_screen_scale : F;
    primary_x : F; primary_y : F;
    primary_tex_v0 : F * F; primary_tex_v1 : F * F; primary_tex_v2 : F * F;
    primary_tex_v3 : F * F; primary_tex_v4 : F * F; primary_tex_v5 : F * F
  }.

Definition initial_placement : Placement := {|
    top_screen_x := f0; top_screen_y := f0; top_screen_scale := f1;
    bottom_screen_x := f0; bottom_screen_y := f0; bottom_screen_scale := f1;
    primary_x := f0; primary_y := f0;
    primary_tex_v0 := (f0, f0); primary_tex_v1 := (f0, f0);
    primary_tex_v2 := (f0, f0); primary_tex_v3 := (f0, f0);
    primary_tex_v4 := (f0, f0); primary_tex_v5 := (f0, f0)
  |}.

Definition screen_width (d : ScreenLayoutData) : F := of_int (ScreenWidth d).
Definition screen_height (d : ScreenLayoutData) : F := of_int (ScreenHeight d).
Definition screen_gap (d : ScreenLayoutData) : F := of_int (ScaledScreenGap d).

Definition with_top (p : Placement) (x y : F) : Placement := {|
    top_screen_x := x; top_screen_y := y; top_screen_scale := top_screen_scale p;
    bottom_screen_x := bottom_screen_x p; bottom_screen_y := bottom_screen_y p;
    bottom_screen_scale := bottom_screen_scale p;
    primary_x := primary_x p; primary_y := primary_y p;
    primary_tex_v0 := primary_tex_v0 p; primary_tex_v1 := primary_tex_v1 p;
    primary_tex_v2 := primary_tex_v2 p; primary_tex_v3 := primary_tex_v3 p;
    primary_tex_v4 := primary_tex_v4 p; primary_tex_v5 := primary_tex_v5 p
  |}.

Definition with_bottom (p : Placement) (x y : F) : Placement := {|
    top_screen_x := top_screen_x p; top_screen_y := top_screen_y p;
    top_screen_scale := top_screen_scale p;
    bottom_screen_x := x; bottom_screen_y := y;
    bottom_screen_scale := bottom_screen_scale p;
    primary_x := primary_x p; primary_y := primary_y p;
    primary_tex_v0 := primary_tex_v0 p; primary_tex_v1 := primary_tex_v1 p;
    primary_tex_v2 := primary_tex_v2 p; primary_tex_v3 := primary_tex_v3 p;
    primary_tex_v4 := primary_tex_v4 p; primary_tex_v5 := primary_tex_v5 p
  |}.

Definition with_primary (p : Placement) (x y : F)
      (t0 t1 t2 t3 t4 t5 : F * F) : Placement := {|
    top_screen_x := top_screen_x p; top_screen_y := top_screen_y p;
    top_screen_scale := top_screen_scale p;
    bottom_screen_x := bottom_screen_x p; bottom_screen_y := bottom_screen_y p;
    bottom_screen_scale := bottom_screen_scale p;
    primary_x := x; primary_y := y;
    primary_tex_v0 := t0; primary_tex_v1 := t1; primary_tex_v2 := t2;
    primary_tex_v3 := t3; primary_tex_v4 := t4; primary_tex_v5 := t5
  |}.

(** [switch (screenLayout.Layout())] *)
Definition place (d : ScreenLayoutData) : Placement :=
    let p := initial_placement in
    let w := screen_width d in
    let h := screen_height d in
    let gap := screen_gap d in
    match Layout d with
    | TopBottom => with_bottom p (bottom_screen_x p) (h + gap)
    | BottomTop => with_top p (top_screen_x p) (h + gap)
    | LeftRight => with_bottom p w (bottom_screen_y p)
    | RightLeft => with_top p w (top_screen_y p)
    | TopOnly => with_bottom p (bottom_screen_x p) h
    | BottomOnly => with_top p (top_screen_x p) h
    | HybridTop =>
        with_primary p (w * of_int (HybridRatio d)) (h * of_int (HybridRatio d))
          (f0, f0) (f0, half - pixel_pad) (f1, half - pixel_pad)
          (f0, f0) (f1, f0) (f1, half - pixel_pad)
    | HybridBottom =>
        with_primary p (w * of_int (HybridRatio d)) (h * of_int (HybridRatio d))
          (f0, half + pixel_pad) (f0, f1) (f1, f1)
          (f0, half + pixel_pad) (f1, half + pixel_pad) (f1, f1)
    end.

(** A [SETVERTEX(i, x, y, t_x, t_y)] statement: the slot and the vertex. *)
Definition SV (i : nat) (x y tx ty : F) : nat * Vertex := (i, mkVertex x y tx ty).

(** The statements executed after the [switch], in program order. *)
Definition hybrid_primary (p : Placement) : list (nat * Vertex) :=
    [ SV 0 f0 f0 (fst (primary_tex_v0 p)) (snd (primary_tex_v0 p));
      SV 1 f0 (primary_y p) (fst (primary_tex_v1 p)) (snd (primary_tex_v1 p));
      SV 2 (primary_x p) (primary_y p) (fst (primary_tex_v2 p)) (snd (primary_tex_v2 p));
      SV 3 f0 f0 (fst (primary_tex_v3 p)) (snd (primary_tex_v3 p));
      SV 4 (primary_x p) f0 (fst (primary_tex_v4 p)) (snd (primary_tex_v4 p));
      SV 5 (primary_x p) (primary_y p) (fst (primary_tex_v5 p)) (snd (primary_tex_v5 p)) ].

Definition hybrid_top_block (d : ScreenLayoutData) (p : Placement) : list (nat * Vertex) :=
    let w := screen_width d in
    let h := screen_height d in
    let layout := Layout d in
    let small := HybridSmallScreenLayout d in
    if bool_decide (small = SmallScreenTop) && bool_decide (layout = HybridTop) then
      [ SV 6 (primary_x p) f0 f0 (half + pixel_pad);
        SV 7 (primary_x p) (f0 + h) f0 f1;
        SV 8 (primary_x p + w) (f0 + h) f1 f1;
        SV 9 (primary_x p) f0 f0 (half + pixel_pad);
        SV 10 (primary_x p + w) f0 f1 (half + pixel_pad);
        SV 11 (primary_x p + w) (f0 + h) f1 f1 ]
    else if bool_decide (small = SmallScreenDuplicate)
            || (bool_decide (layout = HybridBottom) && bool_decide (small = SmallScreenTop)) then
      [ SV 6 (primary_x p) f0 f0 f0;
        SV 7 (primary_x p) (f0 + h) f0 (half - pixel_pad);
        SV 8 (primary_x p + w) (f0 + h) f1 (half - pixel_pad);
        SV 9 (primary_x p) f0 f0 f0;
        SV 10 (primary_x p + w) f0 f1 f0;
        SV 11 (primary_x p + w) (f0 + h) f1 (half - pixel_pad) ]
    else [].

Definition hybrid_bottom_block (d : ScreenLayoutData) (p : Placement) : list (nat * Vertex) :=
    let w := screen_width d in
    let h := screen_height d in
    let layout := Layout d in
    let small := HybridSmallScreenLayout d in
    if bool_decide (small = SmallScreenBottom) && bool_decide (layout = HybridTop) then
      [ SV 6 (primary_x p) (primary_y p - h) f0 (half + pixel_pad);
        SV 7 (primary_x p) (primary_y p) f0 f1;
        SV 8 (primary_x p + w) (primary_y p) f1 f1;
        SV 9 (primary_x p) (primary_y p - h) f0 (half + pixel_pad);
        SV 10 (primary_x p + w) (primary_y p - h) f1 (half + pixel_pad);
        SV 11 (primary_x p + w) (primary_y p) f1 f1 ]
    else if bool_decide (small = SmallScreenBottom) && bool_decide (layout = HybridBottom) then
      [ SV 6 (primary_x p) (primary_y p - h) f0 f0;
        SV 7 (primary_x p) (primary_y p) f0 (half - pixel_pad);
        SV 8 (primary_x p + w) (primary_y p) f1 (half - pixel_pad);
        SV 9 (primary_x p) (primary_y p - h) f0 f0;
        SV 10 (primary_x p + w) (primary_y p - h) f1 f0;
        SV 11 (primary_x p + w) (primary_y p) f1 (half - pixel_pad) ]
    else if bool_decide (small = SmallScreenDuplicate) then
      [ SV 12 (primary_x p) (primary_y p - h) f0 (half + pixel_pad);
        SV 13 (primary_x p) (primary_y p) f0 f1;
        SV 14 (primary_x p + w) (primary_y p) f1 f1;
        SV 15 (primary_x p) (primary_y p - h) f0 (half + pixel_pad);
        SV 16 (primary_x p + w) (primary_y p - h) f1 (half + pixel_pad);
        SV 17 (primary_x p + w) (primary_y p) f1 f1 ]
    else [].

Definition plain_top_quad (d : ScreenLayoutData) (p : Placement) : list (nat * Vertex) :=
    let w := screen_width d in
    let h := screen_height d in
    let x := top_screen_x p in
    let y := top_screen_y p in
    let s := top_screen_scale p in
    [ SV 0 x y f0 f0;
      SV 1 x (y + h * s) f0 (half - pixel_pad);
      SV 2 (x + w * s) (y + h * s) f1 (half - pixel_pad);
      SV 3 x y f0 f0;
      SV 4 (x + w * s) y f1 f0;
      SV 5 (x + w * s) (y + h * s) f1 (half - pixel_pad) ].

Definition plain_bottom_quad (d : ScreenLayoutData) (p : Placement) : list (nat * Vertex) :=
    let w := screen_width d in
    let h := screen_height d in
    let x := bottom_screen_x p in
    let y := bottom_screen_y p in
    let s := bottom_screen_scale p in
    [ SV 6 x y f0 (half + pixel_pad);
      SV 7 x (y + h * s) f0 f1;
      SV 8 (x + w * s) (y + h * s) f1 f1;
      SV 9 x y f0 (half + pixel_pad);
      SV 10 (x + w * s) y f1 (half + pixel_pad);
      SV 11 (x + w * s) (y + h * s) f1 f1 ].

Definition frame_vertices (d : ScreenLayoutData) : list (nat * Vertex) :=
    let p := place d in
    if IsHybridLayout d then
      hybrid_primary p ++ hybrid_top_block d p ++ hybrid_bottom_block d p
    else
      plain_top_quad d p ++ plain_bottom_quad d p.

(** The macro body: four stores into [screen_vertices]. A store past the
      end of the list is dropped; the array has 72 slots and no index
      above 17 occurs, so none is. *)
Definition SETVERTEX (buf : list F) (sv : nat * Vertex) : list F :=
    let i := fst sv in
    let v := snd sv in
    <[(4 * i + 3)%nat := tex_v v]>
      (<[(4 * i + 2)%nat := tex_u v]>
        (<[(4 * i + 1)%nat := pos_y v]>
          (<[(4 * i + 0)%nat := pos_x v]> buf))).

Definition write_vertices (buf : list F) (svs : list (nat * Vertex)) : list F :=
    fold_left SETVERTEX svs buf.

(** The vertex slots a rebuild stores to, each counted once. *)
Definition written_slots (d : ScreenLayoutData) : list nat :=
    remove_dups (map fst (frame_vertices d)).

Definition vertices_written (d : ScreenLayoutData) : Z :=
    Z.of_nat (length (written_slots d)).

(** Vertex [i] as the rebuild leaves it, if the rebuild stores to it
      (the last store wins). *)
Definition vertex_at (d : ScreenLayoutData) (i : nat) : option Vertex :=
    snd <$> last (filter (λ sv, fst sv = i) (frame_vertices d)).
(** Field [k] of a vertex, in the order of the four stores of the macro. *)
Definition component (k : nat) (v : Vertex) : F :=
  match k with
  | 0%nat => pos_x v
  | 1%nat => pos_y v
  | 2%nat => tex_u v
  | _ => tex_v v
  end.
End Compositor.

Arguments Vertex F : clear implicits.
Arguments Placement F : clear implicits.

(** ** Inputs read by the renderer *)

Inductive Renderer := Software | OpenGl.

Inductive ScreenFilter := Nearest | Linear.

#[global] Instance Renderer_eq_dec : EqDecision Renderer.
Proof. solve_decision. Defined.

#[global] Instance ScreenFilter_eq_dec : EqDecision ScreenFilter.
Proof. solve_decision. Defined.

(** Modelled from the spec: [InputState] is declared in [input.hpp], which
    is not among the sources; this is what [Render] asks of it. *)
Record InputState := {
  CursorEnabled : bool;
  TouchX : Z;
  TouchY : Z
}.

(** Modelled from the spec: [NDS_SCREEN_WIDTH] and [NDS_SCREEN_HEIGHT] come
    from a header that is not among the sources; the screen is 256x192. *)
Definition NDS_SCREEN_WIDTH : Z := 256.
Definition NDS_SCREEN_HEIGHT : Z := 192.

(** ** Integer conversions at the call sites *)

(** [glViewport] takes its sizes as [GLsizei], a 32-bit signed integer, and
    the host's video callback takes them as [unsigned]; an integer
    argument is converted on the way, modulo 2^32. *)
Definition as_GLsizei (n : Z) : Z := (n + 2 ^ 31) mod 2 ^ 32 - 2 ^ 31.
Definition as_unsigned (n : Z) : Z := n mod 2 ^ 32.

Arguments as_GLsizei : simpl never.
Arguments as_unsigned : simpl never.

(** ** Calls issued to OpenGL, glsm, the emulation engine and the host *)

Inductive glsm_op :=
| GLSM_CTL_STATE_BIND | GLSM_CTL_STATE_UNBIND
| GLSM_CTL_STATE_CONTEXT_RESET | GLSM_CTL_STATE_SETUP.

Inductive BufferTarget := GL_UNIFORM_BUFFER | GL_ARRAY_BUFFER.

Inductive TexFilter := GL_LINEAR | GL_NEAREST.

Inductive LogLevel := RETRO_LOG_DEBUG | RETRO_LOG_ERROR.

Definition ShaderIds : Type := N * N * N.

Inductive Event :=
| E_log (level : LogLevel) (msg : string)
| E_glsm_ctl (op : glsm_op)
| E_glBindFramebuffer
| E_glClearColor
| E_glClear
| E_glBindBuffer (target : BufferTarget) (name : N)
| E_glMapBuffer (target : BufferTarget) (mapped : bool)
| E_glUnmapBuffer (target : BufferTarget)
| E_UseShaderProgram (ids : ShaderIds)
| E_glViewport (w h : Z)
| E_BindOutputTexture (frontbuf : Z)
| E_set_filter (filter : TexFilter)
| E_glBindVertexArray (name : N)
| E_glDrawArrays (first count : Z)
| E_glFlush
| E_video_refresh (w h : Z)
| E_DeInitRenderer
| E_InitRenderer (r : Renderer)
| E_SetRenderSettings
| E_glDeleteTextures (name : N)
| E_glDeleteVertexArrays (name : N)
| E_glDeleteBuffers (name : N)
| E_DeleteShaderProgram (ids : ShaderIds)
| E_BuildShaderProgram (built : bool)
| E_LinkShaderProgram (linked : bool)
| E_glGenBuffers (name : N)
| E_glGenVertexArrays (name : N)
| E_glGenTextures (name : N)
| E_glBufferData (target : BufferTarget) (size : Z)
| E_glBufferSubData (target : BufferTarget) (size : Z)
| E_glBindBufferBase (index : Z) (name : N)
| E_glTexImage2D (w h : Z)
| E_gl (call : string).

(** ** Program state and driver state *)

Section Machine.
Context {F : Type} `{FloatOps F}.
Local Open Scope float_scope.

(** Modelled from the spec: the accessors of [config::video] that the
    renderer polls (cursor size, 3D scale factor, screen filter). *)
Record VideoConfig := {
  CursorSize : F;
  ScaleFactor : Z;
  ScreenFilterMode : ScreenFilter
}.

(** The anonymous struct [GL_ShaderConfig]. *)
Record ShaderConfig := {
  uScreenSize : F * F;
  u3DScale : Z;
  uFilterMode : Z;
  cursorPos : F * F * F * F
}.

(** What a buffer object holds. *)
Inductive BufferData :=
| NoStore                                (* a generated name, no data store yet *)
| Uninitialised (size : Z)               (* glBufferData with a null pointer *)
| UniformBlock (c : ShaderConfig)
| VertexData (vs : list F).

(** The part of the OpenGL context the code depends on: which names denote
    objects, what the buffers hold, which buffer is bound where. A delete
    call on a name that denotes no object releases nothing, and deleting a
    bound buffer resets the binding to 0 (OpenGL's rules for
    [glDelete*]). The error flag that a driver raises on such a call for
    shader and program names is not part of the state: the code never
    reads it. *)
Record GlState := {
  buffers : gmap N BufferData;
  textures : gset N;
  vertex_arrays : gset N;
  shader_objects : gset N;
  uniform_binding : N;
  array_binding : N
}.

(** The statics of [namespace melonds::opengl]. *)
Record Globals := {
  openGlDebugAvailable : bool;
  refresh_opengl : bool;
  context_initialized : bool;
  shader : ShaderIds;
  screen_framebuffer_texture : N;
  screen_vertices : list F;
  vao : N;
  vbo : N;
  GL_ShaderConfig : ShaderConfig;
  ubo : N
}.

Record World := { globals : Globals; gl : GlState }.

Definition zero_config : ShaderConfig := {|
  uScreenSize := (f0, f0); u3DScale := 0; uFilterMode := 0;
  cursorPos := (f0, f0, f0, f0)
|}.

(** The statics as the loader initialises them. *)
Definition initial_globals : Globals := {|
  openGlDebugAvailable := false;
  refresh_opengl := true;
  context_initialized := false;
  shader := (0%N, 0%N, 0%N);
  screen_framebuffer_texture := 0%N;
  screen_vertices := replicate 72 f0;
  vao := 0%N;
  vbo := 0%N;
  GL_ShaderConfig := zero_config;
  ubo := 0%N
|}.

Definition empty_gl : GlState := {|
  buffers := ∅; textures := ∅; vertex_arrays := ∅; shader_objects := ∅;
  uniform_binding := 0%N; array_binding := 0%N
|}.

Definition initial_world : World := {| globals := initial_globals; gl := empty_gl |}.

(** *** A state monad that also collects the calls issued *)

Definition GL (A : Type) : Type := World -> A * World * list Event.

Definition ret {A} (a : A) : GL A := fun w => (a, w, []).

Definition bind {A B} (m : GL A) (k : A -> GL B) : GL B :=
  fun w =>
    let '(a, w1, t1) := m w in
    let '(b, w2, t2) := k a w1 in
    (b, w2, t1 ++ t2).

Definition emit (e : Event) : GL unit := fun w => (tt, w, [e]).

Definition read {A} (f : Globals -> A) : GL A := fun w => (f (globals w), w, []).

Definition read_gl {A} (f : GlState -> A) : GL A := fun w => (f (gl w), w, []).

Definition update (f : Globals -> Globals) : GL unit :=
  fun w => (tt, {| globals := f (globals w); gl := gl w |}, []).

Definition update_gl (f : GlState -> GlState) : GL unit :=
  fun w => (tt, {| globals := globals w; gl := f (gl w) |}, []).

Definition when (b : bool) (m : GL unit) : GL unit := if b then m else ret tt.

Definition world_after {A} (m : GL A) (w : World) : World := snd (fst (m w)).
Definition result_of {A} (m : GL A) (w : World) : A := fst (fst (m w)).
Definition calls_of {A} (m : GL A) (w : World) : list Event := snd (m w).
End Machine.

Arguments VideoConfig F : clear implicits.
Arguments ShaderConfig F : clear implicits.
Arguments BufferData F : clear implicits.
Arguments GlState F : clear implicits.
Arguments Globals F : clear implicits.
Arguments World F : clear implicits.
Arguments GL F A : clear implicits.

Declare Scope gl_scope.
Delimit Scope gl_scope with gl.
Notation "x <- m ;; k" := (bind m (fun x => k))
  (at level 100, m at next level, right associativity) : gl_scope.
Notation "m ;; k" := (bind m (fun _ => k))
  (at level 100, right associativity) : gl_scope.

Open Scope string_scope.

Section Driver.
Context {F : Type} `{FloatOps F}.
Local Open Scope float_scope.
Local Open Scope gl_scope.

(** *** Assignments to the statics *)

Definition set_openGlDebugAvailable (b : bool) (g : Globals F) : Globals F := {|
  openGlDebugAvailable := b; refresh_opengl := refresh_opengl g;
  context_initialized := context_initialized g; shader := shader g;
  screen_framebuffer_texture := screen_framebuffer_texture g;
  screen_vertices := screen_vertices g; vao := vao g; vbo := vbo g;
  GL_ShaderConfig := GL_ShaderConfig g; ubo := ubo g |}.

Definition set_refresh_opengl (b : bool) (g : Globals F) : Globals F := {|
  openGlDebugAvailable := openGlDebugAvailable g; refresh_opengl := b;
  context_initialized := context_initialized g; shader := shader g;
  screen_framebuffer_texture := screen_framebuffer_texture g;
  screen_vertices := screen_vertices g; vao := vao g; vbo := vbo g;
  GL_ShaderConfig := GL_ShaderConfig g; ubo := ubo g |}.

Definition set_context_initialized (b : bool) (g : Globals F) : Globals F := {|
  openGlDebugAvailable := openGlDebugAvailable g; refresh_opengl := refresh_opengl g;
  context_initialized := b; shader := shader g;
  screen_framebuffer_texture := screen_framebuffer_texture g;
  screen_vertices := screen_vertices g; vao := vao g; vbo := vbo g;
  GL_ShaderConfig := GL_ShaderConfig g; ubo := ubo g |}.

Definition set_shader (ids : ShaderIds) (g : Globals F) : Globals F := {|
  openGlDebugAvailable := openGlDebugAvailable g; refresh_opengl := refresh_opengl g;
  context_initialized := context_initialized g; shader := ids;
  screen_framebuffer_texture := screen_framebuffer_texture g;
  screen_vertices := screen_vertices g; vao := vao g; vbo := vbo g;
  GL_ShaderConfig := GL_ShaderConfig g; ubo := ubo g |}.

Definition set_screen_framebuffer_texture (n : N) (g : Globals F) : Globals F := {|
  openGlDebugAvailable := openGlDebugAvailable g; refresh_opengl := refresh_opengl g;
  context_initialized := context_initialized g; shader := shader g;
  screen_framebuffer_texture := n;
  screen_vertices := screen_vertices g; vao := vao g; vbo := vbo g;
  GL_ShaderConfig := GL_ShaderConfig g; ubo := ubo g |}.

Definition set_screen_vertices (vs : list F) (g : Globals F) : Globals F := {|
  openGlDebugAvailable := openGlDebugAvailable g; refresh_opengl := refresh_opengl g;
  context_initialized := context_initialized g; shader := shader g;
  screen_framebuffer_texture := screen_framebuffer_texture g;
  screen_vertices := vs; vao := vao g; vbo := vbo g;
  GL_ShaderConfig := GL_ShaderConfig g; ubo := ubo g |}.

Definition set_vao (n : N) (g : Globals F) : Globals F := {|
  openGlDebugAvailable := openGlDebugAvailable g; refresh_opengl := refresh_opengl g;
  context_initialized := context_initialized g; shader := shader g;
  screen_framebuffer_texture := screen_framebuffer_texture g;
  screen_vertices := screen_vertices g; vao := n; vbo := vbo g;
  GL_ShaderConfig := GL_ShaderConfig g; ubo := ubo g |}.

Definition set_vbo (n : N) (g : Globals F) : Globals F := {|
  openGlDebugAvailable := openGlDebugAvailable g; refresh_opengl := refresh_opengl g;
  context_initialized := context_initialized g; shader := shader g;
  screen_framebuffer_texture := screen_framebuffer_texture g;
  screen_vertices := screen_vertices g; vao := vao g; vbo := n;
  GL_ShaderConfig := GL_ShaderConfig g; ubo := ubo g |}.

Definition set_GL_ShaderConfig (c : ShaderConfig F) (g : Globals F) : Globals F := {|
  openGlDebugAvailable := openGlDebugAvailable g; refresh_opengl := refresh_opengl g;
  context_initialized := context_initialized g; shader := shader g;
  screen_framebuffer_texture := screen_framebuffer_texture g;
  screen_vertices := screen_vertices g; vao := vao g; vbo := vbo g;
  GL_ShaderConfig := c; ubo := ubo g |}.

Definition set_ubo (n : N) (g : Globals F) : Globals F := {|
  openGlDebugAvailable := openGlDebugAvailable g; refresh_opengl := refresh_opengl g;
  context_initialized := context_initialized g; shader := shader g;
  screen_framebuffer_texture := screen_framebuffer_texture g;
  screen_vertices := screen_vertices g; vao := vao g; vbo := vbo g;
  GL_ShaderConfig := GL_ShaderConfig g; ubo := n |}.

(** *** The driver's side of the buffer, texture and shader calls *)

Definition binding (t : BufferTarget) (s : GlState F) : N :=
  match t with
  | GL_UNIFORM_BUFFER => uniform_binding s
  | GL_ARRAY_BUFFER => array_binding s
  end.

Definition with_buffers (b : gmap N (BufferData F)) (s : GlState F) : GlState F := {|
  buffers := b; textures := textures s; vertex_arrays := vertex_arrays s;
  shader_objects := shader_objects s;
  uniform_binding := uniform_binding s; array_binding := array_binding s |}.

Definition bind_buffer (t : BufferTarget) (n : N) (s : GlState F) : GlState F := {|
  buffers := buffers s; textures := textures s; vertex_arrays := vertex_arrays s;
  shader_objects := shader_objects s;
  uniform_binding := match t with GL_UNIFORM_BUFFER => n | _ => uniform_binding s end;
  array_binding := match t with GL_ARRAY_BUFFER => n | _ => array_binding s end |}.

Definition gen_buffer (n : N) (s : GlState F) : GlState F :=
  with_buffers (<[n := NoStore]> (buffers s)) s.

(** The name [n] denotes a buffer object that has a data store. *)
Definition stored (n : N) (s : GlState F) : bool :=
  match buffers s !! n with
  | Some NoStore | None => false
  | Some _ => true
  end.

(** The buffer bound to [t] has a data store. *)
Definition has_store (t : BufferTarget) (s : GlState F) : bool :=
  stored (binding t s) s.

(** [glBufferData]: gives the bound buffer object a store holding [data]. *)
Definition buffer_data (t : BufferTarget) (data : BufferData F) (s : GlState F) : GlState F :=
  match buffers s !! binding t s with
  | Some _ => with_buffers (<[binding t s := data]> (buffers s)) s
  | None => s
  end.

(** A write into the existing store of the bound buffer ([memcpy] through
    a mapping, [glBufferSubData]). *)
Definition store_write (t : BufferTarget) (data : BufferData F) (s : GlState F) : GlState F :=
  if has_store t s then with_buffers (<[binding t s := data]> (buffers s)) s else s.

Definition delete_buffer (n : N) (s : GlState F) : GlState F := {|
  buffers := delete n (buffers s); textures := textures s;
  vertex_arrays := vertex_arrays s; shader_objects := shader_objects s;
  uniform_binding := if bool_decide (uniform_binding s = n) then 0%N else uniform_binding s;
  array_binding := if bool_decide (array_binding s = n) then 0%N else array_binding s |}.

Definition with_textures (f : gset N -> gset N) (s : GlState F) : GlState F := {|
  buffers := buffers s; textures := f (textures s); vertex_arrays := vertex_arrays s;
  shader_objects := shader_objects s;
  uniform_binding := uniform_binding s; array_binding := array_binding s |}.

Definition with_vertex_arrays (f : gset N -> gset N) (s : GlState F) : GlState F := {|
  buffers := buffers s; textures := textures s; vertex_arrays := f (vertex_arrays s);
  shader_objects := shader_objects s;
  uniform_binding := uniform_binding s; array_binding := array_binding s |}.

Definition with_shader_objects (f : gset N -> gset N) (s : GlState F) : GlState F := {|
  buffers := buffers s; textures := textures s; vertex_arrays := vertex_arrays s;
  shader_objects := f (shader_objects s);
  uniform_binding := uniform_binding s; array_binding := array_binding s |}.

Definition ids_set (ids : ShaderIds) : gset N :=
  {[ fst (fst ids); snd (fst ids); snd ids ]}.

(** *** The calls, each with its record in the trace *)

Definition glBindBuffer (t : BufferTarget) (n : N) : GL F unit :=
  emit (E_glBindBuffer t n) ;; update_gl (bind_buffer t n).

Definition glGenBuffers (n : N) : GL F unit :=
  emit (E_glGenBuffers n) ;; update_gl (gen_buffer n).

Definition glBufferData (t : BufferTarget) (size : Z) (data : BufferData F) : GL F unit :=
  emit (E_glBufferData t size) ;; update_gl (buffer_data t data).

Definition glBufferSubData (t : BufferTarget) (size : Z) (data : BufferData F) : GL F unit :=
  emit (E_glBufferSubData t size) ;; update_gl (store_write t data).

(** [glMapBuffer(t, GL_WRITE_ONLY)]: the pointer is non-null when the
    driver grants the mapping and the bound buffer has a store. *)
Definition glMapBuffer (t : BufferTarget) (granted : bool) : GL F bool :=
  st <- read_gl (has_store t) ;;
  emit (E_glMapBuffer t (granted && st)) ;;
  ret (granted && st).

Definition glUnmapBuffer (t : BufferTarget) : GL F unit := emit (E_glUnmapBuffer t).

Definition glGenVertexArrays (n : N) : GL F unit :=
  emit (E_glGenVertexArrays n) ;; update_gl (with_vertex_arrays (fun s => {[n]} ∪ s)).

Definition glGenTextures (n : N) : GL F unit :=
  emit (E_glGenTextures n) ;; update_gl (with_textures (fun s => {[n]} ∪ s)).

Definition glDeleteTextures (n : N) : GL F unit :=
  emit (E_glDeleteTextures n) ;; update_gl (with_textures (fun s => s ∖ {[n]})).

Definition glDeleteVertexArrays (n : N) : GL F unit :=
  emit (E_glDeleteVertexArrays n) ;; update_gl (with_vertex_arrays (fun s => s ∖ {[n]})).

Definition glDeleteBuffers (n : N) : GL F unit :=
  emit (E_glDeleteBuffers n) ;; update_gl (delete_buffer n).

(** [OpenGL::DeleteShaderProgram] (emulator library): deletes the two
    shaders and the program. *)
Definition DeleteShaderProgram (ids : ShaderIds) : GL F unit :=
  emit (E_DeleteShaderProgram ids) ;;
  update_gl (with_shader_objects (fun s => s ∖ ids_set ids)).

Definition glsm_ctl (op : glsm_op) : GL F unit := emit (E_glsm_ctl op).

Definition debug (msg : string) : GL F unit := emit (E_log RETRO_LOG_DEBUG msg).
Definition error (msg : string) : GL F unit := emit (E_log RETRO_LOG_ERROR msg).

(** [sizeof(GL_ShaderConfig)]: two floats, two 32-bit integers, four floats;
    [sizeof(screen_vertices)]: 72 floats. *)
Definition sizeof_GL_ShaderConfig : Z := 2 * 4 + 4 + 4 + 4 * 4.
Definition sizeof_screen_vertices : Z := 72 * 4.

(** [memcpy] of [GL_ShaderConfig] into the uniform buffer, as both
    [InitializeFrameState] and [Render] do it. *)
Definition upload_GL_ShaderConfig (granted : bool) : GL F unit :=
  u <- read ubo ;;
  glBindBuffer GL_UNIFORM_BUFFER u ;;
  unibuf <- glMapBuffer GL_UNIFORM_BUFFER granted ;;
  c <- read GL_ShaderConfig ;;
  when unibuf (update_gl (store_write GL_UNIFORM_BUFFER (UniformBlock c))) ;;
  glUnmapBuffer GL_UNIFORM_BUFFER.
End Driver.

(** ** [opengl.cpp] *)

(** What the driver and the engine answer during one [Render]. *)
Record RenderAnswers := {
  FrontBuffer : Z;               (* GPU::FrontBuffer *)
  refresh_map_granted : bool;    (* glMapBuffer inside InitializeFrameState *)
  cursor_map_granted : bool      (* glMapBuffer inside Render *)
}.

(** What the driver and the engine answer during one [ContextReset]. *)
Record ResetAnswers := {
  CurrentRenderer : Renderer;        (* melonds::render::CurrentRenderer() *)
  renderer_assigned : bool;          (* GPU3D::CurrentRenderer != nullptr *)
  debug_capability : bool;           (* gl_check_capability(GL_CAPS_DEBUG) *)
  built : option ShaderIds;          (* OpenGL::BuildShaderProgram: the ids on success *)
  linked : bool;                     (* OpenGL::LinkShaderProgram *)
  new_ubo : N;
  new_vbo : N;
  new_vao : N;
  new_texture : N
}.

Section OpenGl.
Context {F : Type} `{FloatOps F}.
Local Open Scope float_scope.
Local Open Scope gl_scope.

Definition ContextInitialized (w : World F) : bool := context_initialized (globals w).

Definition UsingOpenGl (r : Renderer) : bool :=
  if bool_decide (r = OpenGl) then true else false.

Definition RequestOpenGlRefresh : GL F unit := update (set_refresh_opengl true).

Definition sentinel : F := of_int (-1).

Definition InitializeFrameState (cfg : VideoConfig F) (granted : bool)
    (screenLayout : ScreenLayoutData) : GL F unit :=
  update (set_refresh_opengl false) ;;
  emit E_SetRenderSettings ;;
  c <- read GL_ShaderConfig ;;
  update (set_GL_ShaderConfig {|
    uScreenSize := (of_int (BufferWidth screenLayout), of_int (BufferHeight screenLayout));
    u3DScale := ScaleFactor cfg;
    uFilterMode := uFilterMode c;
    cursorPos := (sentinel, sentinel, sentinel, sentinel) |}) ;;
  upload_GL_ShaderConfig granted ;;
  vs <- read screen_vertices ;;
  update (set_screen_vertices (write_vertices vs (frame_vertices screenLayout))) ;;
  b <- read vbo ;;
  glBindBuffer GL_ARRAY_BUFFER b ;;
  vs' <- read screen_vertices ;;
  glBufferSubData GL_ARRAY_BUFFER sizeof_screen_vertices (VertexData vs').

(** The cursor box written by [Render] when the virtual cursor is on. *)
Definition cursor_box (cfg : VideoConfig F) (state : InputState) : F * F * F * F :=
  let cursorSize := CursorSize cfg in
  ( (of_int (TouchX state) - cursorSize) / (of_int NDS_SCREEN_HEIGHT * flit 135 100),
    (of_int (TouchY state) - cursorSize) / (of_int NDS_SCREEN_WIDTH * flit 3 2) + half,
    (of_int (TouchX state) + cursorSize) / (of_int NDS_SCREEN_HEIGHT * flit 135 100),
    (of_int (TouchY state) + cursorSize) / (of_int NDS_SCREEN_WIDTH * flit 3 2) + half ).

Definition set_cursorPos (box : F * F * F * F) (c : ShaderConfig F) : ShaderConfig F := {|
  uScreenSize := uScreenSize c; u3DScale := u3DScale c; uFilterMode := uFilterMode c;
  cursorPos := box |}.

(** [retro_assert(CurrentRenderer() == OpenGl)] at the head of [Render] is
    a precondition of the call and is not part of the model. *)
Definition Render (cfg : VideoConfig F) (ans : RenderAnswers)
    (state : InputState) (screenLayout : ScreenLayoutData) : GL F unit :=
  glsm_ctl GLSM_CTL_STATE_BIND ;;
  let frontbuf := FrontBuffer ans in
  let virtual_cursor := CursorEnabled state in
  emit E_glBindFramebuffer ;;
  refresh <- read refresh_opengl ;;
  when refresh
    (emit E_glClearColor ;;
     emit E_glClear ;;
     InitializeFrameState cfg (refresh_map_granted ans) screenLayout) ;;
  when virtual_cursor
    (c <- read GL_ShaderConfig ;;
     update (set_GL_ShaderConfig (set_cursorPos (cursor_box cfg state) c)) ;;
     upload_GL_ShaderConfig (cursor_map_granted ans)) ;;
  ids <- read shader ;;
  emit (E_UseShaderProgram ids) ;;
  emit (E_gl "glDisable(GL_DEPTH_TEST)") ;;
  emit (E_gl "glDisable(GL_STENCIL_TEST)") ;;
  emit (E_gl "glDisable(GL_BLEND)") ;;
  emit (E_glViewport (as_GLsizei (BufferWidth screenLayout))
                     (as_GLsizei (BufferHeight screenLayout))) ;;
  emit (E_gl "glActiveTexture(GL_TEXTURE0)") ;;
  emit (E_BindOutputTexture frontbuf) ;;
  let filter := if bool_decide (ScreenFilterMode cfg = Linear) then GL_LINEAR else GL_NEAREST in
  emit (E_set_filter filter) ;;
  emit (E_set_filter filter) ;;
  b <- read vbo ;;
  glBindBuffer GL_ARRAY_BUFFER b ;;
  a <- read vao ;;
  emit (E_glBindVertexArray a) ;;
  emit (E_glDrawArrays 0
    (if bool_decide (HybridSmallScreenLayout screenLayout = SmallScreenDuplicate)
     then 18 else 12)) ;;
  emit E_glFlush ;;
  glsm_ctl GLSM_CTL_STATE_UNBIND ;;
  emit (E_video_refresh (as_unsigned (BufferWidth screenLayout))
                        (as_unsigned (BufferHeight screenLayout))).

Definition context_destroy : GL F unit :=
  debug "melonds::opengl::context_destroy()" ;;
  glsm_ctl GLSM_CTL_STATE_BIND ;;
  t <- read screen_framebuffer_texture ;;
  glDeleteTextures t ;;
  a <- read vao ;;
  glDeleteVertexArrays a ;;
  b <- read vbo ;;
  glDeleteBuffers b ;;
  ids <- read shader ;;
  DeleteShaderProgram ids ;;
  glsm_ctl GLSM_CTL_STATE_UNBIND.

(** [OpenGL::BuildShaderProgram] and [OpenGL::LinkShaderProgram] belong to
    the emulator library. On success the three ids are stored in [shader]
    and denote objects; what a failing call leaves behind is not
    visible here and is modelled as nothing. *)
Definition SetupOpenGl (ans : ResetAnswers) : GL F bool :=
  debug "melonds::opengl::SetupOpenGl()" ;;
  update (set_openGlDebugAvailable (debug_capability ans)) ;;
  dbg <- read openGlDebugAvailable ;;
  when dbg (debug "OpenGL debugging extensions are available") ;;
  match built ans with
  | None => emit (E_BuildShaderProgram false) ;; ret false
  | Some ids =>
    emit (E_BuildShaderProgram true) ;;
    update (set_shader ids) ;;
    update_gl (with_shader_objects (fun s => ids_set ids ∪ s)) ;;
    when dbg
      (emit (E_gl "glObjectLabel(GL_SHADER, shader[0])") ;;
       emit (E_gl "glObjectLabel(GL_SHADER, shader[1])") ;;
       emit (E_gl "glObjectLabel(GL_PROGRAM, shader[2])")) ;;
    emit (E_gl "glBindAttribLocation(shader[2], 0, vPosition)") ;;
    emit (E_gl "glBindAttribLocation(shader[2], 1, vTexcoord)") ;;
    emit (E_gl "glBindFragDataLocation(shader[2], 0, oColor)") ;;
    emit (E_LinkShaderProgram (linked ans)) ;;
    if negb (linked ans) then ret false else
    emit (E_gl "glGetUniformBlockIndex(shader[2], uConfig)") ;;
    emit (E_gl "glUniformBlockBinding(shader[2], uConfigBlockIndex, 16)") ;;
    emit (E_gl "glUseProgram(shader[2])") ;;
    emit (E_gl "glGetUniformLocation(shader[2], ScreenTex)") ;;
    emit (E_gl "glUniform1i(uni_id, 0)") ;;
    update (set_GL_ShaderConfig zero_config) ;;
    glGenBuffers (new_ubo ans) ;;
    update (set_ubo (new_ubo ans)) ;;
    u <- read ubo ;;
    glBindBuffer GL_UNIFORM_BUFFER u ;;
    c <- read GL_ShaderConfig ;;
    glBufferData GL_UNIFORM_BUFFER sizeof_GL_ShaderConfig (UniformBlock c) ;;
    emit (E_glBindBufferBase 16 u) ;;
    glGenBuffers (new_vbo ans) ;;
    update (set_vbo (new_vbo ans)) ;;
    b <- read vbo ;;
    glBindBuffer GL_ARRAY_BUFFER b ;;
    glBufferData GL_ARRAY_BUFFER sizeof_screen_vertices (Uninitialised sizeof_screen_vertices) ;;
    glGenVertexArrays (new_vao ans) ;;
    update (set_vao (new_vao ans)) ;;
    a <- read vao ;;
    emit (E_glBindVertexArray a) ;;
    emit (E_gl "glEnableVertexAttribArray(0)") ;;
    emit (E_gl "glVertexAttribPointer(0, 2, GL_FLOAT, GL_FALSE, 16, 0)") ;;
    emit (E_gl "glEnableVertexAttribArray(1)") ;;
    emit (E_gl "glVertexAttribPointer(1, 2, GL_FLOAT, GL_FALSE, 16, 8)") ;;
    glGenTextures (new_texture ans) ;;
    update (set_screen_framebuffer_texture (new_texture ans)) ;;
    emit (E_gl "glActiveTexture(GL_TEXTURE0)") ;;
    emit (E_gl "glBindTexture(GL_TEXTURE_2D, screen_framebuffer_texture)") ;;
    emit (E_gl "glTexParameteri(GL_TEXTURE_WRAP_S, GL_CLAMP_TO_EDGE)") ;;
    emit (E_gl "glTexParameteri(GL_TEXTURE_WRAP_T, GL_CLAMP_TO_EDGE)") ;;
    emit (E_set_filter GL_NEAREST) ;;
    emit (E_set_filter GL_NEAREST) ;;
    emit (E_glTexImage2D (256 * 3 + 1) (192 * 2)) ;;
    update (set_refresh_opengl true) ;;
    ret true
  end.

Definition ContextReset (ans : ResetAnswers) : GL F unit :=
  debug "melonds::opengl::ContextReset()" ;;
  when (UsingOpenGl (CurrentRenderer ans) && renderer_assigned ans)
    (debug "GPU3D renderer is assigned; deinitializing it before resetting the context." ;;
     emit E_DeInitRenderer) ;;
  glsm_ctl GLSM_CTL_STATE_CONTEXT_RESET ;;
  glsm_ctl GLSM_CTL_STATE_SETUP ;;
  glsm_ctl GLSM_CTL_STATE_BIND ;;
  emit (E_InitRenderer (CurrentRenderer ans)) ;;
  ok <- SetupOpenGl ans ;;
  update (set_context_initialized ok) ;;
  glsm_ctl GLSM_CTL_STATE_UNBIND ;;
  initialized <- read context_initialized ;;
  if initialized then debug "OpenGL context reset successfully."
  else error "OpenGL context reset failed.".

(** *** Runs of the renderer: what the host and the engine do to it *)

(** The first four steps are calls into [opengl.cpp]. The fifth is the
    host's own: having called [context_destroy] it destroys the OpenGL
    context, and with it every object of the context, whether the callback
    deleted it or not. The store of a world is that of the current
    context. *)
Inductive Step :=
| DoContextReset (ans : ResetAnswers)
| DoContextDestroy
| DoRender (cfg : VideoConfig F) (ans : RenderAnswers)
           (state : InputState) (screenLayout : ScreenLayoutData)
| DoRequestRefresh
| DoContextLost.

Definition step (s : Step) : GL F unit :=
  match s with
  | DoContextReset ans => ContextReset ans
  | DoContextDestroy => context_destroy
  | DoRender cfg ans state d => Render cfg ans state d
  | DoRequestRefresh => RequestOpenGlRefresh
  | DoContextLost => update_gl (fun _ => empty_gl)
  end.

Fixpoint run (ss : list Step) (w : World F) : World F :=
  match ss with
  | [] => w
  | s :: rest => run rest (world_after (step s) w)
  end.

(** The uniform block as the GPU holds it: the contents of the buffer
    object that [ubo] names. *)
Definition uploaded_config (w : World F) : option (ShaderConfig F) :=
  match buffers (gl w) !! ubo (globals w) with
  | Some (UniformBlock c) => Some c
  | _ => None
  end.

(** The vertex counts of the draw calls in a trace. *)
Definition draw_counts (t : list Event) : list Z :=
  omap (fun e => match e with E_glDrawArrays _ n => Some n | _ => None end) t.
End OpenGl.

Arguments Step F : clear implicits.

(** ** [libretro.cpp]: the entry points the host calls *)

Module Libretro.

(** The dynamic type of a thrown object, as far as the handlers tell them
    apart ([exceptions.hpp] is not among the sources). A handler list
    [opengl_exception], [emulator_exception], [std::exception], [...] is
    tried in that order. *)
Inductive exception :=
| opengl_exception (what user_message : string)
| emulator_exception (what user_message : string)
| std_exception (what : string)
| foreign_exception.

(** How a call ends. [Terminated]: an exception reached the edge of a
    [noexcept] function. *)
Inductive Completion (A : Type) :=
| Returned (a : A)
| Raised (e : exception)
| Terminated.

Arguments Returned {A} a.
Arguments Raised {A} e.
Arguments Terminated {A}.

(** Calls into [retro::]. *)
Inductive HostCall :=
| retro_debug (msg : string)
| retro_error (msg : string)
| set_error_message (msg : string)
| shutdown.

(** The state of the process-wide [MelonDsDs::Core] that the host can
    observe through the entry points. *)
Record CoreState := {
  IsInitialized : bool;
  LoadedGame : option string
}.

(** [RETRO_REGION_NTSC] and [RETRO_REGION_PAL] of [libretro.h]. *)
Definition RETRO_REGION_NTSC : Z := 0.
Definition RETRO_REGION_PAL : Z := 1.

Definition retro_get_region (core : CoreState) : Z := RETRO_REGION_NTSC.

(** The four handlers of [retro_reset] and [HardwareContextReset]; they
    differ in the message of the last one. *)
Definition handle (unknown_message : string) (e : exception) : list HostCall :=
  match e with
  | opengl_exception what user_message =>
      [retro_error what; set_error_message user_message; shutdown]
  | emulator_exception what user_message =>
      [retro_error what; set_error_message user_message; shutdown]
  | std_exception what =>
      [set_error_message what; shutdown]
  | foreign_exception =>
      [set_error_message unknown_message; shutdown]
  end.

(** A [try] block around one engine call, with the four handlers. *)
Definition guarded (unknown_message : string) (call : Completion unit)
    : list HostCall * Completion unit :=
  match call with
  | Returned tt => ([], Returned tt)
  | Raised e => (handle unknown_message e, Returned tt)
  | Terminated => ([], Terminated)
  end.

(** An engine call made with no [try] block around it. *)
Definition unguarded {A} (call : Completion A) : list HostCall * Completion A :=
  ([], call).

(** An engine call made from a [noexcept] function with no [try] block. *)
Definition unguarded_noexcept {A} (call : Completion A) : list HostCall * Completion A :=
  match call with
  | Raised _ => ([], Terminated)
  | c => ([], c)
  end.

Definition prepend {A} (cs : list HostCall) (r : list HostCall * Completion A)
    : list HostCall * Completion A :=
  ((cs ++ fst r)%list, snd r).

Definition newline : string := String (Ascii.ascii_of_nat 10) EmptyString.

(** [Core_Reset] is how [MelonDsDs::Core.Reset()] ends. *)
Definition retro_reset (Core_Reset : Completion unit) : list HostCall * Completion unit :=
  prepend [retro_debug ("retro_reset()" ++ newline)]
    (guarded "An unknown error has occurred." Core_Reset).

Definition HardwareContextReset (Core_ResetRenderState : Completion unit)
    : list HostCall * Completion unit :=
  guarded "OpenGL context initialization failed with an unknown error. Please report this issue."
    Core_ResetRenderState.

Definition HardwareContextDestroyed (Core_DestroyRenderState : Completion unit)
    : list HostCall * Completion unit :=
  unguarded_noexcept Core_DestroyRenderState.

Definition retro_run (Core_Run : Completion unit) : list HostCall * Completion unit :=
  unguarded Core_Run.

(** [info] is the content path and size, if the host passes content; the
    debug messages are kept without their formatted arguments. *)
Definition retro_load_game (info : option (string * Z)) (Core_LoadGame : Completion bool)
    : list HostCall * Completion bool :=
  prepend
    [retro_debug match info with
                 | Some _ => "retro_load_game(path, size)"
                 | None => "retro_load_game(<no content>)"
                 end]
    (unguarded Core_LoadGame).

Definition retro_load_game_special (Core_LoadGame : Completion bool)
    : list HostCall * Completion bool :=
  prepend [retro_debug "retro_load_game_special(type, info, num)"] (unguarded Core_LoadGame).

(** [Core_GetSystemAvInfo] is how [MelonDsDs::Core.GetSystemAvInfo()] ends;
    the structure it returns is left abstract. *)
Definition retro_get_system_av_info {A} (Core_GetSystemAvInfo : Completion A)
    : list HostCall * Completion A :=
  unguarded Core_GetSystemAvInfo.

(** [teardown] is how the calls to [retro::task] and [Core.UnloadGame()]
    end, taken together. *)
Definition retro_unload_game (teardown : Completion unit) : list HostCall * Completion unit :=
  prepend [retro_debug "retro_unload_game()"] (unguarded teardown).

(** The entry points that make an engine call, and one invocation of each
    given how that engine call ends (its value, if any, dropped). *)
Inductive EntryPoint :=
| ep_run | ep_reset | ep_load_game | ep_load_game_special
| ep_unload_game | ep_get_system_av_info
| ep_context_reset | ep_context_destroyed.

Definition forget {A} (c : Completion A) : Completion unit :=
  match c with
  | Returned _ => Returned tt
  | Raised e => Raised e
  | Terminated => Terminated
  end.

Definition invoke (ep : EntryPoint) (engine : Completion unit)
    : list HostCall * Completion unit :=
  match ep with
  | ep_run => retro_run engine
  | ep_reset => retro_reset engine
  | ep_load_game =>
      let r := retro_load_game None
                 (match engine with
                  | Returned _ => Returned true
                  | Raised e => Raised e
                  | Terminated => Terminated
                  end) in
      (fst r, forget (snd r))
  | ep_load_game_special =>
      let r := retro_load_game_special
                 (match engine with
                  | Returned _ => Returned true
                  | Raised e => Raised e
                  | Terminated => Terminated
                  end) in
      (fst r, forget (snd r))
  | ep_unload_game => retro_unload_game engine
  | ep_get_system_av_info => retro_get_system_av_info engine
  | ep_context_reset => HardwareContextReset engine
  | ep_context_destroyed => HardwareContextDestroyed engine
  end.

(** The three things the propagation policy asks for. *)
Definition logs_message (cs : list HostCall) : bool :=
  existsb (fun c => match c with retro_error _ => true | _ => false end) cs.

Definition reports_error_string (cs : list HostCall) : bool :=
  existsb (fun c => match c with set_error_message _ => true | _ => false end) cs.

Definition requests_shutdown (cs : list HostCall) : bool :=
  existsb (fun c => match c with shutdown => true | _ => false end) cs.

Definition returns (r : list HostCall * Completion unit) : Prop :=
  snd r = Returned tt.

(** The policy for one invocation in which the engine call raised. *)
Definition caught_and_converted (r : list HostCall * Completion unit) : Prop :=
  returns r /\
  logs_message (fst r) = true /\
  reports_error_string (fst r) = true /\
  requests_shutdown (fst r) = true.

(** The handlers of [retro_reset] and [HardwareContextReset] log only the
    two emulator exception classes. *)
Definition is_emulator_failure (e : exception) : bool :=
  match e with
  | opengl_exception _ _ | emulator_exception _ _ => true
  | _ => false
  end.

(** Caught and turned into an error string and a shutdown request, with a
    logged message for the emulator's own exception classes only. *)
Definition caught_and_reported (r : list HostCall * Completion unit)
    (e : exception) : Prop :=
  returns r /\
  reports_error_string (fst r) = true /\
  requests_shutdown (fst r) = true /\
  logs_message (fst r) = is_emulator_failure e.

End Libretro.

(** ** Vocabulary of the properties *)

Arguments store_write : simpl never.
Arguments has_store : simpl never.
Arguments stored : simpl never.
Arguments buffer_data : simpl never.
Arguments gen_buffer : simpl never.
Arguments delete_buffer : simpl never.
Arguments bind_buffer : simpl never.
Arguments with_textures : simpl never.
Arguments with_vertex_arrays : simpl never.
Arguments with_shader_objects : simpl never.
Arguments write_vertices : simpl never.
Arguments frame_vertices : simpl never.
Arguments cursor_box : simpl never.

(** Layout data for a 256x192 screen with no gap. *)
Definition layout_256x192 (l : ScreenLayout) (small : SmallScreenLayout)
    (ratio bw bh : Z) : ScreenLayoutData := {|
  Layout := l; HybridSmallScreenLayout := small;
  ScreenWidth := 256; ScreenHeight := 192; ScaledScreenGap := 0;
  HybridRatio := ratio; BufferWidth := bw; BufferHeight := bh |}.

(** Top over bottom, with the small-screen option left at Duplicate. *)
Definition stacked_with_duplicate : ScreenLayoutData :=
  layout_256x192 TopBottom SmallScreenDuplicate 2 256 384.

Section Vocabulary.
Context {F : Type} `{FloatOps F}.
Local Open Scope float_scope.

(** The padding in the spec's words, for a screen of height [H]. *)
Definition spec_padding (H : Z) : F := of_int 1 / of_int (2 * H + 2).

(** Quad [q] of a rebuild: vertices [6q .. 6q+5], those that are stored. *)
Definition quad (d : ScreenLayoutData) (q : nat) : list (Vertex F) :=
  omap (vertex_at d) (seq (6 * q) 6).

(** The position of a quad's first vertex, its top-left corner. *)
Definition origin (d : ScreenLayoutData) (q : nat) : option (F * F) :=
  (fun v => (pos_x v, pos_y v)) <$> vertex_at d (6 * q).

(** All texture rows of the quad lie in the top screen's half, at or above
    the seam minus the padding; respectively in the bottom screen's half. *)
Definition samples_top (vs : list (Vertex F)) : bool :=
  forallb (fun v => fleb f0 (tex_v v) && fleb (tex_v v) (half - pixel_pad)) vs.

Definition samples_bottom (vs : list (Vertex F)) : bool :=
  forallb (fun v => fleb (half + pixel_pad) (tex_v v) && fleb (tex_v v) f1) vs.

(** A quad of no height (all vertices on one row) or no width. *)
Definition zero_height (vs : list (Vertex F)) : bool :=
  match vs with
  | [] => true
  | v :: rest => forallb (fun v' => feqb (pos_y v') (pos_y v)) rest
  end.

Definition zero_width (vs : list (Vertex F)) : bool :=
  match vs with
  | [] => true
  | v :: rest => forallb (fun v' => feqb (pos_x v') (pos_x v)) rest
  end.

Definition zero_area (vs : list (Vertex F)) : bool := zero_height vs || zero_width vs.

Definition sentinel_box : F * F * F * F := (sentinel, sentinel, sentinel, sentinel).

(** The cursor fields carry the sentinel, in the program's copy of the
    block and in the uniform buffer. *)
Definition cursor_off (w : World F) : Prop :=
  (cursorPos (GL_ShaderConfig (globals w)) = sentinel_box) /\
  ((cursorPos <$> uploaded_config w) = Some sentinel_box).

(** Steps during which the virtual cursor stays disabled and the context
    is left alone. *)
Definition cursor_stays_off (s : Step F) : bool :=
  match s with
  | DoRender _ _ state _ => negb (CursorEnabled state)
  | DoRequestRefresh => true
  | _ => false
  end.

(** The four objects [context_destroy] deletes no longer exist. *)
Definition released (w : World F) : Prop :=
  (screen_framebuffer_texture (globals w) ∉ textures (gl w)) /\
  (vao (globals w) ∉ vertex_arrays (gl w)) /\
  buffers (gl w) !! vbo (globals w) = None /\
  ids_set (shader (globals w)) ## shader_objects (gl w).

Definition is_delete (e : Event) : bool :=
  match e with
  | E_glDeleteTextures _ | E_glDeleteVertexArrays _ | E_glDeleteBuffers _
  | E_DeleteShaderProgram _ => true
  | _ => false
  end.

(** Every handle holds the name the driver returned during the reset
    answered by [ans], and the object it names is in its initial state. *)
Definition freshly_allocated (ans : ResetAnswers) (ids : ShaderIds) (w : World F) : Prop :=
  shader (globals w) = ids /\ ids_set ids ⊆ shader_objects (gl w) /\
  ubo (globals w) = new_ubo ans /\
  buffers (gl w) !! new_ubo ans = Some (UniformBlock zero_config) /\
  vbo (globals w) = new_vbo ans /\
  buffers (gl w) !! new_vbo ans = Some (Uninitialised sizeof_screen_vertices) /\
  vao (globals w) = new_vao ans /\ new_vao ans ∈ vertex_arrays (gl w) /\
  screen_framebuffer_texture (globals w) = new_texture ans /\
  new_texture ans ∈ textures (gl w).

(** The calls by which a reset allocates: one [glGen*] per object and the
    shader build. *)
Definition allocation_calls (ans : ResetAnswers) : list Event :=
  [ E_BuildShaderProgram true; E_glGenBuffers (new_ubo ans); E_glGenBuffers (new_vbo ans);
    E_glGenVertexArrays (new_vao ans); E_glGenTextures (new_texture ans) ].

Definition positions (vs : list (Vertex F)) : list (F * F) :=
  map (fun v => (pos_x v, pos_y v)) vs.

(** The six corners, in the order the code stores them, of a [w] by [h]
    rectangle whose top-left corner is [(x, y)]. *)
Definition rect (x y w h : Z) : list (F * F) :=
  [ (of_int x, of_int y); (of_int x, of_int (y + h)); (of_int (x + w), of_int (y + h));
    (of_int x, of_int y); (of_int (x + w), of_int y); (of_int (x + w), of_int (y + h)) ].

(** The quad of the screen that a single-screen layout does not show. *)
Definition suppressed_quad (d : ScreenLayoutData) : list (Vertex F) :=
  match Layout d with
  | BottomOnly => quad d 0
  | _ => quad d 1
  end.

Definition shown_quad (d : ScreenLayoutData) : list (Vertex F) :=
  match Layout d with
  | BottomOnly => quad d 1
  | _ => quad d 0
  end.

(** *** The state changes of the operations, in closed form *)

(** The driver state after [upload_GL_ShaderConfig]: buffer [u] bound, and
    holding [c] if the mapping was obtained. *)
Definition uploaded (granted : bool) (c : ShaderConfig F) (u : N) (s : GlState F)
    : GlState F :=
  let s1 := bind_buffer GL_UNIFORM_BUFFER u s in
  if granted && has_store GL_UNIFORM_BUFFER s1
  then store_write GL_UNIFORM_BUFFER (UniformBlock c) s1
  else s1.

Definition refreshed_config (cfg : VideoConfig F) (d : ScreenLayoutData)
    (c : ShaderConfig F) : ShaderConfig F := {|
  uScreenSize := (of_int (BufferWidth d), of_int (BufferHeight d));
  u3DScale := ScaleFactor cfg;
  uFilterMode := uFilterMode c;
  cursorPos := sentinel_box |}.

Definition frame_state_world (cfg : VideoConfig F) (granted : bool)
    (d : ScreenLayoutData) (w : World F) : World F :=
  let g := globals w in
  let c := refreshed_config cfg d (GL_ShaderConfig g) in
  let vs := write_vertices (screen_vertices g) (frame_vertices d) in
  {| globals := set_screen_vertices vs (set_GL_ShaderConfig c (set_refresh_opengl false g));
     gl := store_write GL_ARRAY_BUFFER (VertexData vs)
             (bind_buffer GL_ARRAY_BUFFER (vbo g) (uploaded granted c (ubo g) (gl w))) |}.

Definition cursor_world (cfg : VideoConfig F) (granted : bool)
    (state : InputState) (w : World F) : World F :=
  let g := globals w in
  let c := set_cursorPos (cursor_box cfg state) (GL_ShaderConfig g) in
  {| globals := set_GL_ShaderConfig c g;
     gl := uploaded granted c (ubo g) (gl w) |}.

Definition render_world (cfg : VideoConfig F) (ans : RenderAnswers)
    (state : InputState) (d : ScreenLayoutData) (w : World F) : World F :=
  let w1 := if refresh_opengl (globals w)
            then frame_state_world cfg (refresh_map_granted ans) d w else w in
  let w2 := if CursorEnabled state
            then cursor_world cfg (cursor_map_granted ans) state w1 else w1 in
  {| globals := globals w2;
     gl := bind_buffer GL_ARRAY_BUFFER (vbo (globals w2)) (gl w2) |}.

Definition destroyed_world (w : World F) : World F :=
  let g := globals w in
  {| globals := g;
     gl := with_shader_objects (fun s => s ∖ ids_set (shader g))
             (delete_buffer (vbo g)
               (with_vertex_arrays (fun s => s ∖ {[vao g]})
                 (with_textures (fun s => s ∖ {[screen_framebuffer_texture g]})
                   (gl w)))) |}.

(** The world after a [ContextReset] whose shader build and link
    succeed. *)
Definition reset_world (ans : ResetAnswers) (ids : ShaderIds) (w : World F) : World F := {|
  globals :=
    set_context_initialized true
      (set_refresh_opengl true
        (set_screen_framebuffer_texture (new_texture ans)
          (set_vao (new_vao ans)
            (set_vbo (new_vbo ans)
              (set_ubo (new_ubo ans)
                (set_GL_ShaderConfig zero_config
                  (set_shader ids
                    (set_openGlDebugAvailable (debug_capability ans) (globals w)))))))));
  gl :=
    with_textures (fun s => {[new_texture ans]} ∪ s)
      (with_vertex_arrays (fun s => {[new_vao ans]} ∪ s)
        (buffer_data GL_ARRAY_BUFFER (Uninitialised sizeof_screen_vertices)
          (bind_buffer GL_ARRAY_BUFFER (new_vbo ans)
            (gen_buffer (new_vbo ans)
              (buffer_data GL_UNIFORM_BUFFER (UniformBlock zero_config)
                (bind_buffer GL_UNIFORM_BUFFER (new_ubo ans)
                  (gen_buffer (new_ubo ans)
                    (with_shader_objects (fun s => ids_set ids ∪ s) (gl w))))))))) |}.

Definition is_allocation (e : Event) : bool :=
  match e with
  | E_BuildShaderProgram _ | E_glGenBuffers _ | E_glGenVertexArrays _
  | E_glGenTextures _ => true
  | _ => false
  end.
End Vocabulary.

(** Scenario data for the examples below: a driver that hands out the
    names 1, 2, 3 for the shader objects and 4..7 for the rest, and grants
    every mapping. *)
Definition good_reset : ResetAnswers := {|
  CurrentRenderer := OpenGl; renderer_assigned := false; debug_capability := false;
  built := Some (1%N, 2%N, 3%N); linked := true;
  new_ubo := 4%N; new_vbo := 5%N; new_vao := 6%N; new_texture := 7%N |}.

Definition good_render : RenderAnswers := {|
  FrontBuffer := 0; refresh_map_granted := true; cursor_map_granted := true |}.

Definition cursor_on : InputState := {| CursorEnabled := true; TouchX := 128; TouchY := 96 |}.
Definition cursor_disabled : InputState := {| CursorEnabled := false; TouchX := 128; TouchY := 96 |}.

Definition video32 : VideoConfig Binary32.t := {|
  CursorSize := Binary32.of_Z 2; ScaleFactor := 1; ScreenFilterMode := Nearest |}.

Definition stacked : ScreenLayoutData := layout_256x192 TopBottom SmallScreenTop 2 256 384.

(** A layout at twice the native size. *)
Definition doubled : ScreenLayoutData := {|
  Layout := TopBottom; HybridSmallScreenLayout := SmallScreenTop;
  ScreenWidth := 512; ScreenHeight := 384; ScaledScreenGap := 0;
  HybridRatio := 2; BufferWidth := 512; BufferHeight := 768 |}.

Definition top_only : ScreenLayoutData := layout_256x192 TopOnly SmallScreenTop 2 256 192.
Definition bottom_only : ScreenLayoutData := layout_256x192 BottomOnly SmallScreenTop 2 256 192.

(** ** Vocabulary of the further properties *)

Section Shapes.
Context {F : Type} `{FloatOps F}.

(** The corner order of a quad: top left, bottom left, bottom right, then
    top left, top right, bottom right, in position and in texture
    coordinate alike. *)
Definition wound_alike (vs : list (Vertex F)) : Prop :=
  match vs with
  | [] => True
  | [tl; bl; br; tl'; tr; br'] =>
      tl' = tl /\ br' = br /\
      pos_x bl = pos_x tl /\ pos_y bl = pos_y br /\
      pos_x tr = pos_x br /\ pos_y tr = pos_y tl /\
      tex_u bl = tex_u tl /\ tex_v bl = tex_v br /\
      tex_u tr = tex_u br /\ tex_v tr = tex_v tl
  | _ => False
  end.

(** The rebuild stores the third quad. *)
Definition stores_third_quad (d : ScreenLayoutData) : bool :=
  IsHybridLayout d && bool_decide (HybridSmallScreenLayout d = SmallScreenDuplicate).

Definition is_presentation (e : Event) : bool :=
  match e with
  | E_glViewport _ _ | E_glDrawArrays _ _ | E_video_refresh _ _ => true
  | _ => false
  end.

Definition is_rebuild (e : Event) : bool :=
  match e with
  | E_glClear | E_SetRenderSettings | E_glBufferSubData _ _ => true
  | _ => false
  end.

Definition is_renderer_call (e : Event) : bool :=
  match e with
  | E_DeInitRenderer | E_InitRenderer _ => true
  | _ => false
  end.


(** The shader program builds and links. *)
Definition reset_succeeds (ans : ResetAnswers) : bool :=
  match built ans with
  | Some _ => linked ans
  | None => false
  end.

(** The handles and the flag that [ContextReset] assigns. *)
Definition handles (g : Globals F) : bool * ShaderIds * N * N * N * N :=
  (context_initialized g, shader g, screen_framebuffer_texture g, vao g, vbo g, ubo g).

(** The names that denote driver objects, kind by kind. *)
Definition live_objects (s : GlState F) : gset N * gset N * gset N * gset N :=
  (dom (buffers s), textures s, vertex_arrays s, shader_objects s).

Definition is_reset (s : Step F) : bool :=
  match s with
  | DoContextReset _ => true
  | _ => false
  end.
(** Which screen's half of the texture a stored quad shows. *)
Inductive Screen := TopScreen | BottomScreen.

Definition sampled_screen (vs : list (Vertex F)) : option Screen :=
  match vs with
  | [] => None
  | _ =>
      if samples_top vs && negb (samples_bottom vs) then Some TopScreen
      else if samples_bottom vs && negb (samples_top vs) then Some BottomScreen
      else None
  end.

(** The screens shown by the three quads of a rebuild. *)
Definition shown_screens (d : ScreenLayoutData) : list (option Screen) :=
  [sampled_screen (quad d 0); sampled_screen (quad d 1); sampled_screen (quad d 2)].
(** Where the touch point falls in the texture: the centre of the cursor
    box, which is the box for a cursor of size zero. *)
Definition touch_point (state : InputState) : F * F :=
  (fdiv (of_int (TouchX state)) (fmul (of_int NDS_SCREEN_HEIGHT) (flit 135 100)),
   fadd (fdiv (of_int (TouchY state)) (fmul (of_int NDS_SCREEN_WIDTH) (flit 3 2))) half).
(** The vertex buffer holds what [screen_vertices] holds, and is not the
    uniform buffer. *)
Definition vbo_mirrors_array (w : World F) : Prop :=
  buffers (gl w) !! vbo (globals w) = Some (VertexData (screen_vertices (globals w))) /\
  ubo (globals w) <> vbo (globals w).

(** Frames and refresh requests: the steps between a reset and a destroy. *)
Definition is_frame_or_request (s : Step F) : bool :=
  match s with
  | DoRender _ _ _ _ | DoRequestRefresh => true
  | _ => false
  end.
End Shapes.

(** ** The array as the draw call reads it *)

Section Arrays.
Context {F : Type} `{FloatOps F}.

(** Vertex [i] as [screen_vertices] holds it: slots [4i .. 4i+3]. *)
Definition read_vertex (arr : list F) (i : nat) : option (Vertex F) :=
  match arr !! (4 * i)%nat, arr !! (4 * i + 1)%nat,
        arr !! (4 * i + 2)%nat, arr !! (4 * i + 3)%nat with
  | Some x, Some y, Some u, Some v => Some (mkVertex x y u v)
  | _, _, _, _ => None
  end.

(** Quad [q] as the array holds it: vertices [6q .. 6q+5]. *)
Definition array_quad (arr : list F) (q : nat) : list (Vertex F) :=
  omap (read_vertex arr) (seq (6 * q) 6).

(** The position of a quad's first vertex, its top-left corner, read from
    the array. *)
Definition array_origin (arr : list F) (q : nat) : option (F * F) :=
  (fun v => (pos_x v, pos_y v)) <$> read_vertex arr (6 * q).

(** The quads of the array that a rebuild for [d] stores: the first two,
    and the third for a hybrid layout with the duplicated small screen. *)
Definition stored_quads (d : ScreenLayoutData) (arr : list F) : list (list (Vertex F)) :=
  ([array_quad arr 0; array_quad arr 1] ++
   (if stores_third_quad d then [array_quad arr 2] else []))%list.

(** The array holds, quad by quad, the vertices of the [SETVERTEX]
    statements for [d], six to a quad. *)
Definition holds_rebuild (d : ScreenLayoutData) (arr : list F) : Prop :=
  stored_quads d arr =
    ([quad d 0; quad d 1] ++ (if stores_third_quad d then [quad d 2] else []))%list /\
  Forall (fun vs => length vs = 6%nat) (stored_quads d arr).

(** The seam rule for the array after a rebuild, for given tests of a
    top-screen and of a bottom-screen quad. Each stored quad is complete
    and takes its texture rows from one screen's half only; without a
    hybrid layout quad 0 is the top screen's and quad 1 the bottom
    screen's, with a hybrid layout quad 0 shows the primary screen. *)
Definition seam_in_array (top bottom : list (Vertex F) -> bool)
    (d : ScreenLayoutData) (arr : list F) : bool :=
  forallb (fun vs => (length vs =? 6)%nat && (top vs || bottom vs)) (stored_quads d arr) &&
  match Layout d, stored_quads d arr with
  | HybridTop, q0 :: _ => top q0
  | HybridBottom, q0 :: _ => bottom q0
  | _, q0 :: q1 :: _ => top q0 && bottom q1
  | _, _ => false
  end.

(** Which quad of the array a single-screen layout shows, and which one
    belongs to the screen it does not show. *)
Definition suppressed_index (d : ScreenLayoutData) : nat :=
  match Layout d with
  | BottomOnly => 0
  | _ => 1
  end.

Definition shown_index (d : ScreenLayoutData) : nat :=
  match Layout d with
  | BottomOnly => 1
  | _ => 0
  end.

(** Every vertex lies at or beyond the buffer's height. *)
Definition beyond_buffer (d : ScreenLayoutData) (vs : list (Vertex F)) : bool :=
  forallb (fun v => fleb (of_int (BufferHeight d)) (pos_y v)) vs.

(** The first corner of a quad is its top left and the third its bottom
    right: no coordinate of the first exceeds that of the third. *)
Definition corners_ordered (vs : list (Vertex F)) : bool :=
  match vs with
  | [] => true
  | [tl; _; br; _; _; _] => fleb (pos_x tl) (pos_x br) && fleb (pos_y tl) (pos_y br)
  | _ => false
  end.

Definition texture_ordered (vs : list (Vertex F)) : bool :=
  match vs with
  | [] => true
  | [tl; _; br; _; _; _] => fleb (tex_u tl) (tex_u br) && fleb (tex_v tl) (tex_v br)
  | _ => false
  end.

(** What the first frame after a reset does: it clears the framebuffer and
    the refresh flag, stores the vertices for [d] in the array and the
    array in the vertex buffer, fills the uniform block with the buffer
    size, the scale and the cursor box (the sentinel if the cursor is
    disabled), and uploads it as far as the driver grants the mappings. *)
Definition first_frame (cfg : VideoConfig F) (ans : RenderAnswers) (state : InputState)
    (d : ScreenLayoutData) (after : World F) (calls : list Event) : Prop :=
  E_glClear ∈ calls /\
  refresh_opengl (globals after) = false /\
  holds_rebuild d (screen_vertices (globals after)) /\
  buffers (gl after) !! vbo (globals after) =
    Some (VertexData (screen_vertices (globals after))) /\
  GL_ShaderConfig (globals after) =
    (if CursorEnabled state
     then set_cursorPos (cursor_box cfg state) (refreshed_config cfg d zero_config)
     else refreshed_config cfg d zero_config) /\
  uploaded_config after =
    Some (if CursorEnabled state && cursor_map_granted ans
          then GL_ShaderConfig (globals after)
          else if refresh_map_granted ans then refreshed_config cfg d zero_config
          else zero_config).
End Arrays.

(** Texture rows of a binary32 quad as numbers: every row lies between
    [lo] and [hi]. *)
Definition rows_within (lo hi : Q) (vs : list (Vertex Binary32.t)) : bool :=
  forallb (fun v => match Binary32.to_Q (tex_v v) with
                    | Some r => Qle_bool lo r && Qle_bool r hi
                    | None => false
                    end) vs.

(** A top-screen quad keeps its rows at or above the seam minus [pad]; a
    bottom-screen quad keeps them at or below the seam plus [pad], up to
    [slack]. *)
Definition top_rows32 (pad : Q) (vs : list (Vertex Binary32.t)) : bool :=
  rows_within 0 ((1 # 2) - pad) vs.

Definition bottom_rows32 (pad slack : Q) (vs : list (Vertex Binary32.t)) : bool :=
  rows_within ((1 # 2) + pad - slack) 1 vs.

(** The layout data of a single 256x192 screen in a buffer twice as tall. *)
Definition top_only_tall : ScreenLayoutData := layout_256x192 TopOnly SmallScreenTop 2 256 384.

#[global] Instance spec_float_eq_dec : EqDecision spec_float.
Proof. solve_decision. Defined.

(** The binary32 operations a single-screen quad applies to a size [n]:
    [0 + n * 1] is [n] and [n + n * 1] is [2n], without rounding, and the
    floats of [n], [2n] and 0 compare as the integers do. *)
Definition size_facts32 (n : Z) : bool :=
  let x := of_int (F:=Binary32.t) n in
  let xx := of_int (F:=Binary32.t) (n + n) in
  bool_decide (fadd f0 (fmul x f1) = x) &&
  bool_decide (fadd x (fmul x f1) = xx) &&
  bool_decide (feqb x x = true) &&
  bool_decide (feqb xx x = (n =? 0)%Z) &&
  bool_decide (feqb x f0 = (n =? 0)%Z) &&
  bool_decide (fleb x x = true) &&
  bool_decide (fleb x xx = true) &&
  bool_decide (fleb xx x = (n =? 0)%Z) &&
  bool_decide (fleb xx xx = true).

Definition is_raised {A} (c : Libretro.Completion A) : bool :=
  match c with
  | Libretro.Raised _ => true
  | _ => false
  end.

(** A hybrid layout with the duplicated small screen, and a driver that
    fails to build the shader program. *)
Definition hybrid_duplicate : ScreenLayoutData :=
  layout_256x192 HybridTop SmallScreenDuplicate 2 768 384.

Definition failing_reset : ResetAnswers := {|
  CurrentRenderer := OpenGl; renderer_assigned := true; debug_capability := false;
  built := None; linked := true;
  new_ubo := 4%N; new_vbo := 5%N; new_vao := 6%N; new_texture := 7%N |}.

Definition second_reset : ResetAnswers := {|
  CurrentRenderer := OpenGl; renderer_assigned := true; debug_capability := false;
  built := Some (8%N, 9%N, 10%N); linked := true;
  new_ubo := 11%N; new_vbo := 12%N; new_vao := 13%N; new_texture := 14%N |}.

Definition failed_maps : RenderAnswers := {|
  FrontBuffer := 0; refresh_map_granted := false; cursor_map_granted := false |}.

Definition video_exact : VideoConfig Exact.t := {|
  CursorSize := Exact.of_Z 2; ScaleFactor := 1; ScreenFilterMode := Nearest |}.

(** * Properties *)

Ltac gl_exec :=
  cbn;
  repeat (match goal with
          | |- context [if ?b then _ else _] => destruct b eqn:?
          end; cbn).

Ltac gl_unfold :=
  unfold calls_of, world_after, result_of, Render, InitializeFrameState,
    upload_GL_ShaderConfig, context_destroy, ContextReset, SetupOpenGl,
    RequestOpenGlRefresh, glsm_ctl, debug, error,
    glBindBuffer, glBufferData, glBufferSubData, glMapBuffer, glUnmapBuffer,
    glGenBuffers, glGenVertexArrays, glGenTextures,
    glDeleteTextures, glDeleteVertexArrays, glDeleteBuffers, DeleteShaderProgram,
    when, bind.

Ltac fields :=
  cbn [globals gl buffers textures vertex_arrays shader_objects uniform_binding
       array_binding openGlDebugAvailable refresh_opengl context_initialized shader
       screen_framebuffer_texture screen_vertices vao vbo GL_ShaderConfig ubo
       uScreenSize u3DScale uFilterMode cursorPos fst snd].

(** Equality of exact rationals is decided by evaluation. *)
Ltac qc_eq := apply Qc_is_canon; vm_compute; reflexivity.

(** Arithmetic on exact integers, by the homomorphism lemmas below. *)
Create Rewrite HintDb exact_of_Z.

Ltac exact_arith :=
  cbv - [Qcplus Qcmult Qcminus Qcdiv Exact.of_Z Exact.eqb Z.add Z.mul Z.eqb orb andb];
  autorewrite with exact_of_Z.

(** From canonical rationals to plain rationals, where [lra] applies. *)
Ltac qc_to_q :=
  unfold Qcle, Qclt, Qcdiv, Qcminus, Qcplus, Qcmult, Qcopp, Qcinv, Exact.of_Z, Q2Qc in *;
  cbn [this] in *; rewrite ?Qred_correct in *.

(** ** Vertex counts *)

Section Counts.
Context {F : Type} `{FloatOps F}.

(** A rebuild stores 18 vertices for a hybrid layout with the duplicated
    small screen and 12 in every other case. *)
Lemma vertices_written_spec (d : ScreenLayoutData) :
  vertices_written (F:=F) d =
  if IsHybridLayout d && bool_decide (HybridSmallScreenLayout d = SmallScreenDuplicate)
  then 18 else 12.
Proof.
  destruct d as [l s ? ? ? ? ? ?]. destruct l, s; vm_compute; reflexivity.
Qed.

(** [Render] issues one draw call; its count follows the small-screen
    option alone. *)
Lemma Render_draw_count cfg ans state d (w : World F) :
  draw_counts (calls_of (Render cfg ans state d) w) =
  [if bool_decide (HybridSmallScreenLayout d = SmallScreenDuplicate) then 18 else 12].
Proof.
  destruct w as [g s]. gl_unfold. gl_exec; reflexivity.
Qed.

(** Where the layout is hybrid, or the small-screen option is not
    Duplicate, the draw call covers what a rebuild stores. *)
Lemma draw_count_agrees cfg ans state d (w : World F) :
  IsHybridLayout d = true \/ HybridSmallScreenLayout d <> SmallScreenDuplicate ->
  draw_counts (calls_of (Render cfg ans state d) w) = [vertices_written (F:=F) d].
Proof.
  intros Hd. rewrite Render_draw_count, vertices_written_spec.
  destruct Hd as [-> | Hs]; cbn.
  - reflexivity.
  - rewrite bool_decide_eq_false_2 by exact Hs. rewrite andb_false_r. reflexivity.
Qed.

(** C1, at a non-hybrid layout whose small-screen option is Duplicate: the
    rebuild stores 12 vertices and the draw call of [Render] covers 18. *)
Theorem C1_draw_call_covers_18_of_12_written :
  forall cfg ans state (w : World F),
    IsHybridLayout stacked_with_duplicate = false /\
    vertices_written (F:=F) stacked_with_duplicate = 12 /\
    draw_counts (calls_of (Render cfg ans state stacked_with_duplicate) w) = [18].
Proof.
  intros. split; [reflexivity | split].
  - rewrite vertices_written_spec. reflexivity.
  - rewrite Render_draw_count. reflexivity.
Qed.
End Counts.

(** ** From the [SETVERTEX] statements to the array *)

Section ArrayContents.
Context {F : Type} `{FloatOps F}.

Lemma SETVERTEX_length (buf : list F) sv : length (SETVERTEX buf sv) = length buf.
Proof. unfold SETVERTEX. rewrite !length_insert. reflexivity. Qed.

Lemma write_vertices_length (svs : list (nat * Vertex F)) (buf : list F) :
  length (write_vertices buf svs) = length buf.
Proof.
  revert buf. induction svs as [| sv svs IH]; intros buf; [reflexivity |].
  unfold write_vertices in *. cbn [fold_left]. rewrite IH. apply SETVERTEX_length.
Qed.

Lemma SETVERTEX_lookup (buf : list F) (sv : nat * Vertex F) (i k : nat) :
  (k < 4)%nat -> (4 * i + k < length buf)%nat ->
  SETVERTEX buf sv !! (4 * i + k)%nat =
  if decide (fst sv = i) then Some (component k (snd sv)) else buf !! (4 * i + k)%nat.
Proof.
  intros Hk Hlen. unfold SETVERTEX. destruct sv as [j v]. cbn [fst snd].
  destruct (decide (j = i)) as [-> | Hne].
  - destruct k as [| [| [| [| k]]]]; try lia; cbn [component].
    + rewrite !list_lookup_insert_ne by lia.
      apply list_lookup_insert_eq. lia.
    + rewrite !list_lookup_insert_ne by lia.
      apply list_lookup_insert_eq. rewrite !length_insert. lia.
    + rewrite !list_lookup_insert_ne by lia.
      apply list_lookup_insert_eq. rewrite !length_insert. lia.
    + apply list_lookup_insert_eq. rewrite !length_insert. lia.
  - rewrite !list_lookup_insert_ne by lia. reflexivity.
Qed.

Lemma write_vertices_lookup (svs : list (nat * Vertex F)) (buf : list F) (i k : nat) :
  (k < 4)%nat -> (4 * i + k < length buf)%nat ->
  write_vertices buf svs !! (4 * i + k)%nat =
  match last (filter (fun sv => fst sv = i) svs) with
  | Some sv => Some (component k (snd sv))
  | None => buf !! (4 * i + k)%nat
  end.
Proof.
  intros Hk. revert buf. induction svs as [| sv svs IH]; intros buf Hlen; [reflexivity |].
  unfold write_vertices in *. cbn [fold_left].
  rewrite IH by (rewrite SETVERTEX_length; exact Hlen).
  rewrite filter_cons. rewrite SETVERTEX_lookup by assumption.
  destruct (decide (fst sv = i)) as [E | E].
  - clear IH. rewrite last_cons.
    destruct (last (filter (fun sv0 : nat * Vertex F => fst sv0 = i) svs)); reflexivity.
  - reflexivity.
Qed.

(** Slot [4i + k] of the array after a rebuild holds field [k] of the last
    vertex stored to [i], and is left alone if none is. *)
Lemma vertex_in_array (d : ScreenLayoutData) (buf : list F) (i k : nat) :
  (k < 4)%nat -> (4 * i + k < length buf)%nat ->
  write_vertices buf (frame_vertices d) !! (4 * i + k)%nat =
  match vertex_at d i with
  | Some v => Some (component k v)
  | None => buf !! (4 * i + k)%nat
  end.
Proof.
  intros Hk Hlen. rewrite write_vertices_lookup by assumption.
  unfold vertex_at. destruct (last _); reflexivity.
Qed.
End ArrayContents.

(** ** The array read back, vertex by vertex *)

Section ArrayReading.
Context {F : Type} `{FloatOps F}.

Lemma read_vertex_rebuilt (d : ScreenLayoutData) (buf : list F) (i : nat) :
  (4 * i + 3 < length buf)%nat ->
  read_vertex (write_vertices buf (frame_vertices d)) i =
  match vertex_at d i with
  | Some v => Some v
  | None => read_vertex buf i
  end.
Proof.
  intros Hlen. unfold read_vertex.
  pose proof (vertex_in_array d buf i 0) as E0. rewrite Nat.add_0_r in E0.
  rewrite E0, (vertex_in_array d buf i 1), (vertex_in_array d buf i 2),
    (vertex_in_array d buf i 3) by lia.
  destruct (vertex_at d i) as [[x y u v] |]; reflexivity.
Qed.

Lemma array_origin_rebuilt (d : ScreenLayoutData) (buf : list F) (q : nat) :
  (4 * (6 * q) + 3 < length buf)%nat ->
  array_origin (write_vertices buf (frame_vertices d)) q =
  match origin d q with
  | Some o => Some o
  | None => array_origin buf q
  end.
Proof.
  intros Hlen. unfold array_origin, origin. rewrite read_vertex_rebuilt by exact Hlen.
  destruct (vertex_at d (6 * q)); reflexivity.
Qed.

(** A rebuild of a 72-slot array leaves in it the quads of the
    [SETVERTEX] statements. *)
Lemma rebuild_held (d : ScreenLayoutData) (buf : list F) :
  length buf = 72%nat -> holds_rebuild d (write_vertices buf (frame_vertices d)).
Proof.
  intros Hlen. unfold holds_rebuild, stored_quads, array_quad.
  change (seq (6 * 0) 6) with [0; 1; 2; 3; 4; 5]%nat.
  change (seq (6 * 1) 6) with [6; 7; 8; 9; 10; 11]%nat.
  change (seq (6 * 2) 6) with [12; 13; 14; 15; 16; 17]%nat.
  cbn [omap list_omap].
  rewrite !read_vertex_rebuilt by lia.
  destruct d as [l s w h g r bw bh]. destruct l, s; vm_compute; split;
    try reflexivity; repeat constructor.
Qed.

Lemma quads_in_array d (arr : list F) :
  holds_rebuild d arr ->
  array_quad arr 0 = quad d 0 /\ array_quad arr 1 = quad d 1.
Proof.
  intros [E _]. unfold stored_quads in E. cbn [app] in E.
  injection E as E0 E1 _. split; assumption.
Qed.

Lemma suppressed_quad_in_array d (arr : list F) :
  holds_rebuild d arr ->
  array_quad arr (suppressed_index d) = suppressed_quad d /\
  array_quad arr (shown_index d) = shown_quad d.
Proof.
  intros Hh. destruct (quads_in_array d arr Hh) as [E0 E1].
  unfold suppressed_index, shown_index, suppressed_quad, shown_quad.
  destruct (Layout d); split; assumption.
Qed.
End ArrayReading.

(** ** Quad origins for a 256x192 screen *)

Lemma origins_binary32 small ratio bw bh :
  let tb := layout_256x192 TopBottom small ratio bw bh in
  let lr := layout_256x192 LeftRight small ratio bw bh in
  origin (F:=Binary32.t) tb 0 = Some (of_int 0, of_int 0) /\
  origin (F:=Binary32.t) tb 1 = Some (of_int 0, of_int 192) /\
  origin (F:=Binary32.t) lr 0 = Some (of_int 0, of_int 0) /\
  origin (F:=Binary32.t) lr 1 = Some (of_int 256, of_int 0).
Proof. destruct small; vm_compute; repeat split; reflexivity. Qed.

Lemma origins_exact small ratio bw bh :
  let tb := layout_256x192 TopBottom small ratio bw bh in
  let lr := layout_256x192 LeftRight small ratio bw bh in
  origin (F:=Exact.t) tb 0 = Some (of_int 0, of_int 0) /\
  origin (F:=Exact.t) tb 1 = Some (of_int 0, of_int 192) /\
  origin (F:=Exact.t) lr 0 = Some (of_int 0, of_int 0) /\
  origin (F:=Exact.t) lr 1 = Some (of_int 256, of_int 0).
Proof.
  destruct small; cbv zeta; unfold origin, vertex_at;
    cbn [frame_vertices]; repeat split; cbn; repeat f_equal; qc_eq.
Qed.

(** ** The entry points *)

(** C10: [retro_get_region] answers [RETRO_REGION_NTSC] whatever the state
    of the core. *)
Theorem C10_region_is_always_ntsc :
  forall core : Libretro.CoreState,
    Libretro.retro_get_region core = Libretro.RETRO_REGION_NTSC.
Proof. intros core. reflexivity. Qed.

Lemma guarded_reports msg e :
  Libretro.caught_and_reported (Libretro.guarded msg (Libretro.Raised e)) e.
Proof. destruct e; repeat split. Qed.

(** Against C2 as stated: a failure raised under [retro_run] leaves the
    entry point as it came, and a [std::exception] raised under
    [retro_reset] is caught without a logged message. *)
Lemma C2_run_is_unguarded_and_reset_skips_the_log :
  ~ Libretro.caught_and_converted
      (Libretro.invoke Libretro.ep_run (Libretro.Raised (Libretro.std_exception "bad_alloc"))) /\
  ~ Libretro.caught_and_converted
      (Libretro.invoke Libretro.ep_reset (Libretro.Raised (Libretro.std_exception "bad_alloc"))).
Proof.
  split; intros (Hret & Hlog & _).
  - discriminate Hret.
  - discriminate Hlog.
Qed.

(** C2, amended: [retro_reset] and [HardwareContextReset] catch every
    failure of their engine call, return normally, set the host's error
    string and request shutdown, and log a message when the failure is an
    [opengl_exception] or an [emulator_exception]; [retro_run] and
    [retro_load_game] install no handler, so they end the way their engine
    call ends. *)
Theorem C2_reset_paths_catch_and_report :
  forall e : Libretro.exception,
    Libretro.caught_and_reported (Libretro.retro_reset (Libretro.Raised e)) e /\
    Libretro.caught_and_reported (Libretro.HardwareContextReset (Libretro.Raised e)) e /\
    (forall c, snd (Libretro.retro_run c) = c) /\
    (forall info c, snd (Libretro.retro_load_game info c) = c).
Proof.
  intros e. repeat split; try (destruct e; reflexivity).
Qed.

(** ** Exact arithmetic on integers *)

Lemma of_Z_add a b : Qcplus (Exact.of_Z a) (Exact.of_Z b) = Exact.of_Z (a + b).
Proof.
  unfold Exact.of_Z, Qcplus. apply Q2Qc_eq_iff. cbn [this Q2Qc].
  rewrite !Qred_correct, inject_Z_plus. reflexivity.
Qed.

Lemma of_Z_mul a b : Qcmult (Exact.of_Z a) (Exact.of_Z b) = Exact.of_Z (a * b).
Proof.
  unfold Exact.of_Z, Qcmult. apply Q2Qc_eq_iff. cbn [this Q2Qc].
  rewrite !Qred_correct, inject_Z_mult. reflexivity.
Qed.

Lemma of_Z_sub a b : Qcminus (Exact.of_Z a) (Exact.of_Z b) = Exact.of_Z (a - b).
Proof.
  unfold Exact.of_Z, Qcminus, Qcplus, Qcopp. apply Q2Qc_eq_iff. cbn [this Q2Qc].
  rewrite !Qred_correct. unfold Z.sub. rewrite inject_Z_plus, inject_Z_opp. reflexivity.
Qed.

Lemma of_Z_inj a b : Exact.of_Z a = Exact.of_Z b <-> a = b.
Proof.
  unfold Exact.of_Z. rewrite Q2Qc_eq_iff. apply inject_Z_injective.
Qed.

Lemma of_Z_eqb a b : Exact.eqb (Exact.of_Z a) (Exact.of_Z b) = (a =? b)%Z.
Proof.
  unfold Exact.eqb. apply eq_true_iff_eq.
  rewrite Qeq_bool_iff, Z.eqb_eq, <- of_Z_inj. split.
  - apply Qc_is_canon.
  - intros ->. reflexivity.
Qed.

Lemma of_Z_leb a b : Exact.leb (Exact.of_Z a) (Exact.of_Z b) = (a <=? b)%Z.
Proof.
  unfold Exact.leb, Exact.of_Z. apply eq_true_iff_eq.
  rewrite Qle_bool_iff, Z.leb_le. cbn [this Q2Qc]. rewrite !Qred_correct.
  rewrite <- Zle_Qle. reflexivity.
Qed.

#[global] Hint Rewrite of_Z_mul of_Z_add of_Z_eqb Z.mul_1_r Z.add_0_l Z.add_0_r : exact_of_Z.

Lemma Qcinv_inj (x y : Qc) : Qcinv x = Qcinv y -> x = y.
Proof.
  intros E. apply Qc_is_canon.
  rewrite <- (Qinv_involutive x), <- (Qinv_involutive y).
  apply (f_equal this) in E. cbn [this Qcinv Q2Qc] in E.
  assert (E' : (/ x == / y)%Q).
  { rewrite <- (Qred_correct (/ x)), <- (Qred_correct (/ y)), E. reflexivity. }
  rewrite E'. reflexivity.
Qed.

Lemma exact_padding_iff (H : Z) :
  pixel_pad (F:=Exact.t) = spec_padding H <-> H = 192.
Proof.
  split.
  - unfold pixel_pad, spec_padding. cbn [fdiv of_int Exact.ops]. unfold Qcdiv.
    change (Exact.of_Z 1) with 1%Qc. rewrite !Qcmult_1_l.
    intros E. apply Qcinv_inj, of_Z_inj in E. lia.
  - intros ->. reflexivity.
Qed.

(** ** The tests for the two halves of the texture *)

(** The predicates tell the halves apart: the bottom screen's quad does not
    pass for a top-screen quad, nor the other way round. *)
Example seam_predicates_discriminate :
  samples_top (quad (F:=Binary32.t) stacked 1) = false /\
  samples_bottom (quad (F:=Binary32.t) stacked 0) = false.
Proof. vm_compute. split; reflexivity. Qed.

(** ** Single-screen layouts *)

(** Every size from 0 to 8192 passes, by evaluation. *)
Lemma size_facts32_range :
  forallb size_facts32 (seqZ 0 8193) = true.
Proof. vm_compute. reflexivity. Qed.

Lemma size_facts32_at (n : Z) :
  0 <= n <= 8192 ->
  let x := of_int (F:=Binary32.t) n in
  let xx := of_int (F:=Binary32.t) (n + n) in
  fadd f0 (fmul x f1) = x /\ fadd x (fmul x f1) = xx /\
  feqb x x = true /\ feqb xx x = (n =? 0)%Z /\ feqb x f0 = (n =? 0)%Z /\
  fleb x x = true /\ fleb x xx = true /\ fleb xx x = (n =? 0)%Z /\ fleb xx xx = true.
Proof.
  intros Hn. pose proof size_facts32_range as Hr.
  rewrite forallb_forall in Hr. specialize (Hr n).
  assert (Hin : In n (seqZ 0 8193)) by (apply list_elem_of_In, elem_of_seqZ; lia).
  specialize (Hr Hin). unfold size_facts32 in Hr. cbv zeta in *.
  repeat (apply andb_true_iff in Hr as [Hr ?]).
  repeat match goal with H : bool_decide _ = true |- _ => apply bool_decide_eq_true in H end.
  repeat split; assumption.
Qed.

Section SingleScreen.
Context {F : Type} `{FloatOps F}.
Local Open Scope float_scope.

(** The two quads of a single-screen layout, as the statements write
    them. *)
Lemma single_screen_vertices (d : ScreenLayoutData) :
  let w := of_int (ScreenWidth d) in
  let h := of_int (ScreenHeight d) in
  let top y :=
    [ mkVertex f0 y f0 f0; mkVertex f0 (y + h * f1) f0 (half - pixel_pad);
      mkVertex (f0 + w * f1) (y + h * f1) f1 (half - pixel_pad);
      mkVertex f0 y f0 f0; mkVertex (f0 + w * f1) y f1 f0;
      mkVertex (f0 + w * f1) (y + h * f1) f1 (half - pixel_pad) ] in
  let bottom y :=
    [ mkVertex f0 y f0 (half + pixel_pad); mkVertex f0 (y + h * f1) f0 f1;
      mkVertex (f0 + w * f1) (y + h * f1) f1 f1;
      mkVertex f0 y f0 (half + pixel_pad); mkVertex (f0 + w * f1) y f1 (half + pixel_pad);
      mkVertex (f0 + w * f1) (y + h * f1) f1 f1 ] in
  match Layout d with
  | TopOnly => shown_quad d = top f0 /\ suppressed_quad d = bottom h
  | BottomOnly => shown_quad d = bottom f0 /\ suppressed_quad d = top h
  | _ => True
  end.
Proof.
  destruct d as [l s w h g r bw bh]. destruct l; try exact I; split; reflexivity.
Qed.
End SingleScreen.

Lemma single_screen_quads_binary32 (d : ScreenLayoutData) :
  Layout d = TopOnly \/ Layout d = BottomOnly ->
  0 <= ScreenWidth d <= 8192 -> 0 <= ScreenHeight d <= 8192 ->
  positions (suppressed_quad (F:=Binary32.t) d) =
    rect 0 (ScreenHeight d) (ScreenWidth d) (ScreenHeight d) /\
  positions (shown_quad (F:=Binary32.t) d) = rect 0 0 (ScreenWidth d) (ScreenHeight d) /\
  zero_area (suppressed_quad (F:=Binary32.t) d) =
    (ScreenHeight d =? 0)%Z || (ScreenWidth d =? 0)%Z /\
  (BufferHeight d = ScreenHeight d ->
   beyond_buffer d (suppressed_quad (F:=Binary32.t) d) = true) /\
  (BufferHeight d = ScreenHeight d + ScreenHeight d ->
   beyond_buffer d (suppressed_quad (F:=Binary32.t) d) = (ScreenHeight d =? 0)%Z).
Proof.
  intros Hd Hw Hh.
  pose proof (single_screen_vertices (F:=Binary32.t) d) as Hv. cbv zeta in Hv.
  destruct (size_facts32_at _ Hw) as (Aw & _ & Ew & _ & Zw & _).
  destruct (size_facts32_at _ Hh) as (Ah & Bh & Eh & Dh & Zh & L1 & L2 & L3 & L4).
  cbv zeta in *.
  assert (E0 : feqb (F:=Binary32.t) f0 f0 = true) by reflexivity.
  destruct Hd as [Hd | Hd]; rewrite Hd in Hv; destruct Hv as [-> ->];
    unfold beyond_buffer, zero_area, zero_height, zero_width, rect;
    cbn [positions map pos_x pos_y forallb Z.add];
    rewrite ?Aw, ?Ah, ?Bh;
    (split; [reflexivity | split; [reflexivity | split; [| split; intros ->]]]);
    rewrite ?Ew, ?Eh, ?Dh, ?Zw, ?Zh, ?E0, ?L1, ?L2, ?L3, ?L4;
    try reflexivity;
    destruct (ScreenHeight d =? 0)%Z, (ScreenWidth d =? 0)%Z; reflexivity.
Qed.

Lemma single_screen_quads_exact (d : ScreenLayoutData) :
  match Layout d with
  | TopOnly | BottomOnly =>
      positions (suppressed_quad (F:=Exact.t) d) =
        rect 0 (ScreenHeight d) (ScreenWidth d) (ScreenHeight d) /\
      positions (shown_quad (F:=Exact.t) d) =
        rect 0 0 (ScreenWidth d) (ScreenHeight d) /\
      zero_area (suppressed_quad (F:=Exact.t) d) =
        (ScreenHeight d =? 0)%Z || (ScreenWidth d =? 0)%Z
  | _ => True
  end.
Proof.
  destruct d as [l s w h g r bw bh]; destruct l; try exact I; cbn [Layout ScreenHeight ScreenWidth].
  - repeat split.
    + exact_arith. reflexivity.
    + exact_arith. reflexivity.
    + exact_arith. 
      destruct (Z.eqb_spec (h + h) h), (Z.eqb_spec h 0), (Z.eqb_spec w 0), (Z.eqb_spec h h);
        cbn; try reflexivity; lia.
  - repeat split.
    + exact_arith. reflexivity.
    + exact_arith. reflexivity.
    + exact_arith. 
      destruct (Z.eqb_spec (h + h) h), (Z.eqb_spec h 0), (Z.eqb_spec w 0), (Z.eqb_spec h h);
        cbn; try reflexivity; lia.
Qed.

Lemma beyond_buffer_exact (d : ScreenLayoutData) :
  match Layout d with
  | TopOnly | BottomOnly =>
      beyond_buffer d (suppressed_quad (F:=Exact.t) d) =
        (BufferHeight d <=? ScreenHeight d)%Z &&
        (BufferHeight d <=? ScreenHeight d + ScreenHeight d)%Z
  | _ => True
  end.
Proof.
  destruct d as [l s w h g r bw bh]; destruct l; try exact I;
    cbn [Layout ScreenHeight BufferHeight];
    cbv - [Qcplus Qcmult Qcminus Qcdiv Exact.of_Z Exact.leb Z.add Z.mul Z.leb andb];
    autorewrite with exact_of_Z; rewrite ?of_Z_leb;
    destruct (bh <=? h)%Z, (bh <=? h + h)%Z; reflexivity.
Qed.

(** ** The operations in closed form *)

Section ClosedForms.
Context {F : Type} `{FloatOps F}.

Lemma upload_world granted (w : World F) :
  world_after (upload_GL_ShaderConfig granted) w =
  {| globals := globals w;
     gl := uploaded granted (GL_ShaderConfig (globals w)) (ubo (globals w)) (gl w) |}.
Proof.
  destruct w as [g s]. unfold uploaded. gl_unfold. cbn.
  destruct (granted && _); reflexivity.
Qed.

Lemma InitializeFrameState_world cfg granted d (w : World F) :
  world_after (InitializeFrameState cfg granted d) w = frame_state_world cfg granted d w.
Proof.
  destruct w as [g s]. unfold frame_state_world, uploaded. gl_unfold. cbn.
  destruct (granted && _); reflexivity.
Qed.

Lemma Render_world cfg ans state d (w : World F) :
  world_after (Render cfg ans state d) w = render_world cfg ans state d w.
Proof.
  destruct w as [g s]. unfold render_world, cursor_world, frame_state_world, uploaded.
  gl_unfold. cbn.
  destruct (refresh_opengl g); cbn.
  - destruct (refresh_map_granted ans && _); cbn;
      (destruct (CursorEnabled state); cbn; [destruct (cursor_map_granted ans && _) |]);
      reflexivity.
  - destruct (CursorEnabled state); cbn; [destruct (cursor_map_granted ans && _) |];
      reflexivity.
Qed.

Lemma context_destroy_world (w : World F) :
  world_after context_destroy w = destroyed_world w.
Proof. destruct w as [g s]. reflexivity. Qed.

Lemma context_destroy_calls (w : World F) :
  calls_of context_destroy w =
  [ E_log RETRO_LOG_DEBUG "melonds::opengl::context_destroy()";
    E_glsm_ctl GLSM_CTL_STATE_BIND;
    E_glDeleteTextures (screen_framebuffer_texture (globals w));
    E_glDeleteVertexArrays (vao (globals w));
    E_glDeleteBuffers (vbo (globals w));
    E_DeleteShaderProgram (shader (globals w));
    E_glsm_ctl GLSM_CTL_STATE_UNBIND ].
Proof. destruct w as [g s]. reflexivity. Qed.

Lemma ContextReset_world ans ids (w : World F) :
  built ans = Some ids -> linked ans = true ->
  world_after (ContextReset ans) w = reset_world ans ids w.
Proof.
  intros Hb Hl. destruct w as [g s]. destruct ans as [cr ra dc b l nu nv na nt].
  cbn in Hb, Hl. subst b l. unfold reset_world. gl_unfold. cbn.
  destruct (UsingOpenGl cr && ra), dc; reflexivity.
Qed.

Lemma ContextReset_allocates ans ids (w : World F) :
  built ans = Some ids -> linked ans = true ->
  List.filter is_allocation (calls_of (ContextReset ans) w) = allocation_calls ans.
Proof.
  intros Hb Hl. destruct w as [g s]. destruct ans as [cr ra dc b l nu nv na nt].
  cbn in Hb, Hl. subst b l. gl_unfold. cbn.
  destruct (UsingOpenGl cr && ra), dc; reflexivity.
Qed.

Lemma Render_clears cfg ans state d (w : World F) :
  refresh_opengl (globals w) = true ->
  E_glClear ∈ calls_of (Render cfg ans state d) w.
Proof.
  intros Hr. destruct w as [g s]. cbn in Hr. gl_unfold. cbn. rewrite Hr.
  gl_exec; apply list_elem_of_In; cbn; tauto.
Qed.
End ClosedForms.

(** ** The array after a rebuild *)

Lemma InitializeFrameState_array `{FloatOps F} cfg granted d (w : World F) :
  screen_vertices (globals (world_after (InitializeFrameState cfg granted d) w)) =
  write_vertices (screen_vertices (globals w)) (frame_vertices d).
Proof. rewrite InitializeFrameState_world. reflexivity. Qed.

Lemma Render_array `{FloatOps F} cfg ans state d (w : World F) :
  screen_vertices (globals (world_after (Render cfg ans state d) w)) =
  if refresh_opengl (globals w)
  then write_vertices (screen_vertices (globals w)) (frame_vertices d)
  else screen_vertices (globals w).
Proof.
  rewrite Render_world. unfold render_world.
  destruct (refresh_opengl (globals w)), (CursorEnabled state); reflexivity.
Qed.

Lemma screens_256x192_binary32 small ratio bw bh :
  let tb := layout_256x192 TopBottom small ratio bw bh in
  let lr := layout_256x192 LeftRight small ratio bw bh in
  sampled_screen (quad (F:=Binary32.t) tb 0) = Some TopScreen /\
  sampled_screen (quad (F:=Binary32.t) tb 1) = Some BottomScreen /\
  sampled_screen (quad (F:=Binary32.t) lr 0) = Some TopScreen /\
  sampled_screen (quad (F:=Binary32.t) lr 1) = Some BottomScreen.
Proof. destruct small; vm_compute; repeat split. Qed.

Lemma screens_256x192_exact small ratio bw bh :
  let tb := layout_256x192 TopBottom small ratio bw bh in
  let lr := layout_256x192 LeftRight small ratio bw bh in
  sampled_screen (quad (F:=Exact.t) tb 0) = Some TopScreen /\
  sampled_screen (quad (F:=Exact.t) tb 1) = Some BottomScreen /\
  sampled_screen (quad (F:=Exact.t) lr 0) = Some TopScreen /\
  sampled_screen (quad (F:=Exact.t) lr 1) = Some BottomScreen.
Proof. destruct small; vm_compute; repeat split. Qed.

(** C9: for a 256x192 screen with gap 0, after [InitializeFrameState] has
    rebuilt [screen_vertices] (72 floats), the array holds under TopBottom
    the top quad's first vertex at (0,0) and the bottom quad's at (0,192),
    and under LeftRight the bottom quad's at (256,0) while the top quad's
    stays at (0,0). Quad 0 (slots 0, 1) is the top screen's and quad 1
    (slots 24, 25) the bottom screen's, by the half of the texture each
    samples; the values are the same in binary32 and in exact
    arithmetic. *)
Theorem C9_origins_for_256x192 :
  forall small ratio bw bh granted
         (cfg32 : VideoConfig Binary32.t) (w32 : World Binary32.t)
         (cfgq : VideoConfig Exact.t) (wq : World Exact.t),
    length (screen_vertices (globals w32)) = 72%nat ->
    length (screen_vertices (globals wq)) = 72%nat ->
    let tb := layout_256x192 TopBottom small ratio bw bh in
    let lr := layout_256x192 LeftRight small ratio bw bh in
    let array32 d :=
      screen_vertices (globals (world_after (InitializeFrameState cfg32 granted d) w32)) in
    let arrayq d :=
      screen_vertices (globals (world_after (InitializeFrameState cfgq granted d) wq)) in
    (array_origin (array32 tb) 0 = Some (of_int 0, of_int 0) /\
     array_origin (array32 tb) 1 = Some (of_int 0, of_int 192) /\
     array_origin (array32 lr) 0 = Some (of_int 0, of_int 0) /\
     array_origin (array32 lr) 1 = Some (of_int 256, of_int 0)) /\
    (array_origin (arrayq tb) 0 = Some (of_int 0, of_int 0) /\
     array_origin (arrayq tb) 1 = Some (of_int 0, of_int 192) /\
     array_origin (arrayq lr) 0 = Some (of_int 0, of_int 0) /\
     array_origin (arrayq lr) 1 = Some (of_int 256, of_int 0)) /\
    (sampled_screen (array_quad (array32 tb) 0) = Some TopScreen /\
     sampled_screen (array_quad (array32 tb) 1) = Some BottomScreen /\
     sampled_screen (array_quad (array32 lr) 0) = Some TopScreen /\
     sampled_screen (array_quad (array32 lr) 1) = Some BottomScreen) /\
    (sampled_screen (array_quad (arrayq tb) 0) = Some TopScreen /\
     sampled_screen (array_quad (arrayq tb) 1) = Some BottomScreen /\
     sampled_screen (array_quad (arrayq lr) 0) = Some TopScreen /\
     sampled_screen (array_quad (arrayq lr) 1) = Some BottomScreen).
Proof.
  intros small ratio bw bh granted cfg32 w32 cfgq wq H32 Hq tb lr array32 arrayq.
  subst array32 arrayq. cbv beta.
  rewrite !InitializeFrameState_array.
  split; [| split].
  - rewrite !array_origin_rebuilt by (rewrite ?H32; cbn; lia).
    apply origins_binary32.
  - rewrite !array_origin_rebuilt by (rewrite ?Hq; cbn; lia).
    apply origins_exact.
  - destruct (quads_in_array tb _ (rebuild_held tb _ H32)) as [-> ->].
    destruct (quads_in_array lr _ (rebuild_held lr _ H32)) as [-> ->].
    destruct (quads_in_array tb _ (rebuild_held tb _ Hq)) as [-> ->].
    destruct (quads_in_array lr _ (rebuild_held lr _ Hq)) as [-> ->].
    split; [apply screens_256x192_binary32 | apply screens_256x192_exact].
Qed.

(** The bottom quad's origin under TopBottom, from the initial statics. *)
Lemma C9_origins_witness :
  array_origin
    (screen_vertices (globals (world_after
       (InitializeFrameState video32 true (layout_256x192 TopBottom SmallScreenTop 2 256 384))
       (initial_world (F:=Binary32.t))))) 1
  = Some (of_int 0, of_int 192).
Proof.
  pose proof (C9_origins_for_256x192 SmallScreenTop 2 256 384 true
                video32 initial_world video_exact initial_world eq_refl eq_refl) as Hx.
  cbv zeta beta in Hx. exact (proj1 (proj2 (proj1 Hx))).
Defined.

(** ** The seam between the two screens' halves of the texture *)

Lemma seam_in_rebuilt_exact d (buf : list Exact.t) :
  holds_rebuild d buf -> seam_in_array samples_top samples_bottom d buf = true.
Proof.
  intros [E _]. unfold seam_in_array. rewrite E. clear E.
  destruct d as [l s w h g r bw bh]; destruct l, s; vm_compute; reflexivity.
Qed.

Lemma seam_in_rebuilt_binary32 d (buf : list Binary32.t) :
  holds_rebuild d buf ->
  seam_in_array (top_rows32 (1 # 386)) (bottom_rows32 (1 # 386) (1 # 2 ^ 25)) d buf = true.
Proof.
  intros [E _]. unfold seam_in_array. rewrite E. clear E.
  destruct d as [l s w h g r bw bh]; destruct l, s; vm_compute; reflexivity.
Qed.

(** The binary32 padding is the float 11126858 * 2^-32, the one nearest
    to 1/386, and lies below it. *)
Lemma padding_binary32 :
  Binary32.to_Q pixel_pad = Some (11126858 # 2 ^ 32)%Q /\
  ((1 # 386) - (1 # 2 ^ 33) < 11126858 # 2 ^ 32)%Q /\ (11126858 # 2 ^ 32 < 1 # 386)%Q.
Proof. vm_compute. repeat split. Qed.

(** In binary32, among the screen heights from 0 to 8192, the padding is
    1/(2H+2) at H = 192 only; by evaluation. *)
Lemma padding_binary32_range :
  forallb (fun n => bool_decide (bool_decide (pixel_pad (F:=Binary32.t) = spec_padding n)
                                 = (n =? 192)%Z))
    (seqZ 0 8193) = true.
Proof. vm_compute. reflexivity. Qed.

Lemma padding_binary32_iff (n : Z) :
  0 <= n <= 8192 ->
  pixel_pad (F:=Binary32.t) = spec_padding n <-> n = 192.
Proof.
  intros Hn. pose proof padding_binary32_range as Hr.
  rewrite forallb_forall in Hr. specialize (Hr n).
  assert (Hin : In n (seqZ 0 8193)) by (apply list_elem_of_In, elem_of_seqZ; lia).
  apply Hr, bool_decide_eq_true in Hin.
  rewrite <- Z.eqb_eq, <- Hin. symmetry. apply bool_decide_eq_true.
Qed.

(** Against C3 as stated: for a screen of height 384 the padding is not
    1/(2*384+2), in binary32 or in exact arithmetic; and in the binary32
    array the bottom quad of a TopBottom layout has a texture row below
    0.5 plus the padding, the float sum [0.5f + pixel_pad] being rounded
    down. *)
Lemma C3_padding_is_constant_and_the_float_row_rounds_down :
  pixel_pad (F:=Binary32.t) <> spec_padding (ScreenHeight doubled) /\
  pixel_pad (F:=Exact.t) <> spec_padding (ScreenHeight doubled) /\
  bottom_rows32 (11126858 # 2 ^ 32) 0
    (array_quad (screen_vertices (globals (world_after
       (InitializeFrameState video32 true stacked) (initial_world (F:=Binary32.t))))) 1) = false.
Proof.
  split; [| split].
  - vm_compute. discriminate.
  - intros E. apply exact_padding_iff in E. discriminate E.
  - vm_compute. reflexivity.
Qed.

(** C3, amended: the padding is the constant 1/(2*192+2) = 1/386 whatever
    the screen height in the layout data; it equals 1/(2H+2) exactly when
    H = 192 (exact arithmetic for every H, binary32 for H from 0 to
    8192). In binary32 it is the float nearest to 1/386, which lies below
    1/386 by less than 2^-33. After
    [InitializeFrameState] has rebuilt [screen_vertices] (72 floats),
    every quad stored in the array is complete and takes its texture rows
    from one half only; without a hybrid layout quad 0 is the top screen's
    and quad 1 the bottom screen's, with a hybrid layout quad 0 is the
    primary screen's. In exact arithmetic a top-screen quad has no row
    above 0.5 - 1/386 and a bottom-screen quad none below 0.5 + 1/386. In
    binary32, as numbers, a top-screen quad has no row above 0.5 - 1/386,
    and a bottom-screen quad none below 0.5 + 1/386 - 2^-25. *)
Theorem C3_constant_padding_and_seam :
  forall (d : ScreenLayoutData) granted
         (cfg32 : VideoConfig Binary32.t) (w32 : World Binary32.t)
         (cfgq : VideoConfig Exact.t) (wq : World Exact.t),
    length (screen_vertices (globals w32)) = 72%nat ->
    length (screen_vertices (globals wq)) = 72%nat ->
    let array32 :=
      screen_vertices (globals (world_after (InitializeFrameState cfg32 granted d) w32)) in
    let arrayq :=
      screen_vertices (globals (world_after (InitializeFrameState cfgq granted d) wq)) in
    pixel_pad (F:=Binary32.t) = spec_padding NDS_SCREEN_HEIGHT /\
    (pixel_pad (F:=Exact.t) = spec_padding (ScreenHeight d)
       <-> ScreenHeight d = NDS_SCREEN_HEIGHT) /\
    (0 <= ScreenHeight d <= 8192 ->
     (pixel_pad (F:=Binary32.t) = spec_padding (ScreenHeight d)
        <-> ScreenHeight d = NDS_SCREEN_HEIGHT)) /\
    (Binary32.to_Q pixel_pad = Some (11126858 # 2 ^ 32)%Q /\
     ((1 # 386) - (1 # 2 ^ 33) < 11126858 # 2 ^ 32)%Q /\
     (11126858 # 2 ^ 32 < 1 # 386)%Q) /\
    seam_in_array samples_top samples_bottom d arrayq = true /\
    seam_in_array (top_rows32 (1 # 386)) (bottom_rows32 (1 # 386) (1 # 2 ^ 25)) d array32
      = true.
Proof.
  intros d granted cfg32 w32 cfgq wq H32 Hq array32 arrayq. subst array32 arrayq.
  rewrite !InitializeFrameState_array.
  split; [reflexivity | split; [apply exact_padding_iff |]].
  split; [intros Hh; apply padding_binary32_iff, Hh |].
  split; [apply padding_binary32 | split].
  - apply seam_in_rebuilt_exact, rebuild_held, Hq.
  - apply seam_in_rebuilt_binary32, rebuild_held, H32.
Qed.

(** The seam in the binary32 array of a layout at twice the native size,
    from the initial statics. *)
Lemma C3_seam_witness :
  seam_in_array (top_rows32 (1 # 386)) (bottom_rows32 (1 # 386) (1 # 2 ^ 25)) doubled
    (screen_vertices (globals (world_after
       (InitializeFrameState video32 true doubled) (initial_world (F:=Binary32.t))))) = true.
Proof.
  pose proof (C3_constant_padding_and_seam doubled true
                video32 initial_world video_exact initial_world eq_refl eq_refl) as Hx.
  cbv zeta beta in Hx. exact (proj2 (proj2 (proj2 (proj2 (proj2 Hx))))).
Defined.

(** ** Single-screen layouts in the array *)

(** Against C8 as stated: at 256x192 the quad of the screen that is not
    shown, as the array holds it after a rebuild, has neither zero height
    nor zero width. *)
Lemma C8_suppressed_quad_has_area :
  zero_area (array_quad (screen_vertices (globals (world_after
    (InitializeFrameState video32 true top_only) (initial_world (F:=Binary32.t))))) 1) = false /\
  zero_area (array_quad (screen_vertices (globals (world_after
    (InitializeFrameState video32 true bottom_only) (initial_world (F:=Binary32.t))))) 0) = false /\
  zero_area (array_quad (screen_vertices (globals (world_after
    (InitializeFrameState video_exact true top_only) (initial_world (F:=Exact.t))))) 1) = false /\
  zero_area (array_quad (screen_vertices (globals (world_after
    (InitializeFrameState video_exact true bottom_only) (initial_world (F:=Exact.t))))) 0) = false.
Proof. vm_compute. repeat split. Qed.

(** C8, amended: under TopOnly and BottomOnly the quad of the screen that
    is not shown is stored in the array at full size, W by H, with its
    origin moved down by one screen height to (0, H), below the quad of
    the shown screen at (0, 0); it has zero area only when the screen
    itself has zero height or width. All of its vertices lie at or beyond
    the buffer's height exactly when the buffer is no taller than one
    screen, so that is when the displacement puts it outside the buffer:
    it does for a buffer one screen high and does not for one two screens
    high. Exact arithmetic for every layout data; binary32 for every
    screen width and height from 0 to 8192, with the buffer one or two
    screens high. *)
Theorem C8_suppressed_quad_is_moved_at_full_size :
  forall (d : ScreenLayoutData) granted
         (cfgq : VideoConfig Exact.t) (wq : World Exact.t)
         (cfg32 : VideoConfig Binary32.t) (w32 : World Binary32.t),
    length (screen_vertices (globals wq)) = 72%nat ->
    length (screen_vertices (globals w32)) = 72%nat ->
    Layout d = TopOnly \/ Layout d = BottomOnly ->
    let arrayq :=
      screen_vertices (globals (world_after (InitializeFrameState cfgq granted d) wq)) in
    let array32 :=
      screen_vertices (globals (world_after (InitializeFrameState cfg32 granted d) w32)) in
    (positions (array_quad arrayq (suppressed_index d)) =
       rect 0 (ScreenHeight d) (ScreenWidth d) (ScreenHeight d) /\
     positions (array_quad arrayq (shown_index d)) =
       rect 0 0 (ScreenWidth d) (ScreenHeight d) /\
     zero_area (array_quad arrayq (suppressed_index d)) =
       (ScreenHeight d =? 0)%Z || (ScreenWidth d =? 0)%Z /\
     beyond_buffer d (array_quad arrayq (suppressed_index d)) =
       (BufferHeight d <=? ScreenHeight d)%Z &&
       (BufferHeight d <=? ScreenHeight d + ScreenHeight d)%Z) /\
    (0 <= ScreenWidth d <= 8192 -> 0 <= ScreenHeight d <= 8192 ->
     positions (array_quad array32 (suppressed_index d)) =
       rect 0 (ScreenHeight d) (ScreenWidth d) (ScreenHeight d) /\
     positions (array_quad array32 (shown_index d)) =
       rect 0 0 (ScreenWidth d) (ScreenHeight d) /\
     zero_area (array_quad array32 (suppressed_index d)) =
       (ScreenHeight d =? 0)%Z || (ScreenWidth d =? 0)%Z /\
     (BufferHeight d = ScreenHeight d ->
      beyond_buffer d (array_quad array32 (suppressed_index d)) = true) /\
     (BufferHeight d = ScreenHeight d + ScreenHeight d ->
      beyond_buffer d (array_quad array32 (suppressed_index d)) = (ScreenHeight d =? 0)%Z)).
Proof.
  intros d granted cfgq wq cfg32 w32 Hq H32 Hd arrayq array32. subst arrayq array32.
  rewrite !InitializeFrameState_array.
  destruct (suppressed_quad_in_array d _ (rebuild_held d _ Hq)) as [-> ->].
  destruct (suppressed_quad_in_array d _ (rebuild_held d _ H32)) as [-> ->].
  split; [| intros Hw Hh; apply single_screen_quads_binary32; assumption].
  pose proof (single_screen_quads_exact d) as Hs.
  pose proof (beyond_buffer_exact d) as Hb.
  destruct Hd as [Hd | Hd]; rewrite Hd in Hs, Hb;
    destruct Hs as (P1 & P2 & P3); repeat split; assumption.
Qed.

(** A single 256x192 screen in a 384-row buffer, in binary32: the quad of
    the other screen is not beyond the buffer. *)
Lemma C8_single_screen_witness :
  beyond_buffer top_only_tall
    (array_quad (screen_vertices (globals (world_after
       (InitializeFrameState video32 true top_only_tall) (initial_world (F:=Binary32.t)))))
       (suppressed_index top_only_tall)) = false.
Proof.
  pose proof (C8_suppressed_quad_is_moved_at_full_size top_only_tall true
                video_exact initial_world video32 initial_world eq_refl eq_refl
                (or_introl eq_refl)) as Hx.
  cbv zeta beta in Hx. destruct Hx as [_ H32].
  specialize (H32 ltac:(cbn; lia) ltac:(cbn; lia)).
  exact (proj2 (proj2 (proj2 (proj2 H32))) eq_refl).
Defined.

(** ** The driver's object store *)

Section Store.
Context {F : Type} `{FloatOps F}.

Lemma buffers_bind_buffer t n (s : GlState F) :
  buffers (bind_buffer t n s) = buffers s.
Proof. reflexivity. Qed.

Lemma binding_bind_buffer t n (s : GlState F) :
  binding t (bind_buffer t n s) = n.
Proof. destruct t; reflexivity. Qed.

Lemma stored_bind_buffer t n m (s : GlState F) :
  stored m (bind_buffer t n s) = stored m s.
Proof. reflexivity. Qed.

Lemma lookup_store_write t data (s : GlState F) n :
  buffers (store_write t data s) !! n =
  if has_store t s && bool_decide (binding t s = n) then Some data else buffers s !! n.
Proof.
  unfold store_write. destruct (has_store t s); cbn; [| reflexivity].
  unfold with_buffers; fields. case_bool_decide as E.
  - subst n. apply lookup_insert_eq.
  - apply lookup_insert_ne, E.
Qed.

Lemma lookup_uploaded granted c u (s : GlState F) n :
  buffers (uploaded granted c u s) !! n =
  if granted && stored u s && bool_decide (u = n) then Some (UniformBlock c)
  else buffers s !! n.
Proof.
  unfold uploaded. cbv zeta. unfold has_store.
  rewrite binding_bind_buffer, stored_bind_buffer.
  destruct granted; cbn; [| reflexivity].
  destruct (stored u s) eqn:Es; cbn; [| reflexivity].
  rewrite lookup_store_write. unfold has_store.
  rewrite binding_bind_buffer, stored_bind_buffer, Es. reflexivity.
Qed.

Lemma stored_lookup n (s : GlState F) b :
  buffers s !! n = Some b -> b <> NoStore -> stored n s = true.
Proof. unfold stored. intros -> Hb. destruct b; congruence. Qed.

Lemma buffers_buffer_data t data (s : GlState F) :
  buffers (buffer_data t data s) =
  match buffers s !! binding t s with
  | Some _ => <[binding t s := data]> (buffers s)
  | None => buffers s
  end.
Proof. unfold buffer_data. destruct (buffers s !! binding t s); reflexivity. Qed.

Lemma buffers_gen_buffer n (s : GlState F) :
  buffers (gen_buffer n s) = <[n := NoStore]> (buffers s).
Proof. reflexivity. Qed.

(** The buffers after the allocations of a successful reset. *)
Lemma reset_buffers ans ids (w : World F) :
  buffers (gl (reset_world ans ids w)) =
  <[new_vbo ans := Uninitialised sizeof_screen_vertices]>
    (<[new_vbo ans := NoStore]>
      (<[new_ubo ans := UniformBlock zero_config]>
        (<[new_ubo ans := NoStore]> (buffers (gl w))))).
Proof.
  unfold reset_world; fields.
  unfold with_textures; fields. unfold with_vertex_arrays; fields.
  rewrite buffers_buffer_data, binding_bind_buffer, buffers_bind_buffer,
    buffers_gen_buffer, lookup_insert_eq.
  rewrite buffers_buffer_data, binding_bind_buffer, buffers_bind_buffer,
    buffers_gen_buffer, lookup_insert_eq.
  reflexivity.
Qed.
End Store.

Section StoreMore.
Context {F : Type} `{FloatOps F}.

Lemma stored_uploaded_ne granted c u (s : GlState F) n :
  u <> n -> stored n (uploaded granted c u s) = stored n s.
Proof.
  intros Hne. unfold stored. rewrite lookup_uploaded.
  rewrite (bool_decide_eq_false_2 _ Hne), andb_false_r. reflexivity.
Qed.

Lemma textures_buffer_data t data (s : GlState F) :
  textures (buffer_data t data s) = textures s.
Proof. unfold buffer_data. destruct (buffers s !! binding t s); reflexivity. Qed.

Lemma vertex_arrays_buffer_data t data (s : GlState F) :
  vertex_arrays (buffer_data t data s) = vertex_arrays s.
Proof. unfold buffer_data. destruct (buffers s !! binding t s); reflexivity. Qed.

Lemma shader_objects_buffer_data t data (s : GlState F) :
  shader_objects (buffer_data t data s) = shader_objects s.
Proof. unfold buffer_data. destruct (buffers s !! binding t s); reflexivity. Qed.

Lemma sets_bind_buffer t n (s : GlState F) :
  textures (bind_buffer t n s) = textures s /\
  vertex_arrays (bind_buffer t n s) = vertex_arrays s /\
  shader_objects (bind_buffer t n s) = shader_objects s.
Proof. repeat split. Qed.

Lemma sets_gen_buffer n (s : GlState F) :
  textures (gen_buffer n s) = textures s /\
  vertex_arrays (gen_buffer n s) = vertex_arrays s /\
  shader_objects (gen_buffer n s) = shader_objects s.
Proof. repeat split. Qed.

Lemma reset_sets ans ids (w : World F) :
  textures (gl (reset_world ans ids w)) = {[new_texture ans]} ∪ textures (gl w) /\
  vertex_arrays (gl (reset_world ans ids w)) = {[new_vao ans]} ∪ vertex_arrays (gl w) /\
  shader_objects (gl (reset_world ans ids w)) = ids_set ids ∪ shader_objects (gl w).
Proof.
  unfold reset_world; fields.
  unfold with_textures; fields. unfold with_vertex_arrays; fields.
  rewrite textures_buffer_data, vertex_arrays_buffer_data, shader_objects_buffer_data.
  rewrite (proj1 (sets_bind_buffer _ _ _)), (proj1 (proj2 (sets_bind_buffer _ _ _))),
    (proj2 (proj2 (sets_bind_buffer _ _ _))).
  rewrite (proj1 (sets_gen_buffer _ _)), (proj1 (proj2 (sets_gen_buffer _ _))),
    (proj2 (proj2 (sets_gen_buffer _ _))).
  rewrite textures_buffer_data, vertex_arrays_buffer_data, shader_objects_buffer_data.
  repeat split.
Qed.
End StoreMore.

(** ** Context destroy *)

Section Destroy.
Context {F : Type} `{FloatOps F}.

Lemma destroy_releases (w : World F) : released (world_after context_destroy w).
Proof.
  rewrite context_destroy_world. unfold released, destroyed_world. fields.
  unfold with_textures; fields. unfold with_vertex_arrays; fields.
  unfold delete_buffer; fields. unfold with_shader_objects; fields.
  repeat split.
  - set_unfold; intros; tauto.
  - set_unfold; intros; tauto.
  - apply lookup_delete_eq.
  - set_unfold; intros; tauto.
Qed.

Lemma destroy_keeps_globals (w : World F) :
  globals (world_after context_destroy w) = globals w.
Proof. rewrite context_destroy_world. reflexivity. Qed.

Lemma destroy_buffers (w : World F) :
  buffers (gl (world_after context_destroy w)) = delete (vbo (globals w)) (buffers (gl w)).
Proof. rewrite context_destroy_world. reflexivity. Qed.

Lemma destroy_idempotent (w : World F) :
  world_after context_destroy (world_after context_destroy w) =
  world_after context_destroy w.
Proof.
  rewrite !context_destroy_world. unfold destroyed_world. fields.
  unfold with_textures; fields. unfold with_vertex_arrays; fields.
  unfold delete_buffer; fields. unfold with_shader_objects; fields.
  f_equal. f_equal.
  - apply map_eq. intros i. rewrite !lookup_delete. repeat case_decide; reflexivity.
  - set_unfold; intros; tauto.
  - set_unfold; intros; tauto.
  - set_unfold; intros; tauto.
  - repeat case_bool_decide; congruence.
  - repeat case_bool_decide; congruence.
Qed.

(** C5, amended: after [context_destroy] the output texture, the vertex
    array, the vertex buffer and the shader program are released; the
    context-initialized flag keeps the value it had, so
    [ContextInitialized] still answers what it answered before; of the
    buffers only the vertex buffer is deleted, the uniform buffer is
    not. *)
Theorem C5_destroy_releases_and_keeps_the_flag :
  forall w : World F,
    released (world_after context_destroy w) /\
    ContextInitialized (world_after context_destroy w) = ContextInitialized w /\
    buffers (gl (world_after context_destroy w)) =
      delete (vbo (globals w)) (buffers (gl w)).
Proof.
  intros w. split; [apply destroy_releases | split].
  - unfold ContextInitialized. rewrite destroy_keeps_globals. reflexivity.
  - apply destroy_buffers.
Qed.

(** C6, amended: a second [context_destroy] leaves the state the first one
    left, and the objects stay released; it is not skipped, it issues the
    same calls as the first, delete calls included, on the handles that
    no longer name objects. *)
Theorem C6_destroy_twice_same_state_same_calls :
  forall w : World F,
    world_after context_destroy (world_after context_destroy w) =
      world_after context_destroy w /\
    released (world_after context_destroy (world_after context_destroy w)) /\
    calls_of context_destroy (world_after context_destroy w) =
      calls_of context_destroy w.
Proof.
  intros w. split; [apply destroy_idempotent | split].
  - apply destroy_releases.
  - rewrite !context_destroy_calls, destroy_keeps_globals. reflexivity.
Qed.
End Destroy.

(** Against C5 as stated: after a successful reset and a destroy,
    [ContextInitialized] still answers true. *)
Lemma C5_flag_survives_destroy :
  ContextInitialized
    (run [DoContextReset good_reset; DoContextDestroy] (initial_world (F:=Binary32.t)))
  = true.
Proof. vm_compute. reflexivity. Qed.

(** Against C6 as stated: the second of two destroys is not a no-op; it
    issues all four delete calls again, on names that denote nothing. *)
Lemma C6_second_destroy_deletes_again :
  released (run [DoContextReset good_reset; DoContextDestroy] (initial_world (F:=Binary32.t))) /\
  List.filter is_delete
    (calls_of context_destroy
      (run [DoContextReset good_reset; DoContextDestroy] (initial_world (F:=Binary32.t)))) =
  [ E_glDeleteTextures 7; E_glDeleteVertexArrays 6; E_glDeleteBuffers 5;
    E_DeleteShaderProgram (1%N, 2%N, 3%N) ].
Proof.
  split.
  - apply (destroy_releases (world_after (ContextReset good_reset) initial_world)).
  - vm_compute. reflexivity.
Qed.

(** ** What a successful reset allocates *)

Section Allocation.
Context {F : Type} `{FloatOps F}.

Lemma reset_allocates_fresh ans ids (w : World F) :
  new_ubo ans <> new_vbo ans ->
  freshly_allocated ans ids (reset_world ans ids w).
Proof.
  intros Hne. unfold freshly_allocated.
  destruct (reset_sets ans ids w) as (Et & Ea & Es).
  rewrite Et, Ea, Es, reset_buffers.
  repeat split.
  - set_unfold; intros; tauto.
  - rewrite lookup_insert_ne, lookup_insert_ne, lookup_insert_eq by congruence.
    reflexivity.
  - apply lookup_insert_eq.
  - set_unfold; intros; tauto.
  - set_unfold; intros; tauto.
Qed.
End Allocation.

(** ** The cursor fields of the uniform block *)

Section Cursor.
Context {F : Type} `{FloatOps F}.

Lemma Render_keeps_handles cfg ans state d (w : World F) :
  ubo (globals (world_after (Render cfg ans state d) w)) = ubo (globals w) /\
  vbo (globals (world_after (Render cfg ans state d) w)) = vbo (globals w).
Proof.
  rewrite Render_world. unfold render_world, cursor_world, frame_state_world.
  destruct (refresh_opengl (globals w)), (CursorEnabled state); split; reflexivity.
Qed.

(** The uniform buffer as [Render] leaves it when the cursor is disabled. *)
Lemma Render_uploaded_cursor_disabled cfg ans state d (w : World F) :
  CursorEnabled state = false ->
  ubo (globals w) <> vbo (globals w) ->
  uploaded_config (world_after (Render cfg ans state d) w) =
  if refresh_opengl (globals w) && refresh_map_granted ans && stored (ubo (globals w)) (gl w)
  then Some (refreshed_config cfg d (GL_ShaderConfig (globals w)))
  else uploaded_config w.
Proof.
  intros Hc Hne. unfold uploaded_config.
  destruct (Render_keeps_handles cfg ans state d w) as [-> _].
  rewrite Render_world. unfold render_world. rewrite Hc.
  destruct (refresh_opengl (globals w)); cbn [andb]; fields.
  - unfold frame_state_world; fields.
    rewrite buffers_bind_buffer, lookup_store_write, binding_bind_buffer.
    rewrite (bool_decide_eq_false_2 (vbo (globals w) = ubo (globals w))) by congruence.
    rewrite andb_false_r, buffers_bind_buffer, lookup_uploaded.
    rewrite bool_decide_eq_true_2 by reflexivity. rewrite andb_true_r.
    destruct (refresh_map_granted ans && stored (ubo (globals w)) (gl w)); reflexivity.
  - rewrite buffers_bind_buffer. reflexivity.
Qed.

Lemma Render_config_cursor_disabled cfg ans state d (w : World F) :
  CursorEnabled state = false ->
  cursorPos (GL_ShaderConfig (globals (world_after (Render cfg ans state d) w))) =
  if refresh_opengl (globals w) then sentinel_box
  else cursorPos (GL_ShaderConfig (globals w)).
Proof.
  intros Hc. rewrite Render_world. unfold render_world. rewrite Hc.
  destruct (refresh_opengl (globals w)); reflexivity.
Qed.

(** A refreshing frame with the cursor disabled installs the sentinel. *)
Lemma refresh_installs_sentinel cfg ans state d (w : World F) :
  refresh_opengl (globals w) = true ->
  CursorEnabled state = false ->
  refresh_map_granted ans = true ->
  stored (ubo (globals w)) (gl w) = true ->
  ubo (globals w) <> vbo (globals w) ->
  cursor_off (world_after (Render cfg ans state d) w).
Proof.
  intros Hr Hc Hg Hs Hne. split.
  - rewrite Render_config_cursor_disabled, Hr by exact Hc. reflexivity.
  - rewrite Render_uploaded_cursor_disabled, Hr, Hg, Hs by assumption. reflexivity.
Qed.

(** Later frames with the cursor disabled keep it. *)
Lemma step_keeps_sentinel (s : Step F) (w : World F) :
  cursor_stays_off s = true ->
  ubo (globals w) <> vbo (globals w) ->
  cursor_off w ->
  cursor_off (world_after (step s) w) /\
  ubo (globals (world_after (step s) w)) <> vbo (globals (world_after (step s) w)).
Proof.
  intros Hs Hne [Hc Hu].
  destruct s as [a | | cfg ans state d | |]; try discriminate Hs.
  - cbn [cursor_stays_off] in Hs. apply negb_true_iff in Hs. cbn [step].
    destruct (Render_keeps_handles cfg ans state d w) as [Eu Ev].
    split; [split |].
    + rewrite Render_config_cursor_disabled by exact Hs.
      destruct (refresh_opengl (globals w)); [reflexivity | exact Hc].
    + rewrite Render_uploaded_cursor_disabled by assumption.
      destruct (_ && _ && _); [reflexivity | exact Hu].
    + rewrite Eu, Ev. exact Hne.
  - destruct w as [g st]. split; [split |]; assumption.
Qed.

Lemma run_keeps_sentinel (rest : list (Step F)) (w : World F) :
  forallb cursor_stays_off rest = true ->
  ubo (globals w) <> vbo (globals w) ->
  cursor_off w ->
  cursor_off (run rest w).
Proof.
  revert w. induction rest as [| s rest IH]; intros w Hall Hne Hoff.
  - exact Hoff.
  - cbn [forallb] in Hall. apply andb_true_iff in Hall as [Hs Hall].
    destruct (step_keeps_sentinel s w Hs Hne Hoff) as [Hoff' Hne'].
    cbn [run]. apply IH; assumption.
Qed.

(** C4, amended: once a frame that refreshes has run with the cursor
    disabled and its uniform-buffer mapping was obtained, the four cursor
    fields, in the program's block and in the uniform buffer, are -1.0,
    and they stay -1.0 through every later frame with the cursor disabled
    and every refresh request, up to the next context reset or destroy. A
    frame with the cursor enabled overwrites them, and disabling the
    cursor afterwards does not restore the sentinel until a frame
    refreshes. *)
Theorem C4_sentinel_after_refresh_while_cursor_disabled :
  forall (w : World F) cfg ans state d (rest : list (Step F)),
    refresh_opengl (globals w) = true ->
    CursorEnabled state = false ->
    refresh_map_granted ans = true ->
    stored (ubo (globals w)) (gl w) = true ->
    ubo (globals w) <> vbo (globals w) ->
    forallb cursor_stays_off rest = true ->
    cursor_off (run (DoRender cfg ans state d :: rest) w).
Proof.
  intros w cfg ans state d rest Hr Hc Hg Hs Hne Hall.
  cbn [run step]. apply run_keeps_sentinel.
  - exact Hall.
  - destruct (Render_keeps_handles cfg ans state d w) as [-> ->]. exact Hne.
  - apply refresh_installs_sentinel; assumption.
Qed.
End Cursor.

(** After a successful reset: a refreshing frame, a refresh request and
    another frame, all with the cursor disabled. *)
Lemma C4_sentinel_witness :
  cursor_off
    (run [ DoRender video32 good_render cursor_disabled stacked;
           DoRequestRefresh;
           DoRender video32 good_render cursor_disabled stacked ]
       (run [DoContextReset good_reset] (initial_world (F:=Binary32.t)))).
Proof.
  apply (C4_sentinel_after_refresh_while_cursor_disabled
           (run [DoContextReset good_reset] (initial_world (F:=Binary32.t)))
           video32 good_render cursor_disabled stacked
           [DoRequestRefresh; DoRender video32 good_render cursor_disabled stacked]).
  - reflexivity.
  - reflexivity.
  - reflexivity.
  - vm_compute. reflexivity.
  - vm_compute. discriminate.
  - reflexivity.
Defined.

(** Against C4 as stated: after a frame with the cursor enabled and one
    with the cursor disabled, with no refresh between them, the uniform
    buffer still holds the cursor box of the first frame. *)
Lemma C4_cursor_box_survives_disabling :
  (cursorPos <$> uploaded_config
     (run [ DoContextReset good_reset;
            DoRender video32 good_render cursor_on stacked;
            DoRender video32 good_render cursor_disabled stacked ]
        (initial_world (F:=Binary32.t))))
    = Some (cursor_box video32 cursor_on) /\
  ~ cursor_off
      (run [ DoContextReset good_reset;
             DoRender video32 good_render cursor_on stacked;
             DoRender video32 good_render cursor_disabled stacked ]
         (initial_world (F:=Binary32.t))).
Proof.
  split.
  - vm_compute. reflexivity.
  - intros [_ Hu]. vm_compute in Hu. discriminate Hu.
Qed.

(** * Further properties of the compositor *)

Section Geometry.
Context {F : Type} `{FloatOps F}.

(** Every quad repeats its first and third vertex as its fourth and
    sixth, and its second and fifth vertex each share one coordinate with
    the first and the other with the third; the first two quads are
    always stored. *)
Lemma quads_wound_alike (d : ScreenLayoutData) :
  wound_alike (quad (F:=F) d 0) /\ wound_alike (quad (F:=F) d 1) /\
  wound_alike (quad (F:=F) d 2) /\
  length (quad (F:=F) d 0) = 6%nat /\ length (quad (F:=F) d 1) = 6%nat.
Proof.
  destruct d as [l s w h g r bw bh]. destruct l, s; vm_compute; repeat split.
Qed.

Lemma frame_vertices_below_18 (d : ScreenLayoutData) :
  forallb (fun sv : nat * Vertex F => (fst sv <? 18)%nat) (frame_vertices d) = true.
Proof. destruct d as [l s w h g r bw bh]. destruct l, s; vm_compute; reflexivity. Qed.

Lemma frame_vertices_below_12 (d : ScreenLayoutData) :
  stores_third_quad d = false ->
  forallb (fun sv : nat * Vertex F => (fst sv <? 12)%nat) (frame_vertices d) = true.
Proof.
  destruct d as [l s w h g r bw bh]. destruct l, s; vm_compute; intros E;
    try reflexivity; discriminate E.
Qed.

Lemma SETVERTEX_lookup_above (buf : list F) (sv : nat * Vertex F) (j : nat) :
  (4 * fst sv + 3 < j)%nat -> SETVERTEX buf sv !! j = buf !! j.
Proof.
  intros Hj. unfold SETVERTEX. rewrite !list_lookup_insert_ne by lia. reflexivity.
Qed.

Lemma write_vertices_lookup_above (n : nat) (svs : list (nat * Vertex F))
    (buf : list F) (j : nat) :
  forallb (fun sv : nat * Vertex F => (fst sv <? n)%nat) svs = true ->
  (4 * n <= j)%nat ->
  write_vertices buf svs !! j = buf !! j.
Proof.
  revert buf. induction svs as [| sv svs IH]; intros buf Hall Hj; [reflexivity |].
  cbn [forallb] in Hall. apply andb_true_iff in Hall as [Hsv Hall].
  apply Nat.ltb_lt in Hsv.
  unfold write_vertices in *. cbn [fold_left].
  rewrite IH by assumption. apply SETVERTEX_lookup_above. lia.
Qed.

(** X2: a rebuild never stores outside [screen_vertices]: no vertex index
    above 17 occurs, the array keeps its length, and whatever lies at
    slot 72 or beyond is left as it was. *)
Theorem X2_rebuild_stays_inside_the_array :
  forall (d : ScreenLayoutData) (buf : list F),
    forallb (fun sv : nat * Vertex F => (fst sv <? 18)%nat) (frame_vertices d) = true /\
    length (write_vertices buf (frame_vertices d)) = length buf /\
    (forall j, (72 <= j)%nat -> write_vertices buf (frame_vertices d) !! j = buf !! j).
Proof.
  intros d buf. split; [apply frame_vertices_below_18 | split].
  - apply write_vertices_length.
  - intros j Hj. apply write_vertices_lookup_above with 18%nat.
    + apply frame_vertices_below_18.
    + lia.
Qed.

(** X3: unless the layout is hybrid with the duplicated small screen, a
    rebuild leaves the third quad's slots, 48 to 71, as they were: what
    they hold is zero or left over from an earlier layout. *)
Theorem X3_third_quad_is_left_over :
  forall (d : ScreenLayoutData) (buf : list F) (j : nat),
    stores_third_quad d = false ->
    (48 <= j)%nat ->
    write_vertices buf (frame_vertices d) !! j = buf !! j.
Proof.
  intros d buf j Hd Hj. apply write_vertices_lookup_above with 12%nat.
  - apply frame_vertices_below_12, Hd.
  - lia.
Qed.

(** X4: slot [4i + k] of the array after a rebuild holds field [k] of the
    last vertex stored to [i], and keeps its old contents if no vertex is
    stored to [i]. *)
Theorem X4_array_holds_the_last_store :
  forall (d : ScreenLayoutData) (buf : list F) (i k : nat),
    (k < 4)%nat -> (4 * i + k < length buf)%nat ->
    write_vertices buf (frame_vertices d) !! (4 * i + k)%nat =
    match vertex_at d i with
    | Some v => Some (component k v)
    | None => buf !! (4 * i + k)%nat
    end.
Proof. intros d buf i k Hk Hlen. apply vertex_in_array; assumption. Qed.

(** X5: the draw call of [Render] covers exactly the vertices a rebuild
    stores if and only if the layout is hybrid or the small-screen option
    is not Duplicate. *)
Theorem X5_draw_count_matches_iff :
  forall cfg ans state d (w : World F),
    draw_counts (calls_of (Render cfg ans state d) w) = [vertices_written (F:=F) d]
    <-> (IsHybridLayout d = true \/ HybridSmallScreenLayout d <> SmallScreenDuplicate).
Proof.
  intros cfg ans state d w. rewrite Render_draw_count, vertices_written_spec.
  destruct d as [l s ? ? ? ? ? ?]. destruct l, s; cbn; split; intros Hx;
    try reflexivity; try (left; reflexivity); try (right; discriminate);
    try discriminate Hx; destruct Hx as [Hx | Hx]; try discriminate Hx;
    exfalso; apply Hx; reflexivity.
Qed.
End Geometry.

Lemma X3_third_quad_witness :
  write_vertices (F:=Binary32.t) (replicate 72 (of_int 7)) (frame_vertices stacked) !! 50%nat
    = Some (of_int 7).
Proof.
  rewrite (X3_third_quad_is_left_over stacked (replicate 72 (of_int 7)) 50);
    [reflexivity | reflexivity | lia].
Defined.

Lemma X4_array_witness :
  write_vertices (F:=Binary32.t) (replicate 72 f0) (frame_vertices stacked) !! 25%nat
    = Some (of_int 192).
Proof.
  change 25%nat with (4 * 6 + 1)%nat.
  rewrite (X4_array_holds_the_last_store stacked (replicate 72 f0) 6 1);
    [reflexivity | lia | cbn; lia].
Defined.

(** X6: in exact arithmetic, for every screen size and gap, the two-screen
    layouts place two full-size quads: TopBottom puts the bottom screen at
    (0, H + gap) under the top screen at (0, 0), BottomTop the other way
    round; LeftRight puts the bottom screen at (W, 0) beside the top screen
    at (0, 0), RightLeft the other way round. The gap separates stacked
    screens only. *)
Theorem X6_two_screen_layouts_exact :
  forall d : ScreenLayoutData,
    let W := ScreenWidth d in
    let H := ScreenHeight d in
    let gap := ScaledScreenGap d in
    match Layout d with
    | TopBottom =>
        positions (quad (F:=Exact.t) d 0) = rect 0 0 W H /\
        positions (quad (F:=Exact.t) d 1) = rect 0 (H + gap) W H
    | BottomTop =>
        positions (quad (F:=Exact.t) d 0) = rect 0 (H + gap) W H /\
        positions (quad (F:=Exact.t) d 1) = rect 0 0 W H
    | LeftRight =>
        positions (quad (F:=Exact.t) d 0) = rect 0 0 W H /\
        positions (quad (F:=Exact.t) d 1) = rect W 0 W H
    | RightLeft =>
        positions (quad (F:=Exact.t) d 0) = rect W 0 W H /\
        positions (quad (F:=Exact.t) d 1) = rect 0 0 W H
    | _ => True
    end.
Proof.
  intros [l s w h g r bw bh]. cbv zeta. cbn [Layout ScreenWidth ScreenHeight ScaledScreenGap].
  destruct l; try exact I; split; exact_arith; reflexivity.
Qed.

(** X7: in exact arithmetic, a hybrid layout places the primary quad at
    (0, 0) with the screen size scaled by the hybrid ratio, and every small
    quad at native size to the right of it: flush with its top for
    SmallScreenTop, flush with its bottom for SmallScreenBottom, and one
    of each for SmallScreenDuplicate. *)
Theorem X7_hybrid_layout_exact :
  forall d : ScreenLayoutData,
  let W := ScreenWidth d in
  let H := ScreenHeight d in
  let r := HybridRatio d in
  match Layout d with
  | HybridTop | HybridBottom =>
      positions (quad (F:=Exact.t) d 0) = rect 0 0 (W * r) (H * r) /\
      match HybridSmallScreenLayout d with
      | SmallScreenTop =>
          positions (quad (F:=Exact.t) d 1) = rect (W * r) 0 W H /\
          quad (F:=Exact.t) d 2 = []
      | SmallScreenBottom =>
          positions (quad (F:=Exact.t) d 1) = rect (W * r) (H * r - H) W H /\
          quad (F:=Exact.t) d 2 = []
      | SmallScreenDuplicate =>
          positions (quad (F:=Exact.t) d 1) = rect (W * r) 0 W H /\
          positions (quad (F:=Exact.t) d 2) = rect (W * r) (H * r - H) W H
      end
  | _ => True
  end.
Proof.
  intros d. destruct d as [l s w h g r bw bh]. cbv zeta.
  cbn [Layout ScreenWidth ScreenHeight HybridRatio HybridSmallScreenLayout].
  destruct l; try exact I; destruct s; repeat split;
    cbv - [Qcplus Qcmult Qcminus Qcdiv Exact.of_Z Z.add Z.mul Z.sub];
    autorewrite with exact_of_Z; rewrite ?of_Z_sub;
    replace (h * r - h + h) with (h * r) by lia; reflexivity.
Qed.

(** X8: which screen each quad shows. Without a hybrid layout quad 0 shows
    the top screen and quad 1 the bottom screen. With a hybrid layout quad 0
    shows the primary screen; for SmallScreenTop and SmallScreenBottom the
    one small quad shows the other screen; for SmallScreenDuplicate the
    upper small quad shows the top screen and the lower one the bottom
    screen, whichever is primary. Binary32 and exact arithmetic agree. *)
Theorem X8_screens_shown_by_the_quads :
  forall d : ScreenLayoutData,
    shown_screens (F:=Binary32.t) d = shown_screens (F:=Exact.t) d /\
    shown_screens (F:=Binary32.t) d =
    match Layout d, HybridSmallScreenLayout d with
    | HybridTop, SmallScreenDuplicate =>
        [Some TopScreen; Some TopScreen; Some BottomScreen]
    | HybridTop, _ => [Some TopScreen; Some BottomScreen; None]
    | HybridBottom, SmallScreenDuplicate =>
        [Some BottomScreen; Some TopScreen; Some BottomScreen]
    | HybridBottom, _ => [Some BottomScreen; Some TopScreen; None]
    | _, _ => [Some TopScreen; Some BottomScreen; None]
    end.
Proof.
  intros [l s w h g r bw bh]. destruct l, s; vm_compute; split; reflexivity.
Qed.

Lemma textures_ordered_binary32 (d : ScreenLayoutData) :
  texture_ordered (quad (F:=Binary32.t) d 0) = true /\
  texture_ordered (quad (F:=Binary32.t) d 1) = true /\
  texture_ordered (quad (F:=Binary32.t) d 2) = true.
Proof.
  destruct d as [l s w h g r bw bh]. destruct l, s; lazy; repeat split.
Qed.

Lemma textures_ordered_exact (d : ScreenLayoutData) :
  texture_ordered (quad (F:=Exact.t) d 0) = true /\
  texture_ordered (quad (F:=Exact.t) d 1) = true /\
  texture_ordered (quad (F:=Exact.t) d 2) = true.
Proof.
  destruct d as [l s w h g r bw bh]. destruct l, s; lazy; repeat split.
Qed.

Lemma corners_ordered_exact (d : ScreenLayoutData) :
  0 <= ScreenWidth d -> 0 <= ScreenHeight d -> 0 <= HybridRatio d ->
  corners_ordered (quad (F:=Exact.t) d 0) = true /\
  corners_ordered (quad (F:=Exact.t) d 1) = true /\
  corners_ordered (quad (F:=Exact.t) d 2) = true.
Proof.
  destruct d as [l s w h g r bw bh]. cbn [ScreenWidth ScreenHeight HybridRatio].
  intros Hw Hh Hr.
  destruct l, s; repeat split;
    cbv - [Qcplus Qcmult Qcminus Qcdiv Exact.of_Z Exact.leb Z.add Z.mul Z.sub];
    autorewrite with exact_of_Z; rewrite ?of_Z_sub; autorewrite with exact_of_Z;
    rewrite ?of_Z_leb; try reflexivity;
    rewrite !(proj2 (Z.leb_le _ _)) by nia; reflexivity.
Qed.

(** X1: for a screen size and a hybrid ratio that are not negative, every
    quad a rebuild stores, in every layout, lists its corners in the same
    order: top left, bottom left, bottom right, top left, top right,
    bottom right. The fourth and sixth vertex repeat the first and third,
    the second and fifth each share one coordinate with the first and the
    other with the third, and no coordinate of the first exceeds that of
    the third, for positions (exact arithmetic) and for texture
    coordinates (exact arithmetic and binary32) alike; the first two
    quads are always stored. *)
Theorem X1_quads_are_wound_alike :
  forall d : ScreenLayoutData,
    0 <= ScreenWidth d -> 0 <= ScreenHeight d -> 0 <= HybridRatio d ->
    Forall (fun vs => wound_alike vs /\ corners_ordered vs = true /\ texture_ordered vs = true)
      [quad (F:=Exact.t) d 0; quad (F:=Exact.t) d 1; quad (F:=Exact.t) d 2] /\
    Forall (fun vs => wound_alike vs /\ texture_ordered vs = true)
      [quad (F:=Binary32.t) d 0; quad (F:=Binary32.t) d 1; quad (F:=Binary32.t) d 2] /\
    length (quad (F:=Exact.t) d 0) = 6%nat /\ length (quad (F:=Exact.t) d 1) = 6%nat /\
    length (quad (F:=Binary32.t) d 0) = 6%nat /\ length (quad (F:=Binary32.t) d 1) = 6%nat.
Proof.
  intros d Hw Hh Hr.
  destruct (quads_wound_alike (F:=Exact.t) d) as (W0 & W1 & W2 & L0 & L1).
  destruct (quads_wound_alike (F:=Binary32.t) d) as (V0 & V1 & V2 & M0 & M1).
  destruct (corners_ordered_exact d Hw Hh Hr) as (C0 & C1 & C2).
  destruct (textures_ordered_exact d) as (T0 & T1 & T2).
  destruct (textures_ordered_binary32 d) as (U0 & U1 & U2).
  repeat split; try assumption; repeat constructor; assumption.
Qed.

Lemma X1_winding_witness :
  Forall (fun vs => wound_alike vs /\ corners_ordered vs = true /\ texture_ordered vs = true)
    [quad (F:=Exact.t) hybrid_duplicate 0; quad (F:=Exact.t) hybrid_duplicate 1;
     quad (F:=Exact.t) hybrid_duplicate 2].
Proof.
  apply (X1_quads_are_wound_alike hybrid_duplicate); cbn; lia.
Defined.

(** * Further properties of the frame presenter *)

Section StoreDomains.
Context {F : Type} `{FloatOps F}.

Lemma live_objects_bind_buffer t n (s : GlState F) :
  live_objects (bind_buffer t n s) = live_objects s.
Proof. reflexivity. Qed.

Lemma stored_is_Some n (s : GlState F) :
  stored n s = true -> is_Some (buffers s !! n).
Proof. unfold stored. destruct (buffers s !! n); [eauto | discriminate]. Qed.

Lemma live_objects_store_write t data (s : GlState F) :
  live_objects (store_write t data s) = live_objects s.
Proof.
  unfold store_write. destruct (has_store t s) eqn:E; [| reflexivity].
  unfold live_objects, with_buffers; fields.
  rewrite dom_insert_lookup_L by (apply stored_is_Some, E). reflexivity.
Qed.

Lemma live_objects_uploaded granted c u (s : GlState F) :
  live_objects (uploaded granted c u s) = live_objects s.
Proof.
  unfold uploaded. cbv zeta. destruct (granted && _).
  - rewrite live_objects_store_write. reflexivity.
  - reflexivity.
Qed.

Lemma stored_store_write t data (s : GlState F) n :
  data <> NoStore -> stored n (store_write t data s) = stored n s.
Proof.
  intros Hd. unfold stored at 1. rewrite lookup_store_write.
  destruct (has_store t s) eqn:E; cbn [andb]; [| reflexivity].
  case_bool_decide as En; [| reflexivity].
  subst n. unfold has_store in E. rewrite E. destruct data; congruence.
Qed.

Lemma stored_uploaded granted c u (s : GlState F) n :
  stored n (uploaded granted c u s) = stored n s.
Proof.
  unfold uploaded. cbv zeta. destruct (granted && _).
  - rewrite stored_store_write by discriminate. reflexivity.
  - reflexivity.
Qed.
End StoreDomains.

Section Presenter.
Context {F : Type} `{FloatOps F}.

Lemma as_GLsizei_small (n : Z) : 0 <= n < 2 ^ 31 -> as_GLsizei n = n.
Proof. intros Hn. unfold as_GLsizei. rewrite Z.mod_small; lia. Qed.

Lemma as_unsigned_small (n : Z) : 0 <= n < 2 ^ 32 -> as_unsigned n = n.
Proof. intros Hn. unfold as_unsigned. apply Z.mod_small, Hn. Qed.

Lemma Render_presentation cfg ans state d (w : World F) :
  List.filter is_presentation (calls_of (Render cfg ans state d) w) =
    [ E_glViewport (as_GLsizei (BufferWidth d)) (as_GLsizei (BufferHeight d));
      E_glDrawArrays 0
        (if bool_decide (HybridSmallScreenLayout d = SmallScreenDuplicate) then 18 else 12);
      E_video_refresh (as_unsigned (BufferWidth d)) (as_unsigned (BufferHeight d)) ] /\
  hd_error (calls_of (Render cfg ans state d) w) = Some (E_glsm_ctl GLSM_CTL_STATE_BIND) /\
  last (calls_of (Render cfg ans state d) w) =
    Some (E_video_refresh (as_unsigned (BufferWidth d)) (as_unsigned (BufferHeight d))).
Proof.
  destruct w as [g s]. gl_unfold. gl_exec; repeat split.
Qed.

(** X9: every [Render] sets the viewport once, draws once and notifies the
    host once, in that order; for a buffer whose width and height fit the
    [GLsizei] of [glViewport], the viewport and the notification carry
    that width and height; the invocation opens with the glsm bind and the
    notification is its last call. *)
Theorem X9_one_viewport_one_draw_one_notification :
  forall cfg ans state d (w : World F),
    0 <= BufferWidth d < 2 ^ 31 -> 0 <= BufferHeight d < 2 ^ 31 ->
    List.filter is_presentation (calls_of (Render cfg ans state d) w) =
      [ E_glViewport (BufferWidth d) (BufferHeight d);
        E_glDrawArrays 0
          (if bool_decide (HybridSmallScreenLayout d = SmallScreenDuplicate) then 18 else 12);
        E_video_refresh (BufferWidth d) (BufferHeight d) ] /\
    hd_error (calls_of (Render cfg ans state d) w) = Some (E_glsm_ctl GLSM_CTL_STATE_BIND) /\
    last (calls_of (Render cfg ans state d) w) =
      Some (E_video_refresh (BufferWidth d) (BufferHeight d)).
Proof.
  intros cfg ans state d w Hw Hh.
  pose proof (Render_presentation cfg ans state d w) as Hp.
  rewrite !as_GLsizei_small, !as_unsigned_small in Hp by lia. exact Hp.
Qed.

Lemma Render_rebuild_calls cfg ans state d (w : World F) :
  List.filter is_rebuild (calls_of (Render cfg ans state d) w) =
  if refresh_opengl (globals w)
  then [E_glClear; E_SetRenderSettings; E_glBufferSubData GL_ARRAY_BUFFER sizeof_screen_vertices]
  else [].
Proof.
  destruct w as [g s]. gl_unfold. cbn.
  destruct (refresh_opengl g); gl_exec; reflexivity.
Qed.

Lemma Render_clears_flag cfg ans state d (w : World F) :
  refresh_opengl (globals (world_after (Render cfg ans state d) w)) = false.
Proof.
  rewrite Render_world. unfold render_world, cursor_world, frame_state_world.
  destruct (refresh_opengl (globals w)) eqn:E, (CursorEnabled state); fields;
    try reflexivity; exact E.
Qed.

(** X10: a refresh request is served by exactly one frame. [Render] clears
    the framebuffer and rebuilds the frame state exactly when the refresh
    flag is set on entry, and always leaves the flag clear; so the frame
    after a request rebuilds, and the frame after any frame does not. *)
Theorem X10_refresh_is_served_once :
  forall cfg ans state d cfg' ans' state' d' (w : World F),
    List.filter is_rebuild (calls_of (Render cfg ans state d) w) =
      (if refresh_opengl (globals w)
       then [E_glClear; E_SetRenderSettings;
             E_glBufferSubData GL_ARRAY_BUFFER sizeof_screen_vertices]
       else []) /\
    refresh_opengl (globals (world_after (Render cfg ans state d) w)) = false /\
    List.filter is_rebuild
      (calls_of (Render cfg ans state d) (world_after RequestOpenGlRefresh w)) =
      [E_glClear; E_SetRenderSettings;
       E_glBufferSubData GL_ARRAY_BUFFER sizeof_screen_vertices] /\
    List.filter is_rebuild
      (calls_of (Render cfg' ans' state' d') (world_after (Render cfg ans state d) w)) = [].
Proof.
  intros. split; [apply Render_rebuild_calls | split; [apply Render_clears_flag | split]].
  - rewrite Render_rebuild_calls. destruct w as [g s]. reflexivity.
  - rewrite Render_rebuild_calls, Render_clears_flag. reflexivity.
Qed.

Lemma Render_handles cfg ans state d (w : World F) :
  handles (globals (world_after (Render cfg ans state d) w)) = handles (globals w).
Proof.
  rewrite Render_world. unfold render_world, cursor_world, frame_state_world.
  destruct (refresh_opengl (globals w)), (CursorEnabled state); reflexivity.
Qed.

Lemma Render_live_objects cfg ans state d (w : World F) :
  live_objects (gl (world_after (Render cfg ans state d) w)) = live_objects (gl w).
Proof.
  rewrite Render_world. unfold render_world, cursor_world, frame_state_world.
  destruct (refresh_opengl (globals w)), (CursorEnabled state); fields;
    rewrite ?live_objects_bind_buffer, ?live_objects_uploaded,
      ?live_objects_store_write, ?live_objects_bind_buffer, ?live_objects_uploaded;
    reflexivity.
Qed.

(** X11: [Render] creates and deletes no driver object and assigns no
    handle: the sets of buffer, texture, vertex-array and shader names that
    denote objects, the five handles and the context-initialized flag are
    after the call what they were before. *)
Theorem X11_render_allocates_and_releases_nothing :
  forall cfg ans state d (w : World F),
    live_objects (gl (world_after (Render cfg ans state d) w)) = live_objects (gl w) /\
    handles (globals (world_after (Render cfg ans state d) w)) = handles (globals w).
Proof.
  intros. split; [apply Render_live_objects | apply Render_handles].
Qed.

(** X12: a frame with no refresh pending and the cursor disabled uploads
    nothing: the statics are unchanged and the driver state differs at
    most in the array-buffer binding, which is the vertex buffer. *)
Theorem X12_idle_frame_uploads_nothing :
  forall cfg ans state d (w : World F),
    refresh_opengl (globals w) = false ->
    CursorEnabled state = false ->
    globals (world_after (Render cfg ans state d) w) = globals w /\
    gl (world_after (Render cfg ans state d) w) =
      bind_buffer GL_ARRAY_BUFFER (vbo (globals w)) (gl w).
Proof.
  intros cfg ans state d w Hr Hc. rewrite Render_world. unfold render_world.
  rewrite Hr, Hc. split; reflexivity.
Qed.

(** X13: with the cursor enabled, its mapping granted and a uniform buffer
    in place, the uniform buffer holds after [Render] exactly the
    program's block, whose cursor fields are the cursor box of this frame;
    also in a frame that refreshes, where the box replaces the sentinel
    just written. *)
Theorem X13_cursor_box_is_uploaded :
  forall cfg ans state d (w : World F),
    CursorEnabled state = true ->
    cursor_map_granted ans = true ->
    stored (ubo (globals w)) (gl w) = true ->
    ubo (globals w) <> vbo (globals w) ->
    uploaded_config (world_after (Render cfg ans state d) w) =
      Some (GL_ShaderConfig (globals (world_after (Render cfg ans state d) w))) /\
    cursorPos (GL_ShaderConfig (globals (world_after (Render cfg ans state d) w))) =
      cursor_box cfg state.
Proof.
  intros cfg ans state d w Hc Hg Hs Hne. unfold uploaded_config.
  rewrite Render_world. unfold render_world. rewrite Hc.
  destruct (refresh_opengl (globals w)); unfold cursor_world, frame_state_world; fields;
    unfold set_screen_vertices, set_GL_ShaderConfig, set_refresh_opengl; fields.
  - rewrite buffers_bind_buffer, lookup_uploaded, Hg.
    rewrite stored_store_write, stored_bind_buffer, stored_uploaded, Hs by discriminate.
    rewrite bool_decide_eq_true_2 by reflexivity. split; reflexivity.
  - rewrite buffers_bind_buffer, lookup_uploaded, Hg, Hs.
    rewrite bool_decide_eq_true_2 by reflexivity. split; reflexivity.
Qed.

(** X14: when [glMapBuffer] returns no pointer, the copy into the uniform
    buffer is skipped: no buffer other than the vertex buffer changes,
    while the program's own block is updated all the same, so the two
    differ until a later mapping succeeds. *)
Theorem X14_failed_mapping_skips_the_upload :
  forall cfg ans state d (w : World F) (n : N),
    refresh_map_granted ans = false ->
    cursor_map_granted ans = false ->
    n <> vbo (globals w) ->
    buffers (gl (world_after (Render cfg ans state d) w)) !! n = buffers (gl w) !! n /\
    cursorPos (GL_ShaderConfig (globals (world_after (Render cfg ans state d) w))) =
      (if CursorEnabled state then cursor_box cfg state
       else if refresh_opengl (globals w) then sentinel_box
       else cursorPos (GL_ShaderConfig (globals w))).
Proof.
  intros cfg ans state d w n Hr Hc Hn.
  rewrite Render_world. unfold render_world. rewrite Hr, Hc.
  destruct (refresh_opengl (globals w)), (CursorEnabled state);
    unfold cursor_world, frame_state_world; fields;
    rewrite ?buffers_bind_buffer, ?lookup_uploaded; cbn [andb];
    rewrite ?lookup_store_write, ?binding_bind_buffer, ?buffers_bind_buffer,
      ?lookup_uploaded; cbn [andb];
    rewrite ?(bool_decide_eq_false_2 (vbo (globals w) = n)) by congruence;
    rewrite ?andb_false_r; split; reflexivity.
Qed.
End Presenter.

Lemma X12_idle_frame_witness :
  globals (world_after (Render video32 good_render cursor_disabled stacked)
             (run [DoContextReset good_reset; DoRender video32 good_render cursor_disabled stacked]
                (initial_world (F:=Binary32.t)))) =
  globals (run [DoContextReset good_reset; DoRender video32 good_render cursor_disabled stacked]
             (initial_world (F:=Binary32.t))).
Proof.
  apply (X12_idle_frame_uploads_nothing video32 good_render cursor_disabled stacked
           (run [DoContextReset good_reset; DoRender video32 good_render cursor_disabled stacked]
              (initial_world (F:=Binary32.t)))); reflexivity.
Defined.

Lemma X13_cursor_box_witness :
  cursorPos <$> uploaded_config
    (world_after (Render video32 good_render cursor_on stacked)
       (run [DoContextReset good_reset] (initial_world (F:=Binary32.t)))) =
  Some (cursor_box video32 cursor_on).
Proof.
  destruct (X13_cursor_box_is_uploaded video32 good_render cursor_on stacked
              (run [DoContextReset good_reset] (initial_world (F:=Binary32.t)))
              eq_refl eq_refl eq_refl ltac:(vm_compute; discriminate)) as [Hu Hc].
  rewrite Hu. cbn [fmap option_fmap option_map]. rewrite Hc. reflexivity.
Defined.

Lemma X14_failed_mapping_witness :
  buffers (gl (world_after (Render video32 failed_maps cursor_on stacked)
                 (run [DoContextReset good_reset] (initial_world (F:=Binary32.t))))) !! 4%N =
  buffers (gl (run [DoContextReset good_reset] (initial_world (F:=Binary32.t)))) !! 4%N.
Proof.
  apply (X14_failed_mapping_skips_the_upload video32 failed_maps cursor_on stacked
           (run [DoContextReset good_reset] (initial_world (F:=Binary32.t))) 4%N);
    [reflexivity | reflexivity | vm_compute; discriminate].
Defined.

Lemma X9_presentation_witness :
  List.filter is_presentation
    (calls_of (Render video32 good_render cursor_on stacked) (initial_world (F:=Binary32.t))) =
  [E_glViewport 256 384; E_glDrawArrays 0 12; E_video_refresh 256 384].
Proof.
  apply (X9_one_viewport_one_draw_one_notification video32 good_render cursor_on stacked
           (initial_world (F:=Binary32.t))); cbn; lia.
Defined.

(** * Reset, destroy, reset, and the first frame *)

Section RoundTripFrame.
Context {F : Type} `{FloatOps F}.

Lemma run_app (l1 l2 : list (Step F)) (w : World F) :
  run (l1 ++ l2)%list w = run l2 (run l1 w).
Proof. revert w. induction l1 as [| s l1 IH]; intros w; [reflexivity | apply IH]. Qed.

Lemma ContextReset_keeps_array ans (w : World F) :
  screen_vertices (globals (world_after (ContextReset ans) w)) = screen_vertices (globals w).
Proof.
  destruct ans as [cr ra dc b l nu nv na nt], w as [g s]. gl_unfold. cbn.
  destruct (UsingOpenGl cr && ra), dc, b as [ids |], l; reflexivity.
Qed.

Lemma lost_keeps_globals (w : World F) :
  globals (world_after (step DoContextLost) w) = globals w.
Proof. destruct w as [g s]. reflexivity. Qed.

Lemma before_second_reset_array (w0 : World F) a1 (lost : bool) :
  screen_vertices (globals
    (run ([DoContextReset a1; DoContextDestroy] ++ (if lost then [DoContextLost] else []))%list w0))
  = screen_vertices (globals w0).
Proof.
  destruct lost; cbn [app run step].
  - rewrite lost_keeps_globals, destroy_keeps_globals. apply ContextReset_keeps_array.
  - rewrite destroy_keeps_globals. apply ContextReset_keeps_array.
Qed.

(** The uniform buffer as [Render] leaves it when the cursor is enabled. *)
Lemma Render_uploaded_cursor_enabled cfg ans state d (w : World F) :
  CursorEnabled state = true ->
  stored (ubo (globals w)) (gl w) = true ->
  ubo (globals w) <> vbo (globals w) ->
  uploaded_config (world_after (Render cfg ans state d) w) =
  if cursor_map_granted ans
  then Some (GL_ShaderConfig (globals (world_after (Render cfg ans state d) w)))
  else if refresh_opengl (globals w) && refresh_map_granted ans
       then Some (refreshed_config cfg d (GL_ShaderConfig (globals w)))
       else uploaded_config w.
Proof.
  intros Hc Hs Hne. unfold uploaded_config.
  destruct (Render_keeps_handles cfg ans state d w) as [-> _].
  rewrite Render_world. unfold render_world. rewrite Hc.
  destruct (refresh_opengl (globals w)); cbn [andb]; unfold cursor_world; fields.
  - unfold frame_state_world; fields.
    unfold set_screen_vertices, set_GL_ShaderConfig, set_refresh_opengl; fields.
    rewrite buffers_bind_buffer, lookup_uploaded.
    rewrite bool_decide_eq_true_2 by reflexivity. rewrite andb_true_r.
    rewrite stored_store_write by discriminate.
    rewrite stored_bind_buffer, stored_uploaded, Hs, andb_true_r.
    destruct (cursor_map_granted ans); [reflexivity |].
    rewrite lookup_store_write, binding_bind_buffer.
    rewrite (bool_decide_eq_false_2 (vbo (globals w) = ubo (globals w))) by congruence.
    rewrite andb_false_r, buffers_bind_buffer, lookup_uploaded.
    rewrite bool_decide_eq_true_2 by reflexivity. rewrite Hs, !andb_true_r.
    destruct (refresh_map_granted ans); reflexivity.
  - rewrite buffers_bind_buffer, lookup_uploaded.
    rewrite bool_decide_eq_true_2 by reflexivity. rewrite Hs, !andb_true_r.
    destruct (cursor_map_granted ans); reflexivity.
Qed.

Lemma Render_vertex_buffer cfg ans state d (w : World F) :
  refresh_opengl (globals w) = true ->
  stored (vbo (globals w)) (gl w) = true ->
  ubo (globals w) <> vbo (globals w) ->
  buffers (gl (world_after (Render cfg ans state d) w))
    !! vbo (globals (world_after (Render cfg ans state d) w)) =
  Some (VertexData (screen_vertices (globals (world_after (Render cfg ans state d) w)))).
Proof.
  intros Hr Hs Hne.
  rewrite Render_world. unfold render_world. rewrite Hr.
  destruct (CursorEnabled state); unfold cursor_world, frame_state_world; fields.
  - rewrite buffers_bind_buffer, lookup_uploaded.
    rewrite (bool_decide_eq_false_2 _ Hne), andb_false_r.
    rewrite lookup_store_write. unfold has_store.
    rewrite binding_bind_buffer, stored_bind_buffer, stored_uploaded_ne, Hs by exact Hne.
    rewrite bool_decide_eq_true_2 by reflexivity. reflexivity.
  - rewrite buffers_bind_buffer.
    rewrite lookup_store_write. unfold has_store.
    rewrite binding_bind_buffer, stored_bind_buffer, stored_uploaded_ne, Hs by exact Hne.
    rewrite bool_decide_eq_true_2 by reflexivity. reflexivity.
Qed.

Lemma Render_config cfg ans state d (w : World F) :
  refresh_opengl (globals w) = true ->
  GL_ShaderConfig (globals (world_after (Render cfg ans state d) w)) =
  if CursorEnabled state
  then set_cursorPos (cursor_box cfg state) (refreshed_config cfg d (GL_ShaderConfig (globals w)))
  else refreshed_config cfg d (GL_ShaderConfig (globals w)).
Proof.
  intros Hr. rewrite Render_world. unfold render_world. rewrite Hr.
  destruct (CursorEnabled state); reflexivity.
Qed.

Lemma first_frame_after_reset cfg ans state d (w : World F) :
  refresh_opengl (globals w) = true ->
  GL_ShaderConfig (globals w) = zero_config ->
  buffers (gl w) !! ubo (globals w) = Some (UniformBlock zero_config) ->
  stored (vbo (globals w)) (gl w) = true ->
  ubo (globals w) <> vbo (globals w) ->
  length (screen_vertices (globals w)) = 72%nat ->
  first_frame cfg ans state d (world_after (Render cfg ans state d) w)
    (calls_of (Render cfg ans state d) w).
Proof.
  intros Hr Hc Hu Hv Hne Hlen.
  assert (Hs : stored (ubo (globals w)) (gl w) = true).
  { apply stored_lookup with (UniformBlock zero_config); [exact Hu | discriminate]. }
  unfold first_frame.
  split; [apply Render_clears, Hr |].
  split; [apply Render_clears_flag |].
  split; [rewrite Render_array, Hr; apply rebuild_held, Hlen |].
  split; [apply Render_vertex_buffer; assumption |].
  split; [rewrite Render_config, Hc by exact Hr; reflexivity |].
  destruct (CursorEnabled state) eqn:Ec; cbn [andb].
  - rewrite Render_uploaded_cursor_enabled by assumption.
    rewrite Hr, Hc. cbn [andb]. unfold uploaded_config. rewrite Hu.
    destruct (cursor_map_granted ans), (refresh_map_granted ans); reflexivity.
  - rewrite Render_uploaded_cursor_disabled by assumption.
    rewrite Hr, Hc, Hs. cbn [andb]. unfold uploaded_config. rewrite Hu.
    destruct (refresh_map_granted ans); reflexivity.
Qed.

(** C7, amended: in every sequence reset, destroy, reset whose second
    reset succeeds (the shader program builds and links, the driver
    handing out distinct buffer names), whether or not the host has
    destroyed the old context in between, the second reset allocates the
    shader program, the uniform buffer, the vertex buffer, the vertex
    array and the output texture anew and leaves the refresh flag set.
    The first [Render] after it clears the framebuffer and the flag,
    stores the layout's vertices in [screen_vertices] (72 floats) and
    that array in the vertex buffer, fills the uniform block with the
    buffer size, the scale and the cursor fields, and uploads the block
    as far as the driver grants the mappings. *)
Theorem C7_second_reset_reallocates_and_first_frame_refreshes :
  forall (w0 : World F) a1 (lost : bool) a2 ids cfg ans state d,
    built a2 = Some ids -> linked a2 = true -> new_ubo a2 <> new_vbo a2 ->
    length (screen_vertices (globals w0)) = 72%nat ->
    let before := ([DoContextReset a1; DoContextDestroy] ++
                   (if lost then [DoContextLost] else []))%list in
    let w1 := run before w0 in
    let w2 := run (before ++ [DoContextReset a2])%list w0 in
    List.filter is_allocation (calls_of (ContextReset a2) w1) = allocation_calls a2 /\
    freshly_allocated a2 ids w2 /\
    refresh_opengl (globals w2) = true /\
    ContextInitialized w2 = true /\
    first_frame cfg ans state d (world_after (Render cfg ans state d) w2)
      (calls_of (Render cfg ans state d) w2).
Proof.
  intros w0 a1 lost a2 ids cfg ans state d Hb Hl Hne Hlen before w1 w2.
  assert (E : w2 = reset_world a2 ids w1).
  { subst w1 w2. rewrite run_app. cbn [run step]. apply ContextReset_world; assumption. }
  assert (Hlen1 : length (screen_vertices (globals w1)) = 72%nat).
  { subst w1 before. rewrite before_second_reset_array. exact Hlen. }
  clearbody w1 w2. subst w2.
  pose proof (reset_allocates_fresh a2 ids w1 Hne) as Hfresh.
  split; [apply ContextReset_allocates with ids; assumption |].
  split; [exact Hfresh |].
  split; [reflexivity |].
  split; [reflexivity |].
  destruct Hfresh as (_ & _ & Eu & Hu & Ev & Hv & _).
  apply first_frame_after_reset.
  - reflexivity.
  - reflexivity.
  - rewrite Eu. exact Hu.
  - rewrite Ev. apply stored_lookup with (Uninitialised sizeof_screen_vertices);
      [exact Hv | discriminate].
  - rewrite Eu, Ev. exact Hne.
  - exact Hlen1.
Qed.
End RoundTripFrame.

(** Against C7 as stated: a second reset whose shader program fails to
    build allocates nothing. It issues no [glGen*] call, the vertex-buffer
    handle keeps the name the destroy released, and the context is left
    uninitialised. *)
Lemma C7_failed_second_reset_allocates_nothing :
  List.filter is_allocation
    (calls_of (ContextReset failing_reset)
       (run [DoContextReset good_reset; DoContextDestroy] (initial_world (F:=Binary32.t))))
    = [E_BuildShaderProgram false] /\
  buffers (gl (run [DoContextReset good_reset; DoContextDestroy; DoContextReset failing_reset]
                 (initial_world (F:=Binary32.t))))
    !! vbo (globals (run [DoContextReset good_reset; DoContextDestroy;
                          DoContextReset failing_reset] (initial_world (F:=Binary32.t))))
    = None /\
  ContextInitialized
    (run [DoContextReset good_reset; DoContextDestroy; DoContextReset failing_reset]
       (initial_world (F:=Binary32.t))) = false.
Proof. vm_compute. repeat split. Qed.

(** The round trip at the scenario drivers, in binary32, from the initial
    statics, the host destroying the first context. *)
Lemma C7_round_trip_witness :
  first_frame video32 good_render cursor_on stacked
    (world_after (Render video32 good_render cursor_on stacked)
       (run [DoContextReset good_reset; DoContextDestroy; DoContextLost;
             DoContextReset second_reset] (initial_world (F:=Binary32.t))))
    (calls_of (Render video32 good_render cursor_on stacked)
       (run [DoContextReset good_reset; DoContextDestroy; DoContextLost;
             DoContextReset second_reset] (initial_world (F:=Binary32.t)))).
Proof.
  pose proof (C7_second_reset_reallocates_and_first_frame_refreshes
                (initial_world (F:=Binary32.t)) good_reset true second_reset
                (8%N, 9%N, 10%N) video32 good_render cursor_on stacked
                eq_refl eq_refl ltac:(discriminate) eq_refl) as Hx.
  cbv zeta beta in Hx. exact (proj2 (proj2 (proj2 (proj2 Hx)))).
Defined.

(** * Further properties of the context lifecycle *)

Section Lifecycle.
Context {F : Type} `{FloatOps F}.

(** X15: after [ContextReset] the context-initialized flag says whether the
    shader program built and linked, whatever it said before; the reset
    always ends with the matching log entry, a debug message on success
    and an error on failure. *)
Theorem X15_reset_flag_tells_success :
  forall ans (w : World F),
    ContextInitialized (world_after (ContextReset ans) w) = reset_succeeds ans /\
    last (calls_of (ContextReset ans) w) =
      Some (if reset_succeeds ans
            then E_log RETRO_LOG_DEBUG "OpenGL context reset successfully."
            else E_log RETRO_LOG_ERROR "OpenGL context reset failed.").
Proof.
  intros [cr ra dc b l nu nv na nt] [g s]. unfold reset_succeeds, ContextInitialized.
  cbn [built linked]. gl_unfold. cbn.
  destruct (UsingOpenGl cr && ra), dc, b as [ids |], l; cbn; split; reflexivity.
Qed.


(** X17: [ContextReset] tears the emulator's renderer down first exactly
    when OpenGL is the current renderer and a 3D renderer is assigned, and
    it initialises the renderer once, for the current renderer, whether or
    not the OpenGL setup that follows succeeds. *)
Theorem X17_renderer_teardown_is_guarded :
  forall ans (w : World F),
    List.filter is_renderer_call (calls_of (ContextReset ans) w) =
    ((if bool_decide (CurrentRenderer ans = OpenGl) && renderer_assigned ans
      then [E_DeInitRenderer] else []) ++ [E_InitRenderer (CurrentRenderer ans)])%list.
Proof.
  intros [cr ra dc b l nu nv na nt] [g s]. cbn [CurrentRenderer renderer_assigned].
  gl_unfold. unfold UsingOpenGl. cbn.
  destruct cr, ra, dc, b as [ids |], l; cbn; reflexivity.
Qed.

Lemma step_keeps_handles (s : Step F) (w : World F) :
  is_reset s = false ->
  handles (globals (world_after (step s) w)) = handles (globals w).
Proof.
  destruct s as [a | | cfg ans state d | |]; intros Hs; try discriminate Hs; cbn [step].
  - rewrite destroy_keeps_globals. reflexivity.
  - apply Render_handles.
  - destruct w as [g st]. reflexivity.
  - destruct w as [g st]. reflexivity.
Qed.

(** X18: only a context reset assigns the handles and the
    context-initialized flag. Through any sequence of frames, refresh
    requests and context destroys they keep their values; in particular a
    destroy neither zeroes a handle nor clears the flag. *)
Theorem X18_only_reset_assigns_handles :
  forall (ss : list (Step F)) (w : World F),
    forallb (fun s => negb (is_reset s)) ss = true ->
    handles (globals (run ss w)) = handles (globals w).
Proof.
  induction ss as [| s ss IH]; intros w Hall; [reflexivity |].
  cbn [forallb] in Hall. apply andb_true_iff in Hall as [Hs Hall].
  apply negb_true_iff in Hs. cbn [run].
  rewrite IH by exact Hall. apply step_keeps_handles, Hs.
Qed.

Lemma difference_absent (s : gset N) (n : N) : n ∉ s -> s ∖ {[n]} = s.
Proof. intros Hn. set_unfold. intros x. split; [tauto |]. intros Hx. split; [exact Hx | congruence]. Qed.

(** X20: on a world whose handles name no objects, as before the first
    reset or after a destroy, [context_destroy] releases nothing: every
    buffer, texture, vertex array and shader object is left in place. *)
Theorem X20_destroy_with_nothing_to_release :
  forall w : World F,
    released w ->
    buffers (gl (world_after context_destroy w)) = buffers (gl w) /\
    textures (gl (world_after context_destroy w)) = textures (gl w) /\
    vertex_arrays (gl (world_after context_destroy w)) = vertex_arrays (gl w) /\
    shader_objects (gl (world_after context_destroy w)) = shader_objects (gl w).
Proof.
  intros w (Ht & Ha & Hb & Hs). rewrite context_destroy_world. unfold destroyed_world. fields.
  unfold with_textures; fields. unfold with_vertex_arrays; fields.
  unfold delete_buffer; fields. unfold with_shader_objects; fields.
  repeat split.
  - apply delete_id, Hb.
  - apply difference_absent, Ht.
  - apply difference_absent, Ha.
  - set_unfold. intros x. split; [tauto |]. intros Hx. split; [exact Hx |].
    intros Hin. apply (Hs x); assumption.
Qed.
End Lifecycle.


Lemma X18_handles_witness :
  handles (globals
    (run [ DoRender video32 good_render cursor_on stacked; DoContextDestroy;
           DoRequestRefresh; DoRender video32 good_render cursor_disabled stacked ]
       (run [DoContextReset good_reset] (initial_world (F:=Binary32.t))))) =
  handles (globals (run [DoContextReset good_reset] (initial_world (F:=Binary32.t)))).
Proof.
  apply (X18_only_reset_assigns_handles
           [ DoRender video32 good_render cursor_on stacked; DoContextDestroy;
             DoRequestRefresh; DoRender video32 good_render cursor_disabled stacked ]).
  reflexivity.
Defined.

Lemma initial_world_released `{FloatOps F} : released (initial_world (F:=F)).
Proof.
  unfold released, initial_world, initial_globals, empty_gl; fields. repeat split.
  - set_unfold. tauto.
  - set_unfold. tauto.
  - set_unfold. intros x _ Hx. exact Hx.
Qed.

Lemma X20_nothing_to_release_witness :
  buffers (gl (world_after context_destroy (initial_world (F:=Binary32.t)))) =
  buffers (gl (initial_world (F:=Binary32.t))).
Proof.
  apply (X20_destroy_with_nothing_to_release (initial_world (F:=Binary32.t))).
  apply initial_world_released.
Defined.

(** * Further properties of the entry points *)

(** X21: [retro_reset] and the hardware-context reset callback report an
    error string to the host and request shutdown exactly when their
    engine call raised; a reset that goes through sends the host
    neither. *)
Theorem X21_shutdown_exactly_on_failure :
  forall c : Libretro.Completion unit,
    Libretro.requests_shutdown (fst (Libretro.retro_reset c)) = is_raised c /\
    Libretro.reports_error_string (fst (Libretro.retro_reset c)) = is_raised c /\
    Libretro.requests_shutdown (fst (Libretro.HardwareContextReset c)) = is_raised c /\
    Libretro.reports_error_string (fst (Libretro.HardwareContextReset c)) = is_raised c.
Proof.
  intros [[] | e |]; try (repeat split; reflexivity).
  destruct e; repeat split; reflexivity.
Qed.

(** X22: no exception leaves either hardware-context callback. The reset
    callback returns normally whenever its engine call returns or raises;
    the destroyed callback has no handler and is [noexcept], so an engine
    failure there ends the process instead of reaching the host, and it
    sends the host no error string and no shutdown request. *)
Theorem X22_context_callbacks_let_nothing_out :
  forall (c : Libretro.Completion unit) (e : Libretro.exception),
    snd (Libretro.HardwareContextReset c) <> Libretro.Raised e /\
    snd (Libretro.HardwareContextDestroyed c) <> Libretro.Raised e /\
    snd (Libretro.HardwareContextReset (Libretro.Raised e)) = Libretro.Returned tt /\
    snd (Libretro.HardwareContextDestroyed (Libretro.Raised e)) = Libretro.Terminated /\
    fst (Libretro.HardwareContextDestroyed c) = [].
Proof.
  intros c e. repeat split; try (destruct c as [[] | e' |]; cbn; discriminate).
  destruct c as [[] | e' |]; reflexivity.
Qed.


(** * The cursor box in exact arithmetic *)

(** X23: in exact arithmetic, for a cursor of non-negative size and a touch
    point on the 256x192 screen, the cursor box is well formed and
    contains the touch point's texture coordinate, and that coordinate
    lies in the bottom screen's half of the texture: u in [0, 1) and v in
    [1/2, 1). *)
Theorem X23_cursor_box_contains_the_touch_point :
  forall (cfg : VideoConfig Exact.t) (state : InputState),
    (0 <= CursorSize cfg)%Qc ->
    (0 <= TouchX state < 256)%Z ->
    (0 <= TouchY state < 192)%Z ->
    match cursor_box cfg state, touch_point (F:=Exact.t) state with
    | (x0, y0, x1, y1), (u, v) =>
        ((x0 <= u)%Qc /\ (u <= x1)%Qc) /\ ((y0 <= v)%Qc /\ (v <= y1)%Qc) /\
        ((0 <= u)%Qc /\ (u < 1)%Qc) /\ ((Q2Qc (1 # 2) <= v)%Qc /\ (v < 1)%Qc)
    end.
Proof.
  intros [s scale filter] [ce x y] Hs [Hx0 Hx1] [Hy0 Hy1].
  cbn [CursorSize TouchX TouchY] in *.
  rewrite Zle_Qle in Hx0, Hy0. rewrite Zlt_Qlt in Hx1, Hy1.
  unfold cursor_box, touch_point, half, flit, NDS_SCREEN_HEIGHT, NDS_SCREEN_WIDTH.
  cbn [CursorSize TouchX TouchY fadd fsub fmul fdiv of_int Exact.ops].
  qc_to_q. repeat rewrite Qred_correct.
  set (X := inject_Z x) in *. set (Y := inject_Z y) in *. clearbody X Y.
  change (inject_Z 0) with 0%Q in *. change (inject_Z 192) with 192%Q in *.
  change (inject_Z 135) with 135%Q in *. change (inject_Z 100) with 100%Q in *.
  change (inject_Z 256) with 256%Q in *. change (inject_Z 1) with 1%Q in *.
  change (inject_Z 2) with 2%Q in *. change (inject_Z 3) with 3%Q in *.
  assert (Ex : (/ (192 * (135 * / 100)) == 5 # 1296)%Q) by reflexivity.
  assert (Ey : (/ (256 * (3 * / 2)) == 1 # 384)%Q) by reflexivity.
  assert (Eh : (1 * / 2 == 1 # 2)%Q) by reflexivity.
  rewrite Ex, Ey, Eh.
  repeat split; lra.
Qed.

Lemma X23_cursor_box_witness :
  match cursor_box video_exact cursor_on, touch_point (F:=Exact.t) cursor_on with
  | (x0, y0, x1, y1), (u, v) =>
      ((x0 <= u)%Qc /\ (u <= x1)%Qc) /\ ((y0 <= v)%Qc /\ (v <= y1)%Qc) /\
      ((0 <= u)%Qc /\ (u < 1)%Qc) /\ ((Q2Qc (1 # 2) <= v)%Qc /\ (v < 1)%Qc)
  end.
Proof.
  apply (X23_cursor_box_contains_the_touch_point video_exact cursor_on).
  - unfold Qcle. vm_compute. discriminate.
  - cbn. lia.
  - cbn. lia.
Defined.

(** * Frames in sequence *)

Section Frames.
Context {F : Type} `{FloatOps F}.

Lemma uploaded_again granted c u v (s : GlState F) :
  bind_buffer GL_ARRAY_BUFFER v
    (uploaded granted c u (bind_buffer GL_ARRAY_BUFFER v (uploaded granted c u s))) =
  bind_buffer GL_ARRAY_BUFFER v (uploaded granted c u s).
Proof.
  destruct s as [b t va so ub ab].
  unfold uploaded, has_store, stored, store_write, has_store, stored, bind_buffer,
    with_buffers, binding; fields.
  destruct granted; cbn [andb]; [| reflexivity].
  destruct (b !! u) as [[| sz | c0 | vs] |] eqn:E; fields; rewrite ?E; fields;
    rewrite ?lookup_insert_eq; fields; rewrite ?insert_insert_eq; reflexivity.
Qed.

Lemma render_world_settled cfg ans state d (w1 : World F) :
  refresh_opengl (globals w1) = false ->
  render_world cfg ans state d
    (let w2 := if CursorEnabled state
               then cursor_world cfg (cursor_map_granted ans) state w1 else w1 in
     {| globals := globals w2;
        gl := bind_buffer GL_ARRAY_BUFFER (vbo (globals w2)) (gl w2) |}) =
  (let w2 := if CursorEnabled state
             then cursor_world cfg (cursor_map_granted ans) state w1 else w1 in
   {| globals := globals w2;
      gl := bind_buffer GL_ARRAY_BUFFER (vbo (globals w2)) (gl w2) |}).
Proof.
  intros Hr. destruct w1 as [g1 s1]. cbn [globals] in Hr. cbv zeta.
  unfold render_world.
  destruct (CursorEnabled state); unfold cursor_world; fields.
  - change (refresh_opengl (set_GL_ShaderConfig
              (set_cursorPos (cursor_box cfg state) (GL_ShaderConfig g1)) g1))
      with (refresh_opengl g1).
    rewrite Hr. unfold set_GL_ShaderConfig; fields. f_equal. apply uploaded_again.
  - rewrite Hr. reflexivity.
Qed.

(** X24: presenting the same frame again changes nothing: a second [Render]
    with the same configuration, input, layout and driver answers leaves
    the statics and the driver state exactly as the first one left
    them. *)
Theorem X24_same_frame_twice_is_once :
  forall cfg ans state d (w : World F),
    world_after (Render cfg ans state d) (world_after (Render cfg ans state d) w) =
    world_after (Render cfg ans state d) w.
Proof.
  intros cfg ans state d w. rewrite !Render_world.
  unfold render_world at 2 3.
  apply render_world_settled.
  destruct (refresh_opengl (globals w)) eqn:Er; [reflexivity | exact Er].
Qed.

Lemma Render_keeps_mirror cfg ans state d (w : World F) :
  vbo_mirrors_array w -> vbo_mirrors_array (world_after (Render cfg ans state d) w).
Proof.
  intros [Hm Hne]. unfold vbo_mirrors_array.
  assert (Hs : stored (vbo (globals w)) (gl w) = true).
  { apply stored_lookup with (VertexData (screen_vertices (globals w)));
      [exact Hm | discriminate]. }
  rewrite Render_world. unfold render_world.
  destruct (refresh_opengl (globals w)), (CursorEnabled state);
    unfold cursor_world, frame_state_world; fields;
    unfold set_screen_vertices, set_GL_ShaderConfig, set_refresh_opengl; fields;
    (split; [| exact Hne]);
    rewrite ?buffers_bind_buffer, ?lookup_uploaded;
    rewrite ?(bool_decide_eq_false_2 _ Hne), ?andb_false_r;
    rewrite ?lookup_store_write; unfold has_store;
    rewrite ?binding_bind_buffer, ?stored_bind_buffer, ?stored_uploaded, ?Hs;
    rewrite ?bool_decide_eq_true_2 by reflexivity; cbn [andb];
    rewrite ?buffers_bind_buffer, ?lookup_uploaded;
    rewrite ?(bool_decide_eq_false_2 _ Hne), ?andb_false_r;
    try reflexivity; exact Hm.
Qed.

Lemma step_keeps_mirror (s : Step F) (w : World F) :
  is_frame_or_request s = true ->
  vbo_mirrors_array w -> vbo_mirrors_array (world_after (step s) w).
Proof.
  destruct s as [a | | cfg ans state d | |]; intros Hs Hw; try discriminate Hs; cbn [step].
  - apply Render_keeps_mirror, Hw.
  - destruct w as [g st]. exact Hw.
Qed.

(** X25: once the vertex buffer holds the contents of [screen_vertices],
    as it does after the first frame that follows a successful reset, it
    keeps holding them through every later frame and refresh request:
    the array and its copy on the GPU never drift apart while the
    context lives. *)
Theorem X25_vertex_buffer_mirrors_the_array :
  forall (ss : list (Step F)) (w : World F),
    vbo_mirrors_array w ->
    forallb is_frame_or_request ss = true ->
    vbo_mirrors_array (run ss w).
Proof.
  induction ss as [| s ss IH]; intros w Hw Hall; [exact Hw |].
  cbn [forallb] in Hall. apply andb_true_iff in Hall as [Hs Hall].
  cbn [run]. apply IH; [apply step_keeps_mirror; assumption | exact Hall].
Qed.
End Frames.

Lemma X25_mirror_witness :
  vbo_mirrors_array
    (run [ DoRender video32 good_render cursor_on hybrid_duplicate; DoRequestRefresh;
           DoRender video32 failed_maps cursor_disabled stacked ]
       (run [DoContextReset good_reset; DoRender video32 good_render cursor_disabled stacked]
          (initial_world (F:=Binary32.t)))).
Proof.
  apply (X25_vertex_buffer_mirrors_the_array
           [ DoRender video32 good_render cursor_on hybrid_duplicate; DoRequestRefresh;
             DoRender video32 failed_maps cursor_disabled stacked ]).
  - split; [vm_compute; reflexivity | vm_compute; discriminate].
  - reflexivity.
Defined.
